(** * recalls-platform: the question-answering loop over FDA recall data

    A shallow embedding of the Python sources
      - utils/logger.py                    (module [Logger])
      - third_party/openfda/client.py      (module [Client])
      - third_party/openfda/transforms.py  (module [Transforms])
      - ask/tools.py                       (module [Tools])
      - ask/services.py                    (module [Services])
      - ask/routes.py                      (module [Routes])
    followed by the properties of the specification, proved over it.

    Conventions of the embedding.
    - A Python [str] is a Rocq [string]; a character is a code point below
      256 (Latin-1), which is what [ascii] holds.  [str.lower], the
      whitespace class of [str.split]/[str.strip]/[\s] and [str.isdigit]
      are written out for that range.
    - A Python value that travels through tool arguments, HTTP parameters
      and HTTP responses is a [json] value; a [dict] is an association list
      in insertion order with unique keys.  Numbers are integers (floats are
      outside the model).  A list among the arguments of a function call
      that the model proposes is handed over by the library as a sequence
      of its own ([RepeatedComposite]), which is no [list]: [JRepeated].
    - An exception is an outcome [Raise e]; every effect (an HTTP GET, a
      chat message sent to the model) is appended to an event log, and the
      answers of the outside world are given by two oracles that may depend
      on the whole log so far. *)

From Stdlib Require Import String Ascii List ZArith Bool Lia Arith.
From Stdlib Require Import DecimalString Decimal DecimalZ.
From Stdlib Require Import Sorting.Sorted Sorting.Permutation FinFun.
Import ListNotations.

Local Open Scope string_scope.
Local Open Scope list_scope.

(* ================================================================== *)
(** ** Python strings *)
(* ================================================================== *)

Module PyStr.

Local Open Scope nat_scope.

(** Code point of a character. *)
Definition code (c : ascii) : nat := nat_of_ascii c.

(** [str.isspace] on one character, for code points below 256:
    TAB..CR, FS..US, space, NEL and NBSP.  The same class is [\s] of
    [re] on [str] patterns. *)
Definition is_space (c : ascii) : bool :=
  let n := code c in
  ((9 <=? n) && (n <=? 13)) || ((28 <=? n) && (n <=? 32))
  || (n =? 133) || (n =? 160).

(** [str.lower] on one character: A-Z and the Latin-1 capitals
    (0xC0..0xDE without the multiplication sign 0xD7) move up by 32. *)
Definition lower_char (c : ascii) : ascii :=
  let n := code c in
  if ((65 <=? n) && (n <=? 90))
     || ((192 <=? n) && (n <=? 222) && negb (n =? 215))
  then ascii_of_nat (n + 32) else c.

(** [s.lower()] *)
Fixpoint lower (s : string) : string :=
  match s with
  | EmptyString => EmptyString
  | String c s' => String (lower_char c) (lower s')
  end.

(** [s[n:]] *)
Fixpoint drop (n : nat) (s : string) : string :=
  match n, s with
  | O, _ => s
  | S _, EmptyString => EmptyString
  | S n', String _ s' => drop n' s'
  end.

(** [sub in s] *)
Fixpoint contains (sub s : string) : bool :=
  prefix sub s ||
  match s with
  | EmptyString => false
  | String _ s' => contains sub s'
  end.

(** [s.split(sep, 1)[1]] for a non-empty [sep]: the text after the first
    occurrence of [sep]; [None] is the IndexError raised when [sep] does
    not occur (the list returned by [split] has one element then). *)
Fixpoint after_first (sep s : string) : option string :=
  if prefix sep s then Some (drop (String.length sep) s)
  else match s with
       | EmptyString => None
       | String _ s' => after_first sep s'
       end.

(** [s.lstrip()], [s.rstrip()], [s.strip()] *)
Fixpoint lstrip (s : string) : string :=
  match s with
  | EmptyString => EmptyString
  | String c s' => if is_space c then lstrip s' else s
  end.

Fixpoint rstrip (s : string) : string :=
  match s with
  | EmptyString => EmptyString
  | String c s' =>
      match rstrip s' with
      | EmptyString => if is_space c then EmptyString else String c EmptyString
      | r => String c r
      end
  end.

Definition strip (s : string) : string := rstrip (lstrip s).

(** [s.strip(chars)]: leading and trailing characters of [chars] removed. *)
Definition in_chars (chars : list ascii) (c : ascii) : bool :=
  existsb (Ascii.eqb c) chars.

Fixpoint lstrip_chars (chars : list ascii) (s : string) : string :=
  match s with
  | EmptyString => EmptyString
  | String c s' => if in_chars chars c then lstrip_chars chars s' else s
  end.

Fixpoint rstrip_chars (chars : list ascii) (s : string) : string :=
  match s with
  | EmptyString => EmptyString
  | String c s' =>
      match rstrip_chars chars s' with
      | EmptyString =>
          if in_chars chars c then EmptyString else String c EmptyString
      | r => String c r
      end
  end.

Definition strip_chars (chars : list ascii) (s : string) : string :=
  rstrip_chars chars (lstrip_chars chars s).

(** The double and the single quote, the characters that the sources
    pass to [.strip] after extracting a firm name. *)
Definition quotes : list ascii := [ascii_of_nat 34; ascii_of_nat 39].

(** [s.split()]: the maximal runs of non-whitespace characters. *)
Fixpoint split_ws (s : string) : list string :=
  match s with
  | EmptyString => []
  | String c s' =>
      if is_space c then split_ws s'
      else match s' with
           | EmptyString => [String c EmptyString]
           | String c' _ =>
               if is_space c' then String c EmptyString :: split_ws s'
               else match split_ws s' with
                    | t :: ts => String c t :: ts
                    | [] => [String c EmptyString]
                    end
           end
  end.

(** [sep.join(l)] *)
Definition join (sep : string) (l : list string) : string := String.concat sep l.

(** [t in l] for a list (or tuple) of strings. *)
Definition mem (t : string) (l : list string) : bool :=
  existsb (String.eqb t) l.

(** [str(n)] for an integer. *)
Definition str_of_Z (n : Z) : string := NilZero.string_of_int (Z.to_int n).

(** [c.isdigit()] for one character: 0-9 and the superscripts 2, 3, 1
    (0xB2, 0xB3, 0xB9), which are digits but not decimals. *)
Definition is_digit_char (c : ascii) : bool :=
  let n := code c in
  ((48 <=? n) && (n <=? 57)) || (n =? 178) || (n =? 179) || (n =? 185).

Definition is_decimal_char (c : ascii) : bool :=
  let n := code c in (48 <=? n) && (n <=? 57).

Fixpoint all_chars (p : ascii -> bool) (s : string) : bool :=
  match s with
  | EmptyString => true
  | String c s' => p c && all_chars p s'
  end.

(** [s.isdigit()] *)
Definition isdigit (s : string) : bool :=
  negb (String.eqb s EmptyString) && all_chars is_digit_char s.

(** Value of a run of decimal digits, most significant first. *)
Fixpoint digits_value (acc : Z) (s : string) : Z :=
  match s with
  | EmptyString => acc
  | String c s' => digits_value (10 * acc + Z.of_nat (code c - 48))%Z s'
  end.

(** Removes the single underscores that [int] allows between digits;
    [None] when an underscore is leading, trailing or doubled. *)
Fixpoint drop_underscores (prev_digit : bool) (s : string) : option string :=
  match s with
  | EmptyString => if prev_digit then Some EmptyString else None
  | String c s' =>
      if Ascii.eqb c "_"%char then
        if prev_digit then drop_underscores false s' else None
      else match drop_underscores true s' with
           | Some r => Some (String c r)
           | None => None
           end
  end.

(** The whitespace that [int] skips around a literal: TAB..CR and the
    space, and NEL and NBSP, which it turns into spaces first; not FS..US,
    which [str.strip] removes. *)
Definition is_int_space (c : ascii) : bool :=
  let n := code c in
  ((9 <=? n) && (n <=? 13)) || (n =? 32) || (n =? 133) || (n =? 160).

Fixpoint lstrip_int (s : string) : string :=
  match s with
  | EmptyString => EmptyString
  | String c s' => if is_int_space c then lstrip_int s' else s
  end.

Fixpoint rstrip_int (s : string) : string :=
  match s with
  | EmptyString => EmptyString
  | String c s' =>
      match rstrip_int s' with
      | EmptyString =>
          if is_int_space c then EmptyString else String c EmptyString
      | r => String c r
      end
  end.

(** [sys.int_info.default_max_str_digits]: a literal with more digits is
    refused. *)
Definition max_str_digits : nat := 4300.

(** [int(s)] for a string, base 10: surrounding whitespace, an optional
    sign, decimal digits with single underscores between them, at most
    [max_str_digits] digits; [None] is ValueError. *)
Definition int_of_str (s : string) : option Z :=
  let body := rstrip_int (lstrip_int s) in
  let '(neg, rest) :=
    match body with
    | String "-"%char r => (true, r)
    | String "+"%char r => (false, r)
    | _ => (false, body)
    end in
  match drop_underscores false rest with
  | Some ds =>
      if all_chars is_decimal_char ds && (String.length ds <=? max_str_digits)
      then Some (if neg then (- digits_value 0 ds)%Z else digits_value 0 ds)
      else None
  | None => None
  end.

End PyStr.

(* ================================================================== *)
(** ** Python values *)
(* ================================================================== *)

Module Json.

(** A dictionary key: a string, or an integer (a key [True] is the key
    [1]).  Keys other than strings only arise from bucket terms that the
    remote service returns as numbers. *)
Inductive key : Type :=
| KStr (s : string)
| KInt (z : Z).

Definition key_eqb (a b : key) : bool :=
  match a, b with
  | KStr s, KStr t => String.eqb s t
  | KInt x, KInt y => Z.eqb x y
  | _, _ => false
  end.

#[warnings="-register-all"] Inductive json : Type :=
| JNull
| JBool (b : bool)
| JInt (z : Z)
| JStr (s : string)
| JList (l : list json)
| JDict (d : list (key * json))
| JRepeated (l : list json).

Definition dict : Type := list (key * json).

(** One entry with a string key. *)
Definition kv (k : string) (v : json) : key * json := (KStr k, v).

(** Truth value of a Python object. *)
Definition truthy (j : json) : bool :=
  match j with
  | JNull => false
  | JBool b => b
  | JInt z => negb (Z.eqb z 0)
  | JStr s => negb (String.eqb s EmptyString)
  | JList l => match l with [] => false | _ => true end
  | JDict d => match d with [] => false | _ => true end
  | JRepeated l => match l with [] => false | _ => true end
  end.

(** [a or b] *)
Definition py_or (a b : json) : json := if truthy a then a else b.

(** Dictionaries whose values are of any one type [V]: the lookup, and
    the assignment [d[k] = v], where an existing key keeps its place and
    a new one goes last. *)
Fixpoint lookup {V : Type} (k : key) (d : list (key * V)) : option V :=
  match d with
  | [] => None
  | (k', v) :: d' => if key_eqb k' k then Some v else lookup k d'
  end.

Fixpoint dict_set {V : Type} (k : key) (v : V) (d : list (key * V))
  : list (key * V) :=
  match d with
  | [] => [(k, v)]
  | (k', v') :: d' =>
      if key_eqb k' k then (k', v) :: d' else (k', v') :: dict_set k v d'
  end.

(** [d.get(k)] and [d.get(k, default)] on a dictionary. *)
Definition dict_get (k : string) (d : dict) : json :=
  match lookup (KStr k) d with Some v => v | None => JNull end.

Definition dict_get_default (k : string) (default : json) (d : dict) : json :=
  match lookup (KStr k) d with Some v => v | None => default end.

(** [k in d] *)
Definition has_key (k : string) (d : dict) : bool :=
  match lookup (KStr k) d with Some _ => true | None => false end.

Definition keys {V : Type} (d : list (key * V)) : list key := map fst d.

Definition key_json (k : key) : json :=
  match k with KStr s => JStr s | KInt z => JInt z end.

(** [isinstance(x, int)]: integers and booleans. *)
Definition as_int (j : json) : option Z :=
  match j with
  | JInt z => Some z
  | JBool b => Some (if b then 1%Z else 0%Z)
  | _ => None
  end.

End Json.

(* ================================================================== *)
(** ** Exceptions, effects and the outside world *)
(* ================================================================== *)

Module Eff.
Import Json.

(** The exception classes that occur; all derive from [Exception]. *)
Inductive exn : Type :=
| TypeError
| ValueError
| AttributeError
| IndexError
| OverflowError
| RuntimeError (msg : string)
| UpstreamError.

Inductive outcome (A : Type) : Type :=
| Ok (a : A)
| Raise (e : exn).
Arguments Ok {A} a.
Arguments Raise {A} e.

(** A message sent to the chat session: the question, or the result of a
    tool call tagged with the tool's name. *)
Inductive chat_msg : Type :=
| UserText (question : string)
| ToolResponse (name : string) (payload : dict).

(** What the code reads of a model response: the function calls of the
    parts of its first candidate, each with its name and its arguments as
    a dictionary, and its [text].  The latter is a property of the
    library that can raise: it raises ValueError for a response without
    parts. *)
Record response : Type := {
  text : outcome string;
  function_calls : list (string * dict)
}.

Inductive event : Type :=
| HttpGet (params : dict)
| SendMessage (m : chat_msg).

(** The collaborators outside the sources.  [http] is the remote service
    behind [session.get(...).json()] ([None]: the request or
    [raise_for_status] raises); [gemini] is the chat session ([None]:
    [send_message] raises); both may depend on everything that happened
    before.  [gemini_api_key] is the setting read at start.  [utc_year] is
    [datetime.utcnow().year]; [utc_ymd_days_ago k] is
    [(datetime.utcnow() - timedelta(days=k)).strftime("%Y%m%d")]
    ([None]: OverflowError).  [py_repr] is Python's [str] of a list or a
    dictionary, needed only when such a value is interpolated into a
    query string. *)
Record World : Type := {
  http : list event -> dict -> option json;
  gemini : list event -> chat_msg -> option response;
  gemini_api_key : string;
  utc_year : Z;
  utc_ymd_days_ago : Z -> option string;
  py_repr : json -> string
}.

(** A computation: reads the event log, extends it, returns or raises. *)
Definition M (A : Type) : Type := list event -> outcome A * list event.

Definition ret {A} (a : A) : M A := fun log => (Ok a, log).
Definition raise {A} (e : exn) : M A := fun log => (Raise e, log).

Definition bind {A B} (m : M A) (k : A -> M B) : M B :=
  fun log =>
    match m log with
    | (Ok a, log') => k a log'
    | (Raise e, log') => (Raise e, log')
    end.

Definition lift {A} (o : outcome A) : M A := fun log => (o, log).

(** [try: m  except Exception: h] *)
Definition try_except {A} (m : M A) (h : M A) : M A :=
  fun log =>
    match m log with
    | (Ok a, log') => (Ok a, log')
    | (Raise _, log') => h log'
    end.

(** Pure part: [bind] on outcomes. *)
Definition obind {A B} (o : outcome A) (k : A -> outcome B) : outcome B :=
  match o with
  | Ok a => k a
  | Raise e => Raise e
  end.

(** [for x in l: acc = body(acc, x)] *)
Fixpoint foldM {A B} (body : B -> A -> M B) (l : list A) (acc : B) : M B :=
  match l with
  | [] => ret acc
  | x :: l' => bind (body acc x) (foldM body l')
  end.

Fixpoint ofold {A B} (body : B -> A -> outcome B) (l : list A) (acc : B)
  : outcome B :=
  match l with
  | [] => Ok acc
  | x :: l' => obind (body acc x) (ofold body l')
  end.

(** [[f(x) for x in l]] with a fallible [f]. *)
Fixpoint omap {A B} (f : A -> outcome B) (l : list A) : outcome (list B) :=
  match l with
  | [] => Ok []
  | x :: l' => obind (f x) (fun y => obind (omap f l') (fun ys => Ok (y :: ys)))
  end.

End Eff.

Declare Scope eff_scope.
Delimit Scope eff_scope with eff.
Notation "x <- m ;; k" := (Eff.bind m (fun x => k))
  (at level 61, m at next level, right associativity) : eff_scope.
Notation "x <~ o ;; k" := (Eff.obind o (fun x => k))
  (at level 61, o at next level, right associativity) : eff_scope.

(* ================================================================== *)
(** ** Builtins on values *)
(* ================================================================== *)

Module Builtins.
Import Json Eff.
Local Open Scope eff_scope.

(** [x.get(k, default)] on any value: AttributeError unless a dict. *)
Definition get (x : json) (k : string) (default : json) : outcome json :=
  match x with
  | JDict d => Ok (dict_get_default k default d)
  | _ => Raise AttributeError
  end.

(** [x.strip()] on any value: AttributeError unless a string. *)
Definition strip_str (x : json) : outcome string :=
  match x with
  | JStr s => Ok (PyStr.strip s)
  | _ => Raise AttributeError
  end.

(** [int(x)] *)
Definition int (x : json) : outcome Z :=
  match x with
  | JInt z => Ok z
  | JBool b => Ok (if b then 1%Z else 0%Z)
  | JStr s => match PyStr.int_of_str s with
              | Some z => Ok z
              | None => Raise ValueError
              end
  | _ => Raise TypeError
  end.

(** [iter(x)]: the elements of a list, the characters of a string, the
    keys of a dictionary; TypeError otherwise. *)
Fixpoint chars (s : string) : list json :=
  match s with
  | EmptyString => []
  | String c s' => JStr (String c EmptyString) :: chars s'
  end.

Definition iter (x : json) : outcome (list json) :=
  match x with
  | JList l => Ok l
  | JStr s => Ok (chars s)
  | JDict d => Ok (map key_json (keys d))
  | JRepeated l => Ok l
  | _ => Raise TypeError
  end.

(** [str(x)], as an f-string interpolates a value. *)
Definition format (w : World) (x : json) : string :=
  match x with
  | JStr s => s
  | JInt z => PyStr.str_of_Z z
  | JBool true => "True"
  | JBool false => "False"
  | JNull => "None"
  | _ => py_repr w x
  end.

(** The key that a value hashes to; TypeError for a list or a dict. *)
Definition to_key (x : json) : outcome key :=
  match x with
  | JStr s => Ok (KStr s)
  | JInt z => Ok (KInt z)
  | JBool b => Ok (KInt (if b then 1%Z else 0%Z))
  | _ => Raise TypeError
  end.

(** [max(lo, min(x, hi))] *)
Definition clamp (lo hi x : Z) : Z := Z.max lo (Z.min x hi).

End Builtins.

(* ================================================================== *)
(** ** utils/logger.py *)
(* ================================================================== *)

Module Logger.
Import Json Eff.

(** Whether [json.dumps(x, ensure_ascii=False, sort_keys=True)] returns:
    it raises TypeError for a sequence of the library, which is no JSON
    value, and for a dictionary whose keys cannot be sorted, strings and
    integers mixed. *)
Definition sortable (ks : list key) : bool :=
  forallb (fun k => match k with KStr _ => true | KInt _ => false end) ks
  || forallb (fun k => match k with KStr _ => false | KInt _ => true end) ks.

Fixpoint dumps_ok (x : json) : bool :=
  match x with
  | JList l => forallb dumps_ok l
  | JDict d =>
      sortable (map fst d)
      && forallb (fun e => match e with (_, v) => dumps_ok v end) d
  | JRepeated _ => false
  | _ => true
  end.

(** [kv_message(message, **fields)]: the text it returns only goes to the
    log of the process; what matters is whether building it raises. *)
Definition kv_message (message : string) (fields : dict) : outcome unit :=
  match fields with
  | [] => Ok tt
  | _ => if dumps_ok (JDict fields) then Ok tt else Raise TypeError
  end.

End Logger.

(* ================================================================== *)
(** ** third_party/openfda/client.py *)
(* ================================================================== *)

Module Client.
Import Json Eff Builtins.
Local Open Scope eff_scope.

(** The double quote as a one-character string. *)
Definition dq : string := String (ascii_of_nat 34) EmptyString.

(** [f'{field}:"{value}"'] *)
Definition clause (field value : string) : string :=
  (field ++ ":" ++ dq ++ value ++ dq)%string.

(** [OpenFDAClient._http_get]: one GET, recorded in the log. *)
Definition _http_get (w : World) (params : dict) : M json :=
  fun log =>
    let log' := log ++ [HttpGet params] in
    match http w log params with
    | Some data => (Ok data, log')
    | None => (Raise UpstreamError, log')
    end.

(** [" AND ".join(terms)]: TypeError when a term is not a string. *)
Definition join_terms (terms : list json) : outcome string :=
  ts <~ omap (fun t => match t with
                       | JStr s => Ok s
                       | _ => Raise TypeError
                       end) terms ;;
  Ok (PyStr.join " AND " ts).

(** [OpenFDAClient._compose_search]; the result [None] is [JNull]. *)
Definition _compose_search (w : World) (query classification : json)
  : outcome json :=
  let terms := [] in
  let terms :=
    if truthy classification
    then terms ++ [JStr (clause "classification" (format w classification))]
    else terms in
  let terms := if truthy query then terms ++ [query] else terms in
  match terms with
  | [] => Ok JNull
  | _ => s <~ join_terms terms ;; Ok (JStr s)
  end.

(** [OpenFDAClient.search_enforcements] *)
Definition search_enforcements (w : World) (query classification : json)
    (limit skip : Z) (sort : json) : M json :=
  let limit := Z.max 1 (Z.min limit 100) in
  let params := [kv "limit" (JInt limit); kv "skip" (JInt (Z.max 0 skip))] in
  search <- lift (_compose_search w query classification) ;;
  let params :=
    if truthy search then dict_set (KStr "search") search params else params in
  let params :=
    if truthy sort then dict_set (KStr "sort") sort params else params in
  _http_get w params.

(** [OpenFDAClient.count_buckets] *)
Definition count_buckets (w : World) (field : string) (search : json)
  : M json :=
  let params := [kv "count" (JStr (field ++ ".exact"))] in
  let params :=
    if truthy search then dict_set (KStr "search") search params else params in
  data <- _http_get w params ;;
  results <- lift (get data "results" (JList [])) ;;
  ret (py_or results (JList [])).

(** [OpenFDAClient.get_recent_enforcements] *)
Definition get_recent_enforcements (w : World) (limit : Z) : M json :=
  let limit := Z.max 1 (Z.min limit 100) in
  data <- search_enforcements w JNull JNull limit 0
            (JStr "recall_initiation_date:desc") ;;
  results <- lift (get data "results" (JList [])) ;;
  ret (py_or results (JList [])).

End Client.

(* ================================================================== *)
(** ** third_party/openfda/transforms.py *)
(* ================================================================== *)

Module Transforms.
Import Json Eff Builtins.
Local Open Scope eff_scope.

(** [record.get(k, e) or e] with [e] the empty string. *)
Definition field (record : json) (k : string) : outcome json :=
  v <~ get record k (JStr EmptyString) ;;
  Ok (py_or v (JStr EmptyString)).

(** [normalize_recall] *)
Definition normalize_recall (record : json) : outcome dict :=
  id <~ field record "recall_number" ;;
  classification <~ field record "classification" ;;
  productName <~ field record "product_description" ;;
  recalling <~ get record "recalling_firm" (JStr EmptyString) ;;
  firm <~ get record "firm_name" recalling ;;
  let firmName := py_or firm (JStr EmptyString) in
  status <~ field record "status" ;;
  recallInitiationDate <~ field record "recall_initiation_date" ;;
  state <~ field record "state" ;;
  reasonForRecall <~ field record "reason_for_recall" ;;
  city <~ field record "city" ;;
  Ok [ kv "id" id;
       kv "classification" classification;
       kv "productName" productName;
       kv "firmName" firmName;
       kv "status" status;
       kv "recallInitiationDate" recallInitiationDate;
       kv "state" state;
       kv "reasonForRecall" reasonForRecall;
       kv "city" city ].

(** [extract_year_from_yyyymmdd] on any value: a falsy value or one of
    length below four gives the empty string, a longer string its first
    four characters, a longer list its first four elements; [len] or the
    slice raises on the rest. *)
Definition extract_year_from_yyyymmdd (date_yyyymmdd : json) : outcome json :=
  if negb (truthy date_yyyymmdd) then Ok (JStr EmptyString)
  else
    match date_yyyymmdd with
    | JStr s =>
        if (String.length s <? 4)%nat then Ok (JStr EmptyString)
        else Ok (JStr (substring 0 4 s))
    | JList l =>
        if (List.length l <? 4)%nat then Ok (JStr EmptyString)
        else Ok (JList (firstn 4 l))
    | JDict d =>
        if (List.length d <? 4)%nat then Ok (JStr EmptyString)
        else Raise TypeError
    | JRepeated l =>
        if (List.length l <? 4)%nat then Ok (JStr EmptyString)
        else Raise AttributeError
    | _ => Raise TypeError
    end.

(** The body of the loop of [group_year_counts]. *)
Definition count_year (counts : list (key * Z)) (r : json)
  : outcome (list (key * Z)) :=
  date <~ get r "recall_initiation_date" (JStr EmptyString) ;;
  year <~ extract_year_from_yyyymmdd date ;;
  if negb (truthy year) then Ok counts
  else
    k <~ to_key year ;;
    let old := match lookup k counts with Some n => n | None => 0%Z end in
    Ok (dict_set k (old + 1)%Z counts).

(** [group_year_counts] *)
Definition group_year_counts (records : list json)
  : outcome (list (key * Z)) :=
  ofold count_year records [].

End Transforms.

(* ================================================================== *)
(** ** ask/tools.py *)
(* ================================================================== *)

Module Tools.
Import Json Eff Builtins Client Transforms.
Local Open Scope eff_scope.
Local Open Scope Z_scope.

(** [k in fields] for a key of a normalized record. *)
Definition key_in (k : key) (fields : list json) : bool :=
  existsb (fun e => match to_key e with
                    | Ok k' => key_eqb k k'
                    | Raise _ => false
                    end) fields.

(** [{k: v for k, v in item.items() if k in fields}] *)
Definition project (fields : list json) (item : dict) : dict :=
  filter (fun kv => key_in (fst kv) fields) item.

(** [search_recalls_handler] *)
Definition search_recalls_handler (args : dict) (w : World) : M dict :=
  let query := dict_get "query" args in
  firm <- lift (strip_str (py_or (dict_get "firm" args) (JStr EmptyString))) ;;
  let query :=
    if negb (String.eqb firm EmptyString) then
      let firm_clause := clause "recalling_firm" firm in
      if truthy query
      then JStr ("(" ++ format w query ++ ") AND " ++ firm_clause)%string
      else JStr firm_clause
    else query in
  let classification := dict_get "classification" args in
  let raw_limit := dict_get_default "limit" (JInt 10) args in
  let limit := match int raw_limit with Ok z => z | Raise _ => 10 end in
  let limit := if limit <? 1 then 1 else limit in
  let limit := if limit >? 50 then 50 else limit in
  skip <- lift (int (py_or (dict_get_default "skip" (JInt 0) args) (JInt 0))) ;;
  let sort := dict_get "sort" args in
  let fields := dict_get "fields" args in
  data <- search_enforcements w query classification limit skip sort ;;
  results <- lift (get data "results" (JList [])) ;;
  items <- lift (iter (py_or results (JList []))) ;;
  normalized <- lift (omap normalize_recall items) ;;
  let normalized :=
    match fields with
    | JList (f :: fs) => map (project (f :: fs)) normalized
    | _ => normalized
    end in
  meta <- lift (get data "meta" (JDict [])) ;;
  ret [kv "recalls" (JList (map JDict normalized)); kv "meta" meta].

(** [[s for s in (args.get("stats") or []) if isinstance(s, str)]] *)
Definition strings (xs : list json) : list string :=
  flat_map (fun x => match x with JStr s => [s] | _ => [] end) xs.

Definition stats_requested_of (args : dict) : outcome (list string) :=
  xs <~ iter (py_or (dict_get "stats" args) (JList [])) ;;
  Ok (strings xs).

(** [set(stats_requested) == {"firmTotal"}] *)
Definition only_firm_total (stats_requested : list string) : bool :=
  match stats_requested with
  | [] => false
  | _ => forallb (String.eqb "firmTotal") stats_requested
  end.

(** [int(((meta.get("results") or {}).get("total")) or 0)] with
    [meta = (data or {}).get("meta", {})] *)
Definition read_total (data : json) : outcome Z :=
  meta <~ get (py_or data (JDict [])) "meta" (JDict []) ;;
  results <~ get meta "results" JNull ;;
  total <~ get (py_or results (JDict [])) "total" JNull ;;
  int (py_or total (JInt 0)).

(** The [firmTotal] block.  The boolean tells whether the handler returns
    right after it. *)
Definition firm_total_block (w : World) (args : dict)
    (stats_requested : list string) (classification_filter : string)
    (result : dict) : M (dict * bool) :=
  if PyStr.mem "firmTotal" stats_requested then
    firm <- lift (strip_str (py_or (dict_get "firm" args) (JStr EmptyString))) ;;
    if negb (String.eqb firm EmptyString) then
      let parts := [clause "recalling_firm" firm] in
      let parts :=
        if negb (String.eqb classification_filter EmptyString)
        then parts ++ [clause "classification" classification_filter]
        else parts in
      let query := PyStr.join " AND " parts in
      data <- search_enforcements w (JStr query) JNull 1 0 JNull ;;
      total <- lift (read_total data) ;;
      let result := dict_set (KStr "firmTotal") (JInt total) result in
      let result := dict_set (KStr "firm") (JStr firm) result in
      ret (result, only_firm_total stats_requested)
    else
      ret (dict_set (KStr "firmTotal") (JInt 0) result, false)
  else ret (result, false).

(** One bucket as the pair of [b.get("term", e) or "Unknown"] ([e] the
    empty string) and
    [int(b.get("count", 0) or 0)]. *)
Definition bucket_entry (b : json) : outcome (json * Z) :=
  term <~ get b "term" (JStr EmptyString) ;;
  count <~ get b "count" (JInt 0) ;;
  n <~ int (py_or count (JInt 0)) ;;
  Ok (py_or term (JStr "Unknown"), n).

Definition ints (d : list (key * Z)) : dict :=
  map (fun kv => (fst kv, JInt (snd kv))) d.

Definition sum_values (d : list (key * Z)) : Z :=
  fold_left (fun acc kv => acc + snd kv) d 0.

(** The [byClassification] / [total] block. *)
Definition classification_block (w : World) (stats_requested : list string)
    (result : dict) : M dict :=
  let include_total := PyStr.mem "total" stats_requested in
  let include_class := PyStr.mem "byClassification" stats_requested in
  if include_class || include_total then
    classification_buckets <- count_buckets w "classification" JNull ;;
    bs <- lift (iter classification_buckets) ;;
    recalls_by_classification <-
      lift (ofold (fun acc b =>
                     e <~ bucket_entry b ;;
                     k <~ to_key (fst e) ;;
                     Ok (dict_set k (snd e) acc)) bs []) ;;
    let result :=
      if include_class
      then dict_set (KStr "recallsByClassification")
                    (JDict (ints recalls_by_classification)) result
      else result in
    let result :=
      if include_total
      then dict_set (KStr "totalRecalls")
                    (JInt (sum_values recalls_by_classification)) result
      else result in
    ret result
  else ret result.

(** [{"firm": term, "count": count}] *)
Definition firm_json (e : json * Z) : json :=
  JDict [kv "firm" (fst e); kv "count" (JInt (snd e))].

(** [xs[:n]] on any value: a list or a string can be sliced; the
    sequence of the library fails on a slice with AttributeError. *)
Definition slice_to (xs : json) (n : Z) : outcome (list json) :=
  match xs with
  | JList l => Ok (firstn (Z.to_nat n) l)
  | JStr s => Ok (firstn (Z.to_nat n) (chars s))
  | JRepeated _ => Raise AttributeError
  | _ => Raise TypeError
  end.

(** [sorted(l, key=lambda x: x["count"])]: stable, ascending. *)
Fixpoint insert_by_count (x : json * Z) (l : list (json * Z))
  : list (json * Z) :=
  match l with
  | [] => [x]
  | y :: l' =>
      if snd x <=? snd y then x :: y :: l' else y :: insert_by_count x l'
  end.

Fixpoint sorted_by_count (l : list (json * Z)) : list (json * Z) :=
  match l with
  | [] => []
  | x :: l' => insert_by_count x (sorted_by_count l')
  end.

(** [[b for b in sorted_asc if b["count"] > 0][:bottom_limit]] *)
Definition bottom_firms (entries : list (json * Z)) (bottom_limit : Z)
  : list (json * Z) :=
  firstn (Z.to_nat bottom_limit)
         (filter (fun b => snd b >? 0) (sorted_by_count entries)).

(** The two limits of the firm rankings, each clamped to 1..10. *)
Definition firm_limits (args : dict) : outcome (Z * Z) :=
  limit <~ int (py_or (dict_get_default "topFirmsLimit" (JInt 5) args)
                      (JInt 5)) ;;
  let limit := clamp 1 10 limit in
  bottom_limit <~
    int (py_or (dict_get_default "bottomFirmsLimit" (JInt limit) args)
               (JInt limit)) ;;
  Ok (limit, clamp 1 10 bottom_limit).

(** The [topFirms] / [bottomFirms] block. *)
Definition firms_block (w : World) (args : dict)
    (stats_requested : list string) (classification_filter : string)
    (result : dict) : M dict :=
  let include_top_firms := PyStr.mem "topFirms" stats_requested in
  let include_bottom_firms := PyStr.mem "bottomFirms" stats_requested in
  if include_top_firms || include_bottom_firms then
    limits <- lift (firm_limits args) ;;
    let limit := fst limits in
    let bottom_limit := snd limits in
    let search_clause :=
      if negb (String.eqb classification_filter EmptyString)
      then JStr (clause "classification" classification_filter)
      else JNull in
    firm_buckets <- count_buckets w "recalling_firm" search_clause ;;
    result <-
      (if include_top_firms then
         bs <- lift (slice_to firm_buckets limit) ;;
         top_firms <- lift (omap bucket_entry bs) ;;
         ret (dict_set (KStr "topFirms") (JList (map firm_json top_firms))
                       result)
       else ret result) ;;
    if include_bottom_firms then
      bs <- lift (iter firm_buckets) ;;
      entries <- lift (omap bucket_entry bs) ;;
      let bottom := bottom_firms entries bottom_limit in
      ret (dict_set (KStr "bottomFirms") (JList (map firm_json bottom))
                    result)
    else ret result
  else ret result.

(** [range(a, b)] *)
Definition range (a b : Z) : list Z :=
  map (fun i => a + Z.of_nat i) (seq 0 (Z.to_nat (b - a))).

(** The year range: the arguments when both are integers in order, the
    last ten years otherwise. *)
Definition year_range (w : World) (args : dict) : Z * Z :=
  let start_year := dict_get "startYear" args in
  let end_year := dict_get "endYear" args in
  let this_year := utc_year w in
  match as_int start_year, as_int end_year with
  | Some s, Some e => if s >? e then (this_year - 9, this_year) else (s, e)
  | _, _ => (this_year - 9, this_year)
  end.

(** [f"recall_initiation_date:[{year}0101 TO {year}1231]"] *)
Definition year_clause (year : Z) : string :=
  ("recall_initiation_date:[" ++ PyStr.str_of_Z year ++ "0101 TO "
     ++ PyStr.str_of_Z year ++ "1231]")%string.

(** The body of the loop over the years, with its [try]/[except]. *)
Definition year_body (w : World) (recalls_by_year : list (key * Z))
    (year : Z) : M (list (key * Z)) :=
  let search := year_clause year in
  try_except
    (data <- search_enforcements w (JStr search) JNull 1 0 JNull ;;
     total <- lift (read_total data) ;;
     ret (dict_set (KStr (PyStr.str_of_Z year)) total recalls_by_year))
    (ret (dict_set (KStr (PyStr.str_of_Z year)) 0 recalls_by_year)).

(** [max(items, key=lambda kv: kv[1])] and [min(...)]: the first extremal
    item in iteration order. *)
Fixpoint max_item (best : key * Z) (l : list (key * Z)) : key * Z :=
  match l with
  | [] => best
  | x :: l' => max_item (if snd x >? snd best then x else best) l'
  end.

Fixpoint min_item (best : key * Z) (l : list (key * Z)) : key * Z :=
  match l with
  | [] => best
  | x :: l' => min_item (if snd x <? snd best then x else best) l'
  end.

(** [{"year": item[0], "count": item[1]}] *)
Definition year_json (item : key * Z) : json :=
  JDict [kv "year" (key_json (fst item)); kv "count" (JInt (snd item))].

(** The [byYear] / [mostYear] / [leastYear] block. *)
Definition years_block (w : World) (args : dict)
    (stats_requested : list string) (result : dict) : M dict :=
  let include_by_year :=
    PyStr.mem "byYear" stats_requested
    || PyStr.mem "mostYear" stats_requested
    || PyStr.mem "leastYear" stats_requested in
  if include_by_year then
    let yr := year_range w args in
    recalls_by_year <- foldM (year_body w) (range (fst yr) (snd yr + 1)) [] ;;
    let result :=
      if PyStr.mem "byYear" stats_requested
      then dict_set (KStr "recallsByYear") (JDict (ints recalls_by_year))
                    result
      else result in
    let result :=
      match recalls_by_year with
      | first :: rest =>
          if PyStr.mem "mostYear" stats_requested
          then dict_set (KStr "mostYear") (year_json (max_item first rest))
                        result
          else result
      | [] => result
      end in
    let result :=
      match recalls_by_year with
      | first :: rest =>
          if PyStr.mem "leastYear" stats_requested
          then dict_set (KStr "leastYear") (year_json (min_item first rest))
                        result
          else result
      | [] => result
      end in
    ret result
  else ret result.

(** [get_recall_stats_handler] *)
Definition get_recall_stats_handler (args : dict) (w : World) : M dict :=
  stats_requested <- lift (stats_requested_of args) ;;
  classification_filter <-
    lift (strip_str (py_or (dict_get "classification" args) (JStr EmptyString))) ;;
  let result : dict := [] in
  ft <- firm_total_block w args stats_requested classification_filter result ;;
  if snd ft then ret (fst ft)
  else
    result <- classification_block w stats_requested (fst ft) ;;
    result <- firms_block w args stats_requested classification_filter result ;;
    years_block w args stats_requested result.

End Tools.

(* ================================================================== *)
(** ** ask/services.py *)
(* ================================================================== *)

Module Services.
Import Json Eff Builtins Logger Client Tools.
Local Open Scope eff_scope.

(** *** The pattern of the firm-listing override

    [re.search] of
    [(?:recalls\s+for\s+firm|list\s+(?:all\s+)?recalls\s+for\s+firm)\s+(.+)]
    written as a matcher.  Every [\s+] but the last is followed by a
    literal that starts with a letter, so it can only take the whole run
    of whitespace; the last one is followed by [(.+)] and gives characters
    back until [.] finds one that is not a newline. *)

(** A literal at the front of [s]; the rest of [s]. *)
Definition lit (p s : string) : option string :=
  if prefix p s then Some (PyStr.drop (String.length p) s) else None.

(** [\s+] before a literal. *)
Definition spaces (s : string) : option string :=
  match s with
  | String c s' => if PyStr.is_space c then Some (PyStr.lstrip s') else None
  | EmptyString => None
  end.

Definition and_then {A B} (o : option A) (k : A -> option B) : option B :=
  match o with Some a => k a | None => None end.

Definition or_else {A} (o o' : option A) : option A :=
  match o with Some a => Some a | None => o' end.

(** [recalls\s+for\s+firm] *)
Definition recalls_for_firm (s : string) : option string :=
  and_then (lit "recalls" s) (fun s =>
  and_then (spaces s) (fun s =>
  and_then (lit "for" s) (fun s =>
  and_then (spaces s) (fun s =>
  lit "firm" s)))).

(** [.+] to the end of the line. *)
Definition newline : ascii := ascii_of_nat 10.

Fixpoint line (s : string) : string :=
  match s with
  | EmptyString => EmptyString
  | String c s' =>
      if Ascii.eqb c newline then EmptyString else String c (line s')
  end.

(** [\s*(.+)] after one whitespace character was taken: more whitespace
    first, and where that fails the group starts here. *)
Fixpoint more_spaces_then_group (s : string) : option string :=
  match s with
  | EmptyString => None
  | String c s' =>
      or_else (if PyStr.is_space c then more_spaces_then_group s' else None)
              (if Ascii.eqb c newline then None else Some (line s))
  end.

(** [\s+(.+)]; the result is group 1. *)
Definition spaces_then_group (s : string) : option string :=
  match s with
  | String c s' =>
      if PyStr.is_space c then more_spaces_then_group s' else None
  | EmptyString => None
  end.

(** The whole pattern anchored at the front of [s]. *)
Definition firm_list_match_at (s : string) : option string :=
  or_else
    (and_then (recalls_for_firm s) spaces_then_group)
    (and_then (lit "list" s) (fun s =>
     and_then (spaces s) (fun s =>
     or_else
       (and_then (lit "all" s) (fun s =>
        and_then (spaces s) (fun s =>
        and_then (recalls_for_firm s) spaces_then_group)))
       (and_then (recalls_for_firm s) spaces_then_group)))).

(** [re.search(pattern, uq)]: the leftmost match; group 1 of it. *)
Fixpoint firm_list_match (uq : string) : option string :=
  or_else (firm_list_match_at uq)
          (match uq with
           | EmptyString => None
           | String _ uq' => firm_list_match uq'
           end).

(** *** Intent correction (the body of the loop over the function calls) *)

(** The classification named in the question. *)
Definition class_label_of (uq : string) : option string :=
  if PyStr.contains "classification" uq then
    if PyStr.contains " 1" uq || PyStr.contains " class 1" uq
       || PyStr.contains "class i" uq
    then Some "Class I"
    else if PyStr.contains " 2" uq || PyStr.contains " class 2" uq
            || PyStr.contains "class ii" uq
    then Some "Class II"
    else if PyStr.contains " 3" uq || PyStr.contains " class 3" uq
            || PyStr.contains "class iii" uq
    then Some "Class III"
    else None
  else None.

Definition stop_words : list string :=
  ["is"; "are"; "exists"; "for"; "of"; "the"].

(** The firm name taken from the text after the first "firm"; the empty
    string where the sources catch an exception.  The sources repeat these
    lines in three places. *)
Definition extract_firm (uq : string) : string :=
  match PyStr.after_first "firm" uq with
  | Some rest =>
      let firm_part := PyStr.strip rest in
      let tokens :=
        filter (fun t => negb (PyStr.mem t stop_words))
               (PyStr.split_ws firm_part) in
      PyStr.strip_chars PyStr.quotes (PyStr.strip (PyStr.join " " tokens))
  | None => EmptyString
  end.

Definition with_class (class_label : option string) (args : dict) : dict :=
  match class_label with
  | Some label => dict_set (KStr "classification") (JStr label) args
  | None => args
  end.

(** Rule 1: a firm total asked through [get_recall_stats]. *)
Definition firm_total_rewrite (uq : string) (class_label : option string)
    (call : string * dict) : string * dict :=
  let name := fst call in
  let args := snd call in
  if String.eqb name "get_recall_stats"
     && (PyStr.contains "how many" uq && PyStr.contains "firm" uq)
  then
    let firm_name := extract_firm uq in
    let args :=
      [ kv "stats" (JList [JStr "firmTotal"]);
        kv "firm" (py_or (JStr firm_name)
                         (py_or (dict_get "firm" args) (JStr EmptyString))) ] in
    (name, with_class class_label args)
  else call.

(** Rule 2: least / fewest. *)
Definition least_rewrite (uq : string) (class_label : option string)
    (call : string * dict) : string * dict :=
  if PyStr.contains "least" uq || PyStr.contains "fewest" uq
  then
    ("get_recall_stats",
     with_class class_label
       [ kv "stats" (JList [JStr "bottomFirms"]);
         kv "bottomFirmsLimit" (JInt 10) ])
  else call.

(** Rule 3: the recalls of one firm listed. *)
Definition firm_list_rewrite (uq : string) (call : string * dict)
  : string * dict :=
  match firm_list_match uq with
  | Some group =>
      let firm_name := PyStr.strip_chars PyStr.quotes (PyStr.strip group) in
      ("search_recalls",
       [ kv "firm" (JStr firm_name);
         kv "limit" (JInt 50);
         kv "sort" (JStr "recall_initiation_date:desc") ])
  | None => call
  end.

(** The call that is dispatched for the call that the model proposed. *)
Definition correct_intent (question : string) (call : string * dict)
  : string * dict :=
  let uq := PyStr.lower question in
  let class_label := class_label_of uq in
  firm_list_rewrite uq
    (least_rewrite uq class_label
       (firm_total_rewrite uq class_label call)).

(** [call_tool]: the message of its logging statement is built first,
    whatever the level of the logger is, and the arguments are serialised
    for it. *)
Definition call_tool (w : World) (name : string) (args : dict) : M dict :=
  _ <- lift (kv_message "tool_call"
               [kv "name" (JStr name); kv "args" (JDict args)]) ;;
  if String.eqb name "search_recalls" then search_recalls_handler args w
  else if String.eqb name "get_recall_stats"
  then get_recall_stats_handler args w
  else ret [kv "error" (JStr ("Unknown tool: " ++ name)%string)].

(** *** The fallbacks of a turn without function calls *)

(** What the function returns: [{"answer": ..., "data": ...}]. *)
Record reply : Type := {
  answer : string;
  data : option dict
}.

(** [len(x)] *)
Definition len (x : json) : outcome Z :=
  match x with
  | JList l => Ok (Z.of_nat (List.length l))
  | JStr s => Ok (Z.of_nat (String.length s))
  | JDict d => Ok (Z.of_nat (List.length d))
  | JRepeated l => Ok (Z.of_nat (List.length l))
  | _ => Raise TypeError
  end.

(** [len(payload.get("recalls", []) or [])] *)
Definition count_recalls (payload : dict) : outcome Z :=
  len (py_or (dict_get_default "recalls" (JList []) payload) (JList [])).

Definition newest_first : json := JStr "recall_initiation_date:desc".

(** The number after [word], as the first fallback reads it: the first
    token after the first [word] when it is made of digits, 10 otherwise
    and on any exception. *)
Definition number_after (word user_q : string) : Z :=
  match PyStr.after_first word user_q with
  | Some rest =>
      match PyStr.split_ws (PyStr.strip rest) with
      | t :: _ =>
          if PyStr.isdigit t
          then match PyStr.int_of_str t with Some n => n | None => 10%Z end
          else 10%Z
      | [] => 10%Z
      end
  | None => 10%Z
  end.

(** Fallback 1: the last N recalls. *)
Definition last_n_fallback (w : World) (user_q : string) : M reply :=
  let n := number_after "last" user_q in
  payload <- search_recalls_handler
               [kv "limit" (JInt n); kv "sort" newest_first] w ;;
  count <- lift (count_recalls payload) ;;
  ret {| answer := ("Last " ++ PyStr.str_of_Z n
                      ++ " recalls (newest first). Found "
                      ++ PyStr.str_of_Z count ++ ".")%string;
         data := Some payload |}.

(** Fallback 2: the recalls of one firm. *)
Definition firm_list_fallback (w : World) (user_q : string) : M reply :=
  let firm_name := extract_firm user_q in
  payload <- search_recalls_handler
               [ kv "firm" (JStr firm_name); kv "limit" (JInt 50);
                 kv "sort" newest_first ] w ;;
  count <- lift (count_recalls payload) ;;
  ret {| answer := ("Showing " ++ PyStr.str_of_Z count
                      ++ " recalls for firm " ++ firm_name
                      ++ " (newest first).")%string;
         data := Some payload |}.

(** [f'{i+1}. {t.get("firm","Unknown")}: {t.get("count",0)}'] for each
    entry, from rank [i+1] on. *)
Fixpoint top_lines (w : World) (i : Z) (top : list json)
  : outcome (list string) :=
  match top with
  | [] => Ok []
  | t :: top' =>
      firm <~ get t "firm" (JStr "Unknown") ;;
      count <~ get t "count" (JInt 0) ;;
      rest <~ top_lines w (i + 1) top' ;;
      Ok ((PyStr.str_of_Z (i + 1) ++ ". " ++ format w firm ++ ": "
             ++ format w count)%string :: rest)
  end.

Definition nl : string := String newline EmptyString.

(** Fallback 3: the firms with the most recalls. *)
Definition top_firms_fallback (w : World) : M reply :=
  payload <- get_recall_stats_handler
               [ kv "stats" (JList [JStr "topFirms"]);
                 kv "topFirmsLimit" (JInt 10) ] w ;;
  let top := py_or (dict_get_default "topFirms" (JList []) payload)
                   (JList []) in
  if truthy top then
    items <- lift (iter top) ;;
    lines <- lift (top_lines w 0 items) ;;
    ret {| answer := ("Top firms by recall count:" ++ nl
                        ++ PyStr.join nl lines)%string;
           data := Some payload |}
  else
    ret {| answer := "No firm recall data available.";
           data := Some payload |}.

(** The count and the unit after [word], as the time-range fallback reads
    them; on an exception the count read so far stays and the unit is
    "days". *)
Definition count_and_unit (word user_q : string) : Z * string :=
  match PyStr.after_first word user_q with
  | Some rest =>
      match PyStr.split_ws (PyStr.strip rest) with
      | t :: ts =>
          if PyStr.isdigit t then
            match PyStr.int_of_str t with
            | Some n => (n, match ts with u :: _ => u | [] => "days" end)
            | None => (1%Z, "days")
            end
          else (1%Z, t)
      | [] => (1%Z, "days")
      end
  | None => (1%Z, "days")
  end.

(** Fallback 4: the recalls of the last N days, weeks or months. *)
Definition time_range_fallback (w : World) (user_q : string) : M reply :=
  let nu :=
    if PyStr.contains "last" user_q then count_and_unit "last" user_q
    else count_and_unit "past" user_q in
  let n := fst nu in
  let unit := PyStr.rstrip_chars ["s"%char] (snd nu) in
  let days :=
    if String.eqb unit "day" then n
    else if String.eqb unit "week" then (7 * n)%Z
    else if String.eqb unit "month" then (30 * n)%Z
    else n in
  match utc_ymd_days_ago w days, utc_ymd_days_ago w 0 with
  | Some start_str, Some end_str =>
      let query := ("recall_initiation_date:[" ++ start_str ++ " TO "
                      ++ end_str ++ "]")%string in
      payload <- search_recalls_handler
                   [ kv "query" (JStr query); kv "limit" (JInt 50);
                     kv "sort" newest_first ] w ;;
      count <- lift (count_recalls payload) ;;
      ret {| answer := ("Showing " ++ PyStr.str_of_Z count
                          ++ " recalls from " ++ start_str ++ " to "
                          ++ end_str ++ ".")%string;
             data := Some payload |}
  | _, _ => raise OverflowError
  end.

(** Fallback 5: the total of one firm, with a few sample records; [None]
    when the firm name is empty. *)
Definition firm_total_fallback (w : World) (user_q : string)
  : M (option reply) :=
  let firm_name := extract_firm user_q in
  if negb (String.eqb firm_name EmptyString) then
    let query := clause "recalling_firm" firm_name in
    data <- search_enforcements w (JStr query) JNull 1 0 JNull ;;
    total <- lift (read_total data) ;;
    sample_payload <- search_recalls_handler
                        [ kv "query" (JStr query);
                          kv "limit" (JInt (Z.min 10 total));
                          kv "sort" newest_first ] w ;;
    ret (Some {| answer := ("Total recalls for firm " ++ firm_name ++ ": "
                              ++ PyStr.str_of_Z total)%string;
                 data := Some (match sample_payload with
                               | [] => [kv "total" (JInt total)]
                               | _ => sample_payload
                               end) |})
  else ret None.

(** [getattr(response, "text", "") or ""]: the default of [getattr]
    stands in only when the property raises AttributeError; any other
    exception that it raises escapes. *)
Definition final_text_of (response : response) : outcome string :=
  match text response with
  | Ok s => Ok s
  | Raise AttributeError => Ok EmptyString
  | Raise e => Raise e
  end.

(** The path of a turn without function calls. *)
Definition no_function_call (w : World) (question : string)
    (response : response) (last_tool_payload : option dict) : M reply :=
  final_text <- lift (final_text_of response) ;;
  let user_q := PyStr.lower question in
  let has := fun kw => PyStr.contains kw user_q in
  if has "last" && has "recall" then last_n_fallback w user_q
  else if (has "list" || has "recalls for firm" || has "list all recalls")
          && has "firm"
  then firm_list_fallback w user_q
  else if existsb has ["which firms"; "top firms"; "most recalls";
                       "who has the most"]
  then top_firms_fallback w
  else if (has "last" || has "past") && has "recall"
  then time_range_fallback w user_q
  else
    let final := {| answer := final_text; data := last_tool_payload |} in
    if has "how many" && has "firm" then
      r <- try_except (firm_total_fallback w user_q) (ret None) ;;
      match r with
      | Some found => ret found
      | None => ret final
      end
    else ret final.

(** *** The loop *)

(** [chat.send_message] *)
Definition send_message (w : World) (m : chat_msg) : M response :=
  fun log =>
    let log' := log ++ [SendMessage m] in
    match gemini w log m with
    | Some r => (Ok r, log')
    | None => (Raise UpstreamError, log')
    end.

(** One function call of a turn: corrected, dispatched, its payload kept
    as the last one and sent back to the model.  The state is the pair of
    the current response and the last tool payload.  (The logging
    statement after the call serialises the name and the list of the keys
    of the payload, which cannot fail.) *)
Definition dispatch_call (w : World) (question : string)
    (st : response * option dict) (fc : string * dict)
  : M (response * option dict) :=
  let call := correct_intent question fc in
  payload <- call_tool w (fst call) (snd call) ;;
  response <- send_message w (ToolResponse (fst call) payload) ;;
  ret (response, Some payload).

(** One dispatch round: the function calls of the response that opened
    the round, in order. *)
Definition dispatch_round (w : World) (question : string)
    (st : response * option dict) : M (response * option dict) :=
  foldM (dispatch_call w question) (function_calls (fst st)) st.

Definition apology : string := "Sorry, I could not complete the request.".

(** [for _ in range(rounds): ...] and the return after it. *)
Fixpoint conversation_rounds (rounds : nat) (w : World) (question : string)
    (st : response * option dict) : M reply :=
  match rounds with
  | O => ret {| answer := apology; data := snd st |}
  | S rounds' =>
      match function_calls (fst st) with
      | _ :: _ =>
          st' <- dispatch_round w question st ;;
          conversation_rounds rounds' w question st'
      | [] => no_function_call w question (fst st) (snd st)
      end
  end.

Definition max_rounds : nat := 5.

(** [run_conversation_with_gemini] *)
Definition run_conversation_with_gemini (w : World) (question : string)
  : M reply :=
  if String.eqb (gemini_api_key w) EmptyString
  then raise (RuntimeError "GEMINI_API_KEY not set")
  else
    response <- send_message w (UserText question) ;;
    conversation_rounds max_rounds w question (response, None).

End Services.

(* ================================================================== *)
(** ** ask/routes.py *)
(* ================================================================== *)

Module Routes.
Import Json Eff Builtins Services.

(** What can be raised inside the route: an [HTTPException] with its
    status and detail, or an exception of the conversation.  The detail
    of an [HTTPException] is a text, or [str(exc)] of a caught
    exception. *)
Inductive raised : Type :=
| HTTPException (status_code : Z) (detail : detail_text)
| Escaped (e : exn)
with detail_text : Type :=
| Text (s : string)
| StrOf (exc : raised).

(** What the route returns. *)
Inductive http_response : Type :=
| JSONResponse (content : reply).

Inductive result (A : Type) : Type :=
| Returned (a : A)
| Raised (exc : raised).
Arguments Returned {A} a.
Arguments Raised {A} exc.

(** A computation of the route. *)
Definition R (A : Type) : Type := list event -> result A * list event.

(** A computation of the services, run inside the route. *)
Definition run {A} (m : M A) : R A :=
  fun log =>
    match m log with
    | (Ok a, log') => (Returned a, log')
    | (Raise e, log') => (Raised (Escaped e), log')
    end.

(** [try: body  except Exception as exc: handler(exc)]; [HTTPException]
    derives from [Exception] like every other class that occurs. *)
Definition try_except_as {A} (body : R A) (handler : raised -> R A) : R A :=
  fun log =>
    match body log with
    | (Returned a, log') => (Returned a, log')
    | (Raised exc, log') => handler exc log'
    end.

(** The body of the [try] statement of [ask]. *)
Definition ask_body (w : World) (question : string) : R http_response :=
  fun log =>
    if String.eqb (gemini_api_key w) EmptyString
    then (Raised (HTTPException 400 (Text "GEMINI_API_KEY not set")), log)
    else
      match run (run_conversation_with_gemini w question) log with
      | (Returned result, log') => (Returned (JSONResponse result), log')
      | (Raised exc, log') => (Raised exc, log')
      end.

(** [ask]; the body of the request carries the question, which may be
    absent. *)
Definition ask (w : World) (body_question : option string)
  : R http_response :=
  fun log =>
    let question :=
      PyStr.strip (match body_question with
                   | Some q => q
                   | None => EmptyString
                   end) in
    if String.eqb question EmptyString
    then (Raised (HTTPException 400 (Text "Missing 'question'")), log)
    else
      try_except_as (ask_body w question)
        (fun exc log' => (Raised (HTTPException 500 (StrOf exc)), log'))
        log.

End Routes.

(* ================================================================== *)
(** * Vocabulary of the properties *)
(* ================================================================== *)

Import Json Eff Builtins Client Transforms Tools Services.

(** ** Arguments and parameters that the properties name *)

(** The arguments of the three rewrites of the intent correction. *)
Definition firm_total_args (firm : string) : dict :=
  [kv "stats" (JList [JStr "firmTotal"]); kv "firm" (JStr firm)].

Definition bottom_firms_args : dict :=
  [kv "stats" (JList [JStr "bottomFirms"]); kv "bottomFirmsLimit" (JInt 10)].

Definition firm_listing_args (firm : string) : dict :=
  [ kv "firm" (JStr firm); kv "limit" (JInt 50);
    kv "sort" (JStr "recall_initiation_date:desc") ].

(** The parameters of the GET of the fallback for "last 5 recalls". *)
Definition last_five_params : dict :=
  [kv "limit" (JInt 5); kv "skip" (JInt 0); kv "sort" newest_first].

(** A model that answers with text only, and a remote service with two
    records. *)
Definition two_recalls_world : World :=
  {| http := fun _ _ =>
       Some (JDict [ kv "results"
                       (JList [ JDict [kv "recall_number" (JStr "D-1")];
                                JDict [kv "recall_number" (JStr "D-2")] ]);
                     kv "meta" (JDict []) ]);
     gemini := fun _ _ =>
       Some {| text := Ok "Here you are."; function_calls := [] |};
     gemini_api_key := "key";
     utc_year := 2024%Z;
     utc_ymd_days_ago := fun _ => Some "20240101";
     py_repr := fun _ => EmptyString |}.

(** The query and the parameters of the GET of a firm total. *)
Definition firm_total_query (firm classification_filter : string) : string :=
  if String.eqb classification_filter EmptyString
  then clause "recalling_firm" firm
  else (clause "recalling_firm" firm ++ " AND "
          ++ clause "classification" classification_filter)%string.

Definition firm_total_params (firm classification_filter : string) : dict :=
  [ kv "limit" (JInt 1); kv "skip" (JInt 0);
    kv "search" (JStr (firm_total_query firm classification_filter)) ].

(** A remote service that answers every call with no records and the
    given total. *)
Definition one_total_world (total : Z) : World :=
  {| http := fun _ _ =>
       Some (JDict [ kv "results" (JList []);
                     kv "meta" (JDict [kv "results"
                                         (JDict [kv "total" (JInt total)])]) ]);
     gemini := fun _ _ => Some {| text := Ok EmptyString; function_calls := [] |};
     gemini_api_key := "key";
     utc_year := 2024%Z;
     utc_ymd_days_ago := fun _ => Some "20240101";
     py_repr := fun _ => EmptyString |}.

(** ** Dictionaries built by assignments *)

(** [sets ks d d']: [d'] is [d] after the keys [ks] were assigned, in
    this order, values that are not null. *)
Inductive sets : list string -> dict -> dict -> Prop :=
| sets_nil : forall d, sets [] d d
| sets_cons : forall k v ks d d',
    v <> JNull -> sets ks (dict_set (KStr k) v d) d' -> sets (k :: ks) d d'.

(** No null value and only string keys. *)
Definition well_formed (d : dict) : Prop :=
  forall k v, In (k, v) d -> v <> JNull /\ exists s, k = KStr s.

(** ** Tactics *)

(** Breaks the innermost case analysis of an equation on a run. *)
Ltac run_step H :=
  match type of H with
  | context [match ?x with _ => _ end] =>
      lazymatch x with
      | context [match _ with _ => _ end] => fail
      | _ => let E := fresh "E" in destruct x eqn:E; try discriminate H
      end
  end.

(** Runs an equation on a computation to its end. *)
Ltac run_all H :=
  unfold bind, lift, ret in H; repeat run_step H.

(** ** The per-year loop *)

(** The parameters of the GET of one year. *)
Definition year_params (year : Z) : dict :=
  [ kv "limit" (JInt 1); kv "skip" (JInt 0);
    kv "search" (JStr (year_clause year)) ].

(** What the call of one year answers, read as a count: [None] when the
    call fails or its total cannot be read. *)
Definition year_answer (w : World) (log : list event) (year : Z) : option Z :=
  match http w log (year_params year) with
  | Some data =>
      match read_total data with
      | Ok total => Some total
      | Raise _ => None
      end
  | None => None
  end.

(** [str(year)] as a key. *)
Definition year_key (year : Z) : key := KStr (PyStr.str_of_Z year).

Definition or_zero (o : option Z) : Z :=
  match o with Some n => n | None => 0%Z end.

(** The log before the call of the [i]-th year of the loop. *)
Definition log_before (log : list event) (years : list Z) (i : nat)
  : list event :=
  log ++ map (fun y => HttpGet (year_params y)) (firstn i years).

(** The loop as a function: it never raises. *)
Fixpoint year_loop (w : World) (years : list Z) (acc : list (key * Z))
    (log : list event) : list (key * Z) :=
  match years with
  | [] => acc
  | y :: ys =>
      year_loop w ys
        (dict_set (year_key y) (or_zero (year_answer w log y)) acc)
        (log ++ [HttpGet (year_params y)])
  end.

(** ** The keys of a statistics result *)

(** Whether the firm argument is a string that is not empty after
    trimming. *)
Definition firm_given (args : dict) : bool :=
  match strip_str (py_or (dict_get "firm" args) (JStr EmptyString)) with
  | Ok firm => negb (String.eqb firm EmptyString)
  | Raise _ => false
  end.

(** The keys that each block of the handler assigns, by the requested
    metrics. *)
Definition when (b : bool) (ks : list string) : list string :=
  if b then ks else [].

Definition firm_total_keys (stats : list string) (given : bool)
  : list string :=
  when (PyStr.mem "firmTotal" stats) ("firmTotal" :: when given ["firm"]).

Definition classification_keys (stats : list string) : list string :=
  when (PyStr.mem "byClassification" stats) ["recallsByClassification"]
  ++ when (PyStr.mem "total" stats) ["totalRecalls"].

Definition firms_keys (stats : list string) : list string :=
  when (PyStr.mem "topFirms" stats) ["topFirms"]
  ++ when (PyStr.mem "bottomFirms" stats) ["bottomFirms"].

Definition years_keys (stats : list string) : list string :=
  when (PyStr.mem "byYear" stats) ["recallsByYear"]
  ++ when (PyStr.mem "mostYear" stats) ["mostYear"]
  ++ when (PyStr.mem "leastYear" stats) ["leastYear"].

(** The keys of the result for the requested metrics. *)
Definition result_keys (stats : list string) (given : bool) : list string :=
  firm_total_keys stats given ++ classification_keys stats
  ++ firms_keys stats ++ years_keys stats.

(** Proves [sets] for a dictionary given by its assignments. *)
Ltac solve_sets :=
  first [ apply sets_nil
        | eapply sets_cons; [ | solve_sets ]; [discriminate] ].

(** Every key that a result can have. *)
Definition all_result_keys : list string :=
  [ "firmTotal"; "firm"; "recallsByClassification"; "totalRecalls";
    "topFirms"; "bottomFirms"; "recallsByYear"; "mostYear"; "leastYear" ].

(** A request for the firm total and the grand total, and what the
    handler returns for it when the firm has 4 recalls and the
    classification facet is empty. *)
Definition firm_and_total : dict :=
  [kv "stats" (JList [JStr "firmTotal"; JStr "total"]); kv "firm" (JStr "Acme")].

Definition firm_and_total_result : dict :=
  [ kv "firmTotal" (JInt 4); kv "firm" (JStr "Acme");
    kv "totalRecalls" (JInt 0) ].

(** The years of the request. *)
Definition years_of (w : World) (args : dict) : list Z :=
  range (fst (year_range w args)) (snd (year_range w args) + 1).

(** A world in which every remote call fails. *)
Definition failing_world : World :=
  {| http := fun _ _ => None;
     gemini := fun _ _ => None;
     gemini_api_key := "key";
     utc_year := 2024%Z;
     utc_ymd_days_ago := fun _ => Some "20240101";
     py_repr := fun _ => EmptyString |}.

(** A request for the counts of 2020, 2021 and 2022. *)
Definition three_years : dict :=
  [ kv "stats" (JList [JStr "byYear"]);
    kv "startYear" (JInt 2020); kv "endYear" (JInt 2022) ].

(** ** Firm rankings *)



(** The buckets of the example and a world that answers with them. *)
Definition example_buckets : json :=
  JList [ JDict [kv "term" (JStr "A"); kv "count" (JInt 5)];
          JDict [kv "term" (JStr "B"); kv "count" (JInt 0)];
          JDict [kv "term" (JStr "C"); kv "count" (JInt 2)] ].

Definition buckets_world : World :=
  {| http := fun _ _ => Some (JDict [kv "results" example_buckets]);
     gemini := fun _ _ => None;
     gemini_api_key := "key";
     utc_year := 2024%Z;
     utc_ymd_days_ago := fun _ => Some "20240101";
     py_repr := fun _ => EmptyString |}.



(** ** Rounds *)

(** The state of the loop after the question was sent and [k] dispatch
    rounds were run one after the other. *)
Fixpoint after_rounds (k : nat) (w : World) (question : string)
  : M (response * option dict) :=
  match k with
  | O => (response <- send_message w (UserText question) ;;
          ret (response, None))%eff
  | S k' => (st <- after_rounds k' w question ;;
             dispatch_round w question st)%eff
  end.

(** The return after the loop. *)
Definition return_apology (st : response * option dict) : M reply :=
  ret {| answer := apology; data := snd st |}.

(** A model that answers every message with one call of a tool that does
    not exist. *)
Definition insisting_world : World :=
  {| http := fun _ _ => None;
     gemini := fun _ _ =>
       Some {| text := Ok EmptyString; function_calls := [("noop", [])] |};
     gemini_api_key := "key";
     utc_year := 2024%Z;
     utc_ymd_days_ago := fun _ => Some "20240101";
     py_repr := fun _ => EmptyString |}.

(** ** The further properties *)

(** The keys of a normalized record, in order. *)
Definition normalized_keys : list string :=
  [ "id"; "classification"; "productName"; "firmName"; "status";
    "recallInitiationDate"; "state"; "reasonForRecall"; "city" ].


(** Whether a record is counted by [group_year_counts]: its date gives a
    year that is not empty. *)
Definition has_year (r : json) : bool :=
  match get r "recall_initiation_date" (JStr EmptyString) with
  | Ok date =>
      match extract_year_from_yyyymmdd date with
      | Ok year => truthy year
      | Raise _ => false
      end
  | Raise _ => false
  end.

(** A key that is a string of four characters. *)
Definition four_chars (k : key) : Prop :=
  exists s, k = KStr s /\ String.length s = 4.

(** Four records: two of 2024, one without a date, one with a short
    date. *)
Definition dated_records : list json :=
  [ JDict [kv "recall_initiation_date" (JStr "20240115")];
    JDict [kv "recall_initiation_date" (JStr "20241201")];
    JDict [];
    JDict [kv "recall_initiation_date" (JStr "202")] ].

(** The parameters of the GET of [get_recent_enforcements]. *)
Definition recent_params (limit : Z) : dict :=
  [ kv "limit" (JInt (clamp 1 100 limit)); kv "skip" (JInt 0);
    kv "sort" (JStr "recall_initiation_date:desc") ].

(** The parameters that [search_enforcements] sends, given the composed
    search. *)
Definition search_params (search : json) (limit skip : Z) (sort : json)
  : dict :=
  let params :=
    [ kv "limit" (JInt (Z.max 1 (Z.min limit 100)));
      kv "skip" (JInt (Z.max 0 skip)) ] in
  let params :=
    if truthy search then dict_set (KStr "search") search params else params in
  if truthy sort then dict_set (KStr "sort") sort params else params.

(** What the remote answers, as an outcome. *)
Definition answer_of (w : World) (log : list event) (params : dict)
  : outcome json :=
  match http w log params with
  | Some data => Ok data
  | None => Raise UpstreamError
  end.

(** The limit of the search handler: [int(limit)] or 10, within 1..50. *)
Definition handler_limit (args : dict) : Z :=
  let limit :=
    match int (dict_get_default "limit" (JInt 10) args) with
    | Ok z => z
    | Raise _ => 10%Z
    end in
  let limit := if (limit <? 1)%Z then 1%Z else limit in
  if (limit >? 50)%Z then 50%Z else limit.

(** The records of a response: [data.get("results", []) or []],
    iterated. *)
Definition results_of (data : json) : outcome (list json) :=
  match get data "results" (JList []) with
  | Ok results => iter (py_or results (JList []))
  | Raise e => Raise e
  end.

(** The projection that the [fields] argument asks for. *)
Definition projected (fields : json) (normalized : list dict) : list dict :=
  match fields with
  | JList (f :: fs) => map (project (f :: fs)) normalized
  | _ => normalized
  end.

(** A search with a projection on two known fields and one unknown. *)
Definition projected_search : dict :=
  [kv "fields" (JList [JStr "city"; JStr "id"; JStr "zip"])].

(** What the search handler returns for it when the remote service has
    the two records of [two_recalls_world]. *)
Definition projected_payload : dict :=
  [ kv "recalls"
      (JList [ JDict [kv "id" (JStr "D-1"); kv "city" (JStr EmptyString)];
               JDict [kv "id" (JStr "D-2"); kv "city" (JStr EmptyString)] ]);
    kv "meta" (JDict []) ].

(** The parameters of a search without any argument. *)
Definition default_search_params : dict :=
  [kv "limit" (JInt 10); kv "skip" (JInt 0)].

(** The metric names that the statistics handler knows. *)
Definition all_metrics : list string :=
  [ "total"; "byClassification"; "topFirms"; "bottomFirms"; "byYear";
    "mostYear"; "leastYear"; "firmTotal" ].

(** Whether one of [metrics] is requested. *)
Definition requests_any (metrics stats : list string) : bool :=
  existsb (fun m => PyStr.mem m stats) metrics.

(** The parameters of a facet call. *)
Definition facet_params (field : string) (search : json) : dict :=
  let params := [kv "count" (JStr (field ++ ".exact"))] in
  if truthy search then dict_set (KStr "search") search params else params.

(** The parameters of the classification facet call. *)
Definition classification_facet : dict :=
  [kv "count" (JStr "classification.exact")].

(** An event that is a GET. *)
Definition is_get (e : event) : Prop :=
  match e with
  | HttpGet _ => True
  | SendMessage _ => False
  end.

(** A computation that only appends GETs to the log, at most [n] of
    them, whether it returns or raises. *)
Definition gets_at_most {A : Type} (n : nat) (m : M A) : Prop :=
  forall log,
    exists ext,
      snd (m log) = log ++ ext
      /\ List.length ext <= n
      /\ Forall is_get ext.

(** A request for every metric over three years. *)
Definition everything : dict :=
  [ kv "stats" (JList (map JStr all_metrics)); kv "firm" (JStr "Acme");
    kv "startYear" (JInt 2020); kv "endYear" (JInt 2022) ].



(** The classification mapping built from the buckets: the dictionary
    comprehension of the handler. *)
Definition classification_mapping (bs : list json)
  : outcome (list (key * Z)) :=
  ofold (fun acc b =>
           match bucket_entry b with
           | Ok e =>
               match to_key (fst e) with
               | Ok k => Ok (dict_set k (snd e) acc)
               | Raise x => Raise x
               end
           | Raise x => Raise x
           end) bs [].

(** A key that is neither the empty string nor zero. *)
Definition labelled (k : key) : Prop :=
  k <> KStr EmptyString /\ k <> KInt 0.

(** A request for both classification metrics, and a remote service whose
    facet has a bucket without a term. *)
Definition both_classification_metrics : list string :=
  ["total"; "byClassification"].

Definition unlabelled_world : World :=
  {| http := fun _ _ =>
       Some (JDict
               [kv "results"
                  (JList [ JDict [kv "term" (JStr "Class II");
                                  kv "count" (JInt 7)];
                           JDict [kv "term" (JStr EmptyString);
                                  kv "count" (JInt 2)] ])]);
     gemini := fun _ _ => None;
     gemini_api_key := "key";
     utc_year := 2024%Z;
     utc_ymd_days_ago := fun _ => Some "20240101";
     py_repr := fun _ => EmptyString |}.

(** A model that asks for one unknown tool on the question and answers
    with text afterwards. *)
Definition one_call_world : World :=
  {| http := fun _ _ => None;
     gemini := fun _ m =>
       match m with
       | UserText _ =>
           Some {| text := Ok EmptyString; function_calls := [("noop", [])] |}
       | ToolResponse _ _ =>
           Some {| text := Ok "Done."; function_calls := [] |}
       end;
     gemini_api_key := "key";
     utc_year := 2024%Z;
     utc_ymd_days_ago := fun _ => Some "20240101";
     py_repr := fun _ => EmptyString |}.

(** The parameters of the GET of the fallback for the last [n] recalls. *)
Definition last_n_params (n : Z) : dict :=
  [ kv "limit" (JInt (clamp 1 50 n)); kv "skip" (JInt 0);
    kv "sort" newest_first ].

(** The arguments that the fallback passes to the search handler. *)
Definition last_n_args (n : Z) : dict :=
  [kv "limit" (JInt n); kv "sort" newest_first].

(** The question of a request body, absent or not. *)
Definition question_of (body_question : option string) : string :=
  PyStr.strip (match body_question with
               | Some q => q
               | None => EmptyString
               end).

(** The status of what the route answers: 200 for a response that it
    returns, the status of an [HTTPException] that it raises. *)
Definition status_of {A : Type} (o : Routes.result A) : option Z :=
  match o with
  | Routes.Returned _ => Some 200%Z
  | Routes.Raised (Routes.HTTPException status_code _) => Some status_code
  | Routes.Raised (Routes.Escaped _) => None
  end.

(** A model that asks for the grand total, the list of the metrics being
    handed over by the library as a sequence of its own. *)
Definition total_asking_world : World :=
  {| http := fun _ _ => None;
     gemini := fun _ _ =>
       Some {| text := Ok EmptyString;
               function_calls :=
                 [("get_recall_stats",
                   [kv "stats" (JRepeated [JStr "total"])])] |};
     gemini_api_key := "key";
     utc_year := 2024%Z;
     utc_ymd_days_ago := fun _ => None;
     py_repr := fun _ => EmptyString |}.

(** A world in which today is 2024-01-01 and the day two weeks before
    2023-12-18; no other date can be formatted. *)
Definition fortnight_world : World :=
  {| http := http two_recalls_world;
     gemini := fun _ _ => None;
     gemini_api_key := "key";
     utc_year := 2024%Z;
     utc_ymd_days_ago := fun k =>
       if Z.eqb k 14 then Some "20231218"
       else if Z.eqb k 0 then Some "20240101" else None;
     py_repr := fun _ => EmptyString |}.

(** A world without the credential. *)
Definition keyless_world : World :=
  {| http := fun _ _ => None;
     gemini := fun _ _ => None;
     gemini_api_key := EmptyString;
     utc_year := 2024%Z;
     utc_ymd_days_ago := fun _ => None;
     py_repr := fun _ => EmptyString |}.

Import Routes.

(** The conditions of the fallbacks that come before the firm-total one:
    the last N recalls and the time range, the recalls of one firm, the
    firms with the most recalls. *)
Definition earlier_fallback (user_q : string) : bool :=
  let has := fun kw => PyStr.contains kw user_q in
  ((has "last" || has "past") && has "recall")
  || ((has "list" || has "recalls for firm" || has "list all recalls")
      && has "firm")
  || existsb has ["which firms"; "top firms"; "most recalls";
                  "who has the most"].

(** A text between double quotes. *)
Definition quoted (s : string) : string :=
  String (ascii_of_nat 34) (s ++ String (ascii_of_nat 34) EmptyString).

(** The arguments that the firm-listing fallback passes to the search
    handler, and the parameters of the GET that follows: no [search] when
    the firm is empty. *)
Definition firm_list_args (firm_name : string) : dict :=
  [ kv "firm" (JStr firm_name); kv "limit" (JInt 50);
    kv "sort" newest_first ].

Definition firm_list_params (firm : string) : dict :=
  if String.eqb firm EmptyString
  then [ kv "limit" (JInt 50); kv "skip" (JInt 0); kv "sort" newest_first ]
  else [ kv "limit" (JInt 50); kv "skip" (JInt 0);
         kv "search" (JStr ("recalling_firm:" ++ quoted firm));
         kv "sort" newest_first ].

(** The condition of the firm-listing fallback. *)
Definition asks_firm_list (user_q : string) : bool :=
  let has := fun kw => PyStr.contains kw user_q in
  (has "list" || has "recalls for firm" || has "list all recalls")
  && has "firm".

(** The facet call of the firm rankings: filtered by the classification
    when one is given. *)
Definition firm_facet (classification_filter : string) : dict :=
  if String.eqb classification_filter EmptyString
  then [ kv "count" (JStr "recalling_firm.exact") ]
  else [ kv "count" (JStr "recalling_firm.exact");
         kv "search"
            (JStr ("classification:" ++ quoted classification_filter)) ].

(** The arguments of the fallback for the firms with the most recalls. *)
Definition top_firms_args : dict :=
  [ kv "stats" (JList [JStr "topFirms"]); kv "topFirmsLimit" (JInt 10) ].

(** The condition of that fallback. *)
Definition asks_top_firms (user_q : string) : bool :=
  existsb (fun kw => PyStr.contains kw user_q)
          ["which firms"; "top firms"; "most recalls"; "who has the most"].

(** The days that the time-range fallback goes back for a count and a
    unit: weeks are 7 days, months 30, and any other unit counts as
    days. *)
Definition days_back (n : Z) (unit : string) : Z :=
  let unit := PyStr.rstrip_chars ["s"%char] unit in
  if String.eqb unit "day" then n
  else if String.eqb unit "week" then (7 * n)%Z
  else if String.eqb unit "month" then (30 * n)%Z
  else n.

(** The search of the time-range fallback and the parameters of its
    GET. *)
Definition date_range (start_str end_str : string) : string :=
  ("recall_initiation_date:[" ++ start_str ++ " TO " ++ end_str ++ "]")%string.

Definition range_params (start_str end_str : string) : dict :=
  [ kv "limit" (JInt 50); kv "skip" (JInt 0);
    kv "search" (JStr (date_range start_str end_str));
    kv "sort" newest_first ].

(* ================================================================== *)
(** * Properties *)
(* ================================================================== *)

(** ** Substrings *)

Lemma prefix_app_l : forall p q s,
  prefix (p ++ q)%string s = true -> prefix p s = true.
Proof.
  induction p as [|c p IH]; intros q s H.
  - destruct s; reflexivity.
  - destruct s as [|d s]; simpl in *; [discriminate|].
    destruct (ascii_dec c d); [eauto | discriminate].
Qed.

Lemma contains_app_l : forall p q s,
  PyStr.contains (p ++ q)%string s = true -> PyStr.contains p s = true.
Proof.
  intros p q s; induction s as [|c s IH]; cbn [PyStr.contains]; intro H;
    apply orb_true_iff in H; apply orb_true_iff; destruct H as [H|H].
  - left; exact (prefix_app_l _ _ _ H).
  - discriminate.
  - left; exact (prefix_app_l _ _ _ H).
  - right; auto.
Qed.

(** A hint in roman numerals for class II or III contains the hint for
    class I, which the code tests first. *)
Lemma class_label_roman_shadowed : forall uq,
  PyStr.contains "classification" uq = true ->
  PyStr.contains "class ii" uq = true \/ PyStr.contains "class iii" uq = true ->
  class_label_of uq = Some "Class I".
Proof.
  intros uq Hgate Hroman.
  assert (Hi : PyStr.contains "class i" uq = true).
  { destruct Hroman as [H|H].
    - apply (contains_app_l "class i" "i"); exact H.
    - apply (contains_app_l "class i" "ii"); exact H. }
  unfold class_label_of; rewrite Hgate, Hi.
  rewrite !orb_true_r; reflexivity.
Qed.

(** ** The record normalizer *)

(** Normalization of a dictionary never raises. *)
Lemma normalize_recall_total : forall record : dict,
  exists r, normalize_recall (JDict record) = Ok r.
Proof.
  intro record; eexists; unfold normalize_recall, field; simpl; reflexivity.
Qed.

(** C10: a record whose key [firm_name] is present with the value null or
    the empty string is normalized to [firmName] the empty string,
    whatever its [recalling_firm] holds. *)
Theorem normalize_recall_firm_name_present_empty :
  forall (record : dict) (v : json),
    lookup (KStr "firm_name") record = Some v ->
    v = JNull \/ v = JStr EmptyString ->
    exists r,
      normalize_recall (JDict record) = Ok r
      /\ lookup (KStr "firmName") r = Some (JStr EmptyString).
Proof.
  intros record v Hpresent Hv.
  eexists; split.
  - unfold normalize_recall, field; simpl; reflexivity.
  - simpl. unfold dict_get_default at 1. rewrite Hpresent.
    destruct Hv; subst v; reflexivity.
Qed.

Lemma normalize_recall_firm_name_present_empty_witness :
  exists r,
    normalize_recall
      (JDict [kv "firm_name" JNull; kv "recalling_firm" (JStr "Acme")]) = Ok r
    /\ lookup (KStr "firmName") r = Some (JStr EmptyString).
Proof.
  apply (normalize_recall_firm_name_present_empty
           [kv "firm_name" JNull; kv "recalling_firm" (JStr "Acme")] JNull).
  - reflexivity.
  - left; reflexivity.
Defined.

(** The firm name falls back to [recalling_firm] when the key [firm_name]
    is absent. *)
Lemma normalize_recall_firm_name_absent :
  forall record : dict,
    lookup (KStr "firm_name") record = None ->
    exists r,
      normalize_recall (JDict record) = Ok r
      /\ lookup (KStr "firmName") r
         = Some (py_or (dict_get_default "recalling_firm" (JStr EmptyString)
                                         record)
                       (JStr EmptyString)).
Proof.
  intros record Habsent.
  eexists; split.
  - unfold normalize_recall, field; simpl; reflexivity.
  - simpl. unfold dict_get_default at 1. rewrite Habsent. reflexivity.
Qed.

(** ** The intent-correction layer *)

(** The call that is dispatched for "how many recalls for firm Acme class
    1" is not the firm total of "acme" in Class I. *)
Lemma firm_total_class_question_counterexample :
  correct_intent "how many recalls for firm Acme class 1"
                 ("get_recall_stats", [])
  <> ("get_recall_stats",
      firm_total_args "acme" ++ [kv "classification" (JStr "Class I")]).
Proof. vm_compute; discriminate. Qed.

(** C1, as the code has it: for "how many recalls for firm Acme class 1"
    and a proposed [get_recall_stats] call, the firm-total rewrite gives
    exactly the arguments [stats = [firmTotal]], [firm = "acme class 1"]
    (all the text after "firm"), with no classification, since the
    question lacks the word "classification".  For a question that has
    that word, here "how many classification class 1 recalls has firm
    Acme", the layer dispatches [get_recall_stats] with exactly
    [stats = [firmTotal]], [firm = "acme"], [classification = "Class I"]. *)
Theorem firm_total_class_question :
  class_label_of (PyStr.lower "how many recalls for firm Acme class 1") = None
  /\ (forall args,
        firm_total_rewrite
          (PyStr.lower "how many recalls for firm Acme class 1")
          (class_label_of (PyStr.lower "how many recalls for firm Acme class 1"))
          ("get_recall_stats", args)
        = ("get_recall_stats", firm_total_args "acme class 1"))
  /\ (forall args,
        correct_intent "how many classification class 1 recalls has firm Acme"
                       ("get_recall_stats", args)
        = ("get_recall_stats",
           firm_total_args "acme" ++ [kv "classification" (JStr "Class I")])).
Proof.
  split; [reflexivity|].
  split; intro args; vm_compute; reflexivity.
Qed.

(** What is dispatched in the end for that question: the listing pattern
    occurs in it, so the last rule replaces the firm total. *)
Lemma dispatched_for_class_question : forall args,
  correct_intent "how many recalls for firm Acme class 1"
                 ("get_recall_stats", args)
  = ("search_recalls", firm_listing_args "acme class 1").
Proof. intro args; vm_compute; reflexivity. Qed.

(** A question with "fewest" for which the dispatched arguments are not
    the two keys alone. *)
Lemma least_override_counterexample :
  PyStr.contains "fewest"
    (PyStr.lower "which firm has the fewest classification class 1 recalls")
  = true
  /\ correct_intent
       "which firm has the fewest classification class 1 recalls"
       ("search_recalls", [])
     <> ("get_recall_stats", bottom_firms_args).
Proof. split; [reflexivity | vm_compute; discriminate]. Qed.

(** C6, as the code has it: when the lower-cased question contains "least"
    or "fewest" and the firm-listing pattern does not occur in it, then
    whatever the model proposed, [get_recall_stats] is dispatched with
    [stats = [bottomFirms]], [bottomFirmsLimit = 10], followed by
    [classification] when a classification hint is detected. *)
Theorem least_override :
  forall (question : string) (call : string * dict),
    PyStr.contains "least" (PyStr.lower question) = true
    \/ PyStr.contains "fewest" (PyStr.lower question) = true ->
    firm_list_match (PyStr.lower question) = None ->
    correct_intent question call
    = ("get_recall_stats",
       match class_label_of (PyStr.lower question) with
       | None => bottom_firms_args
       | Some label =>
           bottom_firms_args ++ [kv "classification" (JStr label)]
       end).
Proof.
  intros question call Hleast Hno_list.
  unfold correct_intent, firm_list_rewrite, least_rewrite.
  rewrite Hno_list.
  assert (Hor : PyStr.contains "least" (PyStr.lower question)
                || PyStr.contains "fewest" (PyStr.lower question) = true).
  { apply orb_true_iff; exact Hleast. }
  rewrite Hor.
  destruct (class_label_of (PyStr.lower question)); reflexivity.
Qed.

Lemma least_override_witness :
  correct_intent "who has the least recalls" ("search_recalls", [])
  = ("get_recall_stats", bottom_firms_args).
Proof.
  apply (least_override "who has the least recalls" ("search_recalls", [])).
  - left; reflexivity.
  - reflexivity.
Defined.

(** C7, at a question that asks for class III in roman numerals: the
    least/fewest override injects [classification = "Class I"], for any
    proposed call. *)
Theorem class_hint_roman_three_injected_as_one :
  forall call : string * dict,
    correct_intent "which firms have the fewest class iii classification recalls"
                   call
    = ("get_recall_stats",
       bottom_firms_args ++ [kv "classification" (JStr "Class I")]).
Proof. intro call; vm_compute; reflexivity. Qed.

(** ** The fallback for the last N recalls *)

Lemma last_five_rule_fires :
  forall w response last_tool_payload final_text,
    final_text_of response = Ok final_text ->
    no_function_call w "last 5 recalls" response last_tool_payload
    = last_n_fallback w (PyStr.lower "last 5 recalls").
Proof.
  intros w response last final_text H.
  unfold no_function_call; rewrite H; reflexivity.
Qed.

Lemma last_five_number :
  number_after "last" (PyStr.lower "last 5 recalls") = 5%Z.
Proof. reflexivity. Qed.

(** The handler called with a limit and a sort only: one GET with these
    two and [skip = 0]; a payload, when one is returned, holds the list
    of the recalls under [recalls]. *)
Lemma search_recalls_handler_limit_sort : forall w log,
  exists o,
    search_recalls_handler [kv "limit" (JInt 5); kv "sort" newest_first] w log
    = (o, log ++ [HttpGet last_five_params])
    /\ match o with
       | Ok payload =>
           exists recalls,
             lookup (KStr "recalls") payload = Some (JList recalls)
             /\ count_recalls payload
                = Ok (Z.of_nat (List.length recalls))
       | Raise _ => True
       end.
Proof.
  intros w log.
  unfold search_recalls_handler, search_enforcements, _http_get, bind, lift,
    ret; simpl.
  change [ (KStr "limit", JInt (Z.max 1 (Z.min 5 100)));
           (KStr "skip", JInt (Z.max 0 0));
           (KStr "sort",
            dict_get "sort" [kv "limit" (JInt 5); kv "sort" newest_first]) ]
    with last_five_params.
  destruct (http w log last_five_params) as [data|]; [|eexists; split; [reflexivity | exact I]].
  destruct (get data "results" (JList [])) as [results|e];
    [|eexists; split; [reflexivity | exact I]].
  destruct (iter (py_or results (JList []))) as [items|e];
    [|eexists; split; [reflexivity | exact I]].
  destruct (omap normalize_recall items) as [normalized|e];
    [|eexists; split; [reflexivity | exact I]].
  destruct (get data "meta" (JDict [])) as [meta|e];
    [|eexists; split; [reflexivity | exact I]].
  eexists; split; [reflexivity|].
  exists (map JDict normalized); split; [reflexivity|].
  unfold count_recalls, dict_get_default; simpl.
  destruct normalized; reflexivity.
Qed.

(** For the question "last 5 recalls", a turn without function calls
    whose text can be read (in any round that the budget still allows)
    makes the loop call the search handler with [limit = 5] and
    [sort = "recall_initiation_date:desc"]: one GET with these parameters
    and [skip = 0].  When the handler returns a payload, the loop returns
    it as data with the answer "Last 5 recalls (newest first). Found
    <count>." where <count> is the number of recalls of the payload; when
    the handler raises, so does the loop. *)
Lemma last_five_recalls_fallback :
  forall (w : World) (response : response) (last_tool_payload : option dict)
         (log : list event) (rounds : nat) (final_text : string),
    function_calls response = [] ->
    final_text_of response = Ok final_text ->
    exists o,
      search_recalls_handler
        [kv "limit" (JInt 5); kv "sort" newest_first] w log
      = (o, log ++ [HttpGet last_five_params])
      /\ match o with
         | Ok payload =>
             exists recalls,
               lookup (KStr "recalls") payload = Some (JList recalls)
               /\ conversation_rounds (S rounds) w "last 5 recalls"
                    (response, last_tool_payload) log
                  = (Ok {| answer :=
                             ("Last 5 recalls (newest first). Found "
                                ++ PyStr.str_of_Z
                                     (Z.of_nat (List.length recalls))
                                ++ ".")%string;
                           data := Some payload |},
                     log ++ [HttpGet last_five_params])
         | Raise e =>
             conversation_rounds (S rounds) w "last 5 recalls"
               (response, last_tool_payload) log
             = (Raise e, log ++ [HttpGet last_five_params])
         end.
Proof.
  intros w response last_tool_payload log rounds final_text Hnone Htext.
  destruct (search_recalls_handler_limit_sort w log) as [o [Hcall Hshape]].
  exists o; split; [exact Hcall|].
  cbn [conversation_rounds fst snd]; rewrite Hnone.
  rewrite (last_five_rule_fires _ _ _ _ Htext).
  unfold last_n_fallback; rewrite last_five_number.
  unfold bind; rewrite Hcall.
  destruct o as [payload|e]; [|reflexivity].
  destruct Hshape as [recalls [Hrecalls Hcount]].
  exists recalls; split; [exact Hrecalls|].
  unfold lift; rewrite Hcount; reflexivity.
Qed.

Lemma last_five_recalls_fallback_witness :
  exists o,
    search_recalls_handler
      [kv "limit" (JInt 5); kv "sort" newest_first] two_recalls_world []
    = (o, [] ++ [HttpGet last_five_params])
    /\ match o with
       | Ok payload =>
           exists recalls,
             lookup (KStr "recalls") payload = Some (JList recalls)
             /\ conversation_rounds 5 two_recalls_world "last 5 recalls"
                  ({| text := Ok "Here you are."; function_calls := [] |}, None)
                  []
                = (Ok {| answer :=
                           ("Last 5 recalls (newest first). Found "
                              ++ PyStr.str_of_Z
                                   (Z.of_nat (List.length recalls))
                              ++ ".")%string;
                         data := Some payload |},
                   [] ++ [HttpGet last_five_params])
       | Raise e =>
           conversation_rounds 5 two_recalls_world "last 5 recalls"
             ({| text := Ok "Here you are."; function_calls := [] |}, None) []
           = (Raise e, [] ++ [HttpGet last_five_params])
       end.
Proof.
  apply (last_five_recalls_fallback two_recalls_world
           {| text := Ok "Here you are."; function_calls := [] |} None [] 4
           "Here you are."); reflexivity.
Defined.

(** C4, at a turn that has no function call and no other part either:
    the text of such a response cannot be read, the ValueError of the
    library is not covered by the default of [getattr], and the loop
    raises it before any fallback is tried: nothing is fetched and no
    answer is returned, where the claim has the first fallback fire. *)
Theorem last_five_recalls_turn_without_parts :
  forall (w : World) (response : response) (last_tool_payload : option dict)
         (log : list event) (rounds : nat),
    function_calls response = [] ->
    text response = Raise ValueError ->
    conversation_rounds (S rounds) w "last 5 recalls"
      (response, last_tool_payload) log
    = (Raise ValueError, log).
Proof.
  intros w response last_tool_payload log rounds Hnone Htext.
  cbn [conversation_rounds fst snd]; rewrite Hnone.
  unfold no_function_call, final_text_of; rewrite Htext; reflexivity.
Qed.

Lemma last_five_recalls_turn_without_parts_witness :
  conversation_rounds 5 two_recalls_world "last 5 recalls"
    ({| text := Raise ValueError; function_calls := [] |}, None) []
  = (Raise ValueError, []).
Proof.
  apply (last_five_recalls_turn_without_parts two_recalls_world
           {| text := Raise ValueError; function_calls := [] |} None [] 4);
    reflexivity.
Defined.

(** The whole run when the first turn of the model is such a turn. *)
Lemma last_five_run_without_parts :
  run_conversation_with_gemini
    {| http := http two_recalls_world;
       gemini := fun _ _ =>
         Some {| text := Raise ValueError; function_calls := [] |};
       gemini_api_key := "key";
       utc_year := 2024%Z;
       utc_ymd_days_ago := fun _ => None;
       py_repr := fun _ => EmptyString |}
    "last 5 recalls" []
  = (Raise ValueError, [SendMessage (UserText "last 5 recalls")]).
Proof. reflexivity. Qed.

(** The whole run for that world: the text of the model is dropped. *)
Lemma last_five_run :
  exists payload,
    run_conversation_with_gemini two_recalls_world "last 5 recalls" []
    = (Ok {| answer := "Last 5 recalls (newest first). Found 2.";
             data := Some payload |},
       [SendMessage (UserText "last 5 recalls"); HttpGet last_five_params]).
Proof. eexists; vm_compute; reflexivity. Qed.

(** ** The firm total on its own *)

Lemma only_firm_total_mem : forall stats,
  only_firm_total stats = true -> PyStr.mem "firmTotal" stats = true.
Proof.
  intros [|s stats] H; [discriminate|].
  cbn [only_firm_total forallb] in H.
  apply andb_true_iff in H; destruct H as [H _].
  unfold PyStr.mem; cbn [existsb]; rewrite H; reflexivity.
Qed.

Lemma only_firm_total_other : forall stats metric,
  only_firm_total stats = true ->
  String.eqb "firmTotal" metric = false ->
  PyStr.mem metric stats = false.
Proof.
  intros stats metric H Hother.
  assert (Hall : forallb (String.eqb "firmTotal") stats = true)
    by (destruct stats; [discriminate | exact H]).
  clear H; induction stats as [|s stats IH]; [reflexivity|].
  cbn [forallb] in Hall.
  apply andb_true_iff in Hall; destruct Hall as [Hs Hall].
  apply String.eqb_eq in Hs; subst s.
  unfold PyStr.mem; cbn [existsb].
  rewrite String.eqb_sym, Hother; exact (IH Hall).
Qed.

(** The search issued for a firm total: one GET with [limit = 1]. *)
Lemma firm_total_search : forall w firm classification_filter,
  search_enforcements w
    (JStr (PyStr.join " AND "
             (if negb (String.eqb classification_filter EmptyString)
              then [clause "recalling_firm" firm]
                     ++ [clause "classification" classification_filter]
              else [clause "recalling_firm" firm])))
    JNull 1 0 JNull
  = _http_get w (firm_total_params firm classification_filter).
Proof.
  intros w firm cf.
  unfold firm_total_params, firm_total_query.
  destruct (String.eqb cf EmptyString); reflexivity.
Qed.

Lemma firm_total_block_firm :
  forall w args stats classification_filter result firm,
    PyStr.mem "firmTotal" stats = true ->
    strip_str (py_or (dict_get "firm" args) (JStr EmptyString)) = Ok firm ->
    firm <> EmptyString ->
    firm_total_block w args stats classification_filter result
    = (data <- _http_get w (firm_total_params firm classification_filter) ;;
       total <- lift (read_total data) ;;
       ret (dict_set (KStr "firm") (JStr firm)
              (dict_set (KStr "firmTotal") (JInt total) result),
            only_firm_total stats))%eff.
Proof.
  intros w args stats cf result firm Hmem Hfirm Hne.
  unfold firm_total_block; rewrite Hmem, Hfirm.
  unfold lift at 1, bind at 1.
  apply String.eqb_neq in Hne; rewrite Hne; cbn [negb].
  cbv zeta. rewrite firm_total_search. reflexivity.
Qed.

(** A request for the firm total alone with a firm that is blank: no
    remote call, and the key [firm] is not set; with a firm that has a
    leading blank: the trimmed firm is returned, not the argument. *)
Lemma firm_total_only_counterexample :
  get_recall_stats_handler
    [kv "stats" (JList [JStr "firmTotal"]); kv "firm" (JStr " ")]
    (one_total_world 3) []
  = (Ok [kv "firmTotal" (JInt 0)], [])
  /\ fst (get_recall_stats_handler
            [kv "stats" (JList [JStr "firmTotal"]); kv "firm" (JStr " Acme")]
            (one_total_world 3) [])
     = Ok [kv "firmTotal" (JInt 3); kv "firm" (JStr "Acme")]
  /\ ~ (exists N,
          fst (get_recall_stats_handler
                 [ kv "stats" (JList [JStr "firmTotal"]);
                   kv "firm" (JStr " Acme") ]
                 (one_total_world 3) [])
          = Ok [kv "firmTotal" (JInt N); kv "firm" (JStr " Acme")]).
Proof.
  split; [vm_compute; reflexivity|].
  split; [vm_compute; reflexivity|].
  intros [N H]; vm_compute in H; discriminate H.
Qed.

(** C2, as the code has it: when the requested metrics are exactly
    [firmTotal], the firm argument is a string that is not empty after
    trimming, and the classification argument is absent, empty or a
    string, the handler issues exactly one GET, with [limit = 1],
    [skip = 0] and the firm (and classification) clause as [search], and
    nothing else; when that call answers with a readable total N the
    handler returns exactly [firmTotal = N], [firm = the trimmed firm];
    when it fails the handler raises. *)
Theorem firm_total_only_short_circuit :
  forall (w : World) (args : dict) (log : list event)
         (stats : list string) (F classification_filter : string),
    stats_requested_of args = Ok stats ->
    only_firm_total stats = true ->
    lookup (KStr "firm") args = Some (JStr F) ->
    PyStr.strip F <> EmptyString ->
    strip_str (py_or (dict_get "classification" args) (JStr EmptyString))
    = Ok classification_filter ->
    get_recall_stats_handler args w log
    = (match http w log
               (firm_total_params (PyStr.strip F) classification_filter) with
       | Some data =>
           match read_total data with
           | Ok N => Ok [ kv "firmTotal" (JInt N);
                          kv "firm" (JStr (PyStr.strip F)) ]
           | Raise e => Raise e
           end
       | None => Raise UpstreamError
       end,
       log ++ [HttpGet (firm_total_params (PyStr.strip F)
                                          classification_filter)]).
Proof.
  intros w args log stats F cf Hstats Honly HF Hne Hcf.
  assert (Hfirm : strip_str (py_or (dict_get "firm" args) (JStr EmptyString))
                  = Ok (PyStr.strip F)).
  { unfold dict_get; rewrite HF.
    destruct F as [|c F]; [exfalso; apply Hne; reflexivity | reflexivity]. }
  unfold get_recall_stats_handler.
  rewrite Hstats, Hcf.
  unfold lift at 1 2, bind at 1 2.
  rewrite (firm_total_block_firm w args stats cf [] _
             (only_firm_total_mem _ Honly) Hfirm Hne).
  rewrite Honly.
  unfold bind, _http_get, lift, ret.
  destruct (http w log (firm_total_params (PyStr.strip F) cf)) as [data|];
    [|reflexivity].
  destruct (read_total data) as [N|e]; reflexivity.
Qed.

Lemma firm_total_only_short_circuit_witness :
  get_recall_stats_handler
    [kv "stats" (JList [JStr "firmTotal"]); kv "firm" (JStr "Acme")]
    (one_total_world 7) []
  = (Ok [kv "firmTotal" (JInt 7); kv "firm" (JStr "Acme")],
     [HttpGet (firm_total_params "Acme" EmptyString)]).
Proof.
  apply (firm_total_only_short_circuit (one_total_world 7)
           [kv "stats" (JList [JStr "firmTotal"]); kv "firm" (JStr "Acme")]
           [] ["firmTotal"] "Acme" EmptyString).
  - reflexivity.
  - reflexivity.
  - reflexivity.
  - vm_compute; discriminate.
  - reflexivity.
Defined.

(** ** Dictionaries *)

Lemma key_eqb_eq : forall a b, key_eqb a b = true <-> a = b.
Proof.
  intros [s|x] [t|y]; simpl; split; intro H; try discriminate.
  - apply String.eqb_eq in H; congruence.
  - inversion H; apply String.eqb_refl.
  - apply Z.eqb_eq in H; congruence.
  - inversion H; apply Z.eqb_refl.
Qed.

Lemma key_eqb_refl : forall a, key_eqb a a = true.
Proof. intro a; apply key_eqb_eq; reflexivity. Qed.

Lemma lookup_dict_set : forall (V : Type) k k' (v : V) d,
  lookup k (dict_set k' v d)
  = if key_eqb k' k then Some v else lookup k d.
Proof.
  intros V k k' v d; induction d as [|[k0 v0] d IH]; simpl.
  - destruct (key_eqb k' k); reflexivity.
  - destruct (key_eqb k0 k') eqn:E0; simpl.
    + apply key_eqb_eq in E0; subst k0.
      destruct (key_eqb k' k); reflexivity.
    + destruct (key_eqb k0 k) eqn:E1; [|exact IH].
      apply key_eqb_eq in E1; subst k0.
      destruct (key_eqb k' k) eqn:E2; [|reflexivity].
      apply key_eqb_eq in E2; subst k'.
      rewrite key_eqb_refl in E0; discriminate.
Qed.

Lemma has_key_dict_set : forall k k' v (d : dict),
  has_key k (dict_set (KStr k') v d) = String.eqb k' k || has_key k d.
Proof.
  intros k k' v d; unfold has_key; rewrite lookup_dict_set.
  cbn [key_eqb]; destruct (String.eqb k' k); reflexivity.
Qed.

Lemma in_dict_set : forall (V : Type) k (v : V) d kv,
  In kv (dict_set k v d) -> kv = (k, v) \/ In kv d.
Proof.
  intros V k v d kv; induction d as [|[k0 v0] d IH]; simpl.
  - intros [H|[]]; left; congruence.
  - destruct (key_eqb k0 k) eqn:E; simpl.
    + apply key_eqb_eq in E; subst k0.
      intros [H|H]; [left; congruence | right; right; exact H].
    + intros [H|H]; [right; left; exact H|].
      destruct (IH H) as [H'|H']; [left | right; right]; exact H'.
Qed.

Lemma dict_set_not_nil : forall (V : Type) k (v : V) d, dict_set k v d <> [].
Proof.
  intros V k v [|[k0 v0] d]; simpl; [discriminate|].
  destruct (key_eqb k0 k); discriminate.
Qed.

Lemma sets_app : forall ks1 ks2 a b c,
  sets ks1 a b -> sets ks2 b c -> sets (ks1 ++ ks2) a c.
Proof.
  intros ks1 ks2 a b c H; revert c; induction H; intros c Hc; simpl.
  - exact Hc.
  - econstructor; eauto.
Qed.

Lemma sets_one : forall k v d,
  v <> JNull -> sets [k] d (dict_set (KStr k) v d).
Proof. intros; econstructor; [eassumption | constructor]. Qed.

Lemma sets_has_key : forall ks d d' k,
  sets ks d d' -> has_key k d' = PyStr.mem k ks || has_key k d.
Proof.
  intros ks d d' k H; induction H.
  - reflexivity.
  - rewrite IHsets, has_key_dict_set.
    unfold PyStr.mem; cbn [existsb].
    rewrite (String.eqb_sym k k0).
    destruct (String.eqb k0 k), (existsb (String.eqb k) ks); reflexivity.
Qed.

Lemma sets_well_formed : forall ks d d',
  sets ks d d' -> well_formed d -> well_formed d'.
Proof.
  intros ks d d' H; induction H; intro Hd; [exact Hd|].
  apply IHsets; intros k0 v0 Hin.
  destruct (in_dict_set _ _ _ _ _ Hin) as [E|Hin'].
  - inversion E; subst; split; [assumption | eexists; reflexivity].
  - exact (Hd _ _ Hin').
Qed.

(** ** Decimal strings *)


(** ** The per-year counts *)

Lemma year_search : forall w year,
  search_enforcements w (JStr (year_clause year)) JNull 1 0 JNull
  = _http_get w (year_params year).
Proof. reflexivity. Qed.

(** One turn of the loop always completes: it issues the call of its year
    and records the count, or 0. *)
Lemma year_body_run : forall w recalls_by_year year log,
  year_body w recalls_by_year year log
  = (Ok (dict_set (year_key year) (or_zero (year_answer w log year))
                  recalls_by_year),
     log ++ [HttpGet (year_params year)]).
Proof.
  intros w acc year log.
  unfold year_body; rewrite year_search.
  unfold try_except, bind, _http_get, lift, ret, year_answer, year_key.
  destruct (http w log (year_params year)) as [data|]; [|reflexivity].
  destruct (read_total data); reflexivity.
Qed.

Lemma year_loop_run : forall w years acc log,
  foldM (year_body w) years acc log
  = (Ok (year_loop w years acc log), log_before log years (List.length years)).
Proof.
  intros w years; induction years as [|y ys IH]; intros acc log.
  - unfold log_before; simpl; rewrite app_nil_r; reflexivity.
  - cbn [foldM year_loop]; unfold bind; rewrite year_body_run, IH.
    unfold log_before; cbn [List.length firstn map].
    rewrite <- app_assoc; reflexivity.
Qed.

Lemma year_loop_not_nil : forall w years acc log,
  acc <> [] \/ years <> [] -> year_loop w years acc log <> [].
Proof.
  intros w years; induction years as [|y ys IH]; intros acc log H; simpl.
  - destruct H as [H|H]; [exact H | congruence].
  - apply IH; left; apply dict_set_not_nil.
Qed.

Lemma range_not_nil : forall a b, (a <= b)%Z -> range a (b + 1) <> [].
Proof.
  intros a b H; unfold range.
  destruct (Z.to_nat (b + 1 - a)) eqn:E; [lia | discriminate].
Qed.

Lemma year_range_ordered : forall w args,
  (fst (year_range w args) <= snd (year_range w args))%Z.
Proof.
  intros w args; unfold year_range.
  destruct (as_int (dict_get "startYear" args)) as [s|];
    [|simpl; lia].
  destruct (as_int (dict_get "endYear" args)) as [e|]; [|simpl; lia].
  destruct (s >? e)%Z eqn:E; simpl; lia.
Qed.

(** ** The keys of the statistics *)

Lemma sets_when : forall (b : bool) k v d,
  v <> JNull ->
  sets (when b [k]) d (if b then dict_set (KStr k) v d else d).
Proof.
  intros [|] k v d Hv; [apply sets_one; exact Hv | constructor].
Qed.

Lemma firm_total_block_sets :
  forall w args stats classification_filter result log ft log',
    firm_total_block w args stats classification_filter result log
    = (Ok ft, log') ->
    sets (firm_total_keys stats (firm_given args)) result (fst ft)
    /\ (snd ft = true -> only_firm_total stats = true).
Proof.
  intros w args stats cf result log ft log' H.
  unfold firm_total_block, firm_total_keys, firm_given in *.
  destruct (PyStr.mem "firmTotal" stats).
  - unfold bind at 1, lift at 1 in H.
    destruct (strip_str (py_or (dict_get "firm" args) (JStr EmptyString)))
      as [firm|e]; [|discriminate H].
    destruct (String.eqb firm EmptyString); cbn [negb] in *.
    + inversion H; subst; cbn [when fst snd]; split; [|discriminate].
      apply sets_one; discriminate.
    + run_all H; inversion H; subst; cbn [when fst snd]; (split; [|auto]);
        solve_sets.
  - inversion H; subst; split; [constructor | discriminate].
Qed.

Lemma classification_block_sets : forall w stats result log result' log',
  classification_block w stats result log = (Ok result', log') ->
  sets (classification_keys stats) result result'.
Proof.
  intros w stats result log result' log' H.
  unfold classification_block, classification_keys in *.
  destruct (PyStr.mem "byClassification" stats),
           (PyStr.mem "total" stats); cbn [orb] in H;
    run_all H; inversion H; subst; cbn [when app];
    solve_sets.
Qed.

Lemma firms_block_sets :
  forall w args stats classification_filter result log result' log',
    firms_block w args stats classification_filter result log
    = (Ok result', log') ->
    sets (firms_keys stats) result result'.
Proof.
  intros w args stats cf result log result' log' H.
  unfold firms_block, firms_keys in *.
  destruct (PyStr.mem "topFirms" stats),
           (PyStr.mem "bottomFirms" stats); cbn [orb] in H;
    run_all H; inversion H; subst; cbn [when app];
    solve_sets.
Qed.

Lemma years_block_sets : forall w args stats result log result' log',
  years_block w args stats result log = (Ok result', log') ->
  sets (years_keys stats) result result'.
Proof.
  intros w args stats result log result' log' H.
  unfold years_block, years_keys in *.
  destruct (PyStr.mem "byYear" stats || PyStr.mem "mostYear" stats
            || PyStr.mem "leastYear" stats) eqn:Hany.
  - unfold bind in H; rewrite year_loop_run in H.
    pose proof (year_loop_not_nil w
                  (range (fst (year_range w args))
                         (snd (year_range w args) + 1)) [] log
                  (or_intror (range_not_nil _ _ (year_range_ordered w args))))
      as Hne.
    destruct (year_loop w _ [] log) as [|first rest]; [congruence|].
    inversion H; subst.
    destruct (PyStr.mem "byYear" stats), (PyStr.mem "mostYear" stats),
             (PyStr.mem "leastYear" stats); cbn [when app];
      solve_sets.
  - destruct (PyStr.mem "byYear" stats), (PyStr.mem "mostYear" stats),
             (PyStr.mem "leastYear" stats); try discriminate Hany.
    inversion H; subst; constructor.
Qed.

Lemma in_has_key : forall s v (d : dict),
  In (KStr s, v) d -> has_key s d = true.
Proof.
  intros s v d; unfold has_key; induction d as [|[k0 v0] d IH]; simpl.
  - intros [].
  - intros [H|H].
    + inversion H; subst; cbn [key_eqb]; rewrite String.eqb_refl; reflexivity.
    + destruct (key_eqb k0 (KStr s)); [reflexivity | exact (IH H)].
Qed.

Lemma only_firm_total_keys : forall stats given,
  only_firm_total stats = true ->
  result_keys stats given = firm_total_keys stats given.
Proof.
  intros stats given H.
  unfold result_keys, classification_keys, firms_keys, years_keys.
  rewrite !(only_firm_total_other stats _ H) by reflexivity.
  cbn [when app]; apply app_nil_r.
Qed.

(** The handler's result is the empty dictionary after the keys of the
    requested metrics were assigned. *)
Lemma get_recall_stats_handler_sets : forall w args log result log',
  get_recall_stats_handler args w log = (Ok result, log') ->
  exists stats,
    stats_requested_of args = Ok stats
    /\ sets (result_keys stats (firm_given args)) [] result.
Proof.
  intros w args log result log' H.
  unfold get_recall_stats_handler in H.
  unfold bind at 1 2, lift at 1 2 in H.
  destruct (stats_requested_of args) as [stats|]; [|discriminate H].
  destruct (strip_str (py_or (dict_get "classification" args) (JStr EmptyString)))
    as [cf|]; [|discriminate H].
  exists stats; split; [reflexivity|].
  unfold bind at 1 in H.
  destruct (firm_total_block w args stats cf [] log) as [[ft|e] l1] eqn:Eft;
    [|discriminate H].
  destruct (firm_total_block_sets _ _ _ _ _ _ _ _ Eft) as [Hft Hearly].
  destruct (snd ft) eqn:Esnd.
  - inversion H; subst.
    rewrite (only_firm_total_keys _ _ (Hearly eq_refl)); exact Hft.
  - unfold bind at 1 in H.
    destruct (classification_block w stats (fst ft) l1) as [[r1|e] l2] eqn:E1;
      [|discriminate H].
    unfold bind at 1 in H.
    destruct (firms_block w args stats cf r1 l2) as [[r2|e] l3] eqn:E2;
      [|discriminate H].
    unfold result_keys.
    eapply sets_app; [exact Hft|].
    eapply sets_app; [eapply classification_block_sets; exact E1|].
    eapply sets_app; [eapply firms_block_sets; exact E2|].
    eapply years_block_sets; exact H.
Qed.

Lemma mem_In : forall k ks, PyStr.mem k ks = true <-> In k ks.
Proof.
  intros k ks; unfold PyStr.mem; rewrite existsb_exists; split.
  - intros [x [Hin Heq]]; apply String.eqb_eq in Heq; subst; exact Hin.
  - intro Hin; exists k; split; [exact Hin | apply String.eqb_refl].
Qed.

Lemma when_incl : forall (b : bool) ks, incl (when b ks) ks.
Proof. intros [|] ks; [apply incl_refl | apply incl_nil_l]. Qed.

Lemma result_keys_known : forall stats given,
  incl (result_keys stats given) all_result_keys.
Proof.
  intros stats given.
  unfold result_keys, firm_total_keys, classification_keys, firms_keys,
    years_keys.
  repeat apply incl_app;
    (eapply incl_tran; [apply when_incl|]);
    try destruct given; cbn [when];
    intros x Hx; simpl in Hx; unfold all_result_keys; simpl; tauto.
Qed.

(** A request for the firm total without a firm: the key [firm] is not
    in the result. *)
Lemma stats_result_keys_counterexample :
  get_recall_stats_handler [kv "stats" (JList [JStr "firmTotal"])]
                           (one_total_world 3) []
  = (Ok [kv "firmTotal" (JInt 0)], [])
  /\ has_key "firm" [kv "firmTotal" (JInt 0)] = false.
Proof. split; reflexivity. Qed.

Lemma mem_app : forall k ks1 ks2,
  PyStr.mem k (ks1 ++ ks2) = PyStr.mem k ks1 || PyStr.mem k ks2.
Proof. intros; unfold PyStr.mem; apply existsb_app. Qed.

Lemma mem_when : forall k (b : bool) ks,
  PyStr.mem k (when b ks) = b && PyStr.mem k ks.
Proof. intros k [|] ks; reflexivity. Qed.

Lemma mem_cons : forall k k' ks,
  PyStr.mem k (k' :: ks) = String.eqb k k' || PyStr.mem k ks.
Proof. reflexivity. Qed.

Lemma mem_one : forall k k', PyStr.mem k [k'] = String.eqb k k'.
Proof. intros; unfold PyStr.mem; cbn [existsb]; apply orb_false_r. Qed.

(** Membership of a key in the keys of the result, by metric. *)
Lemma mem_result_keys : forall stats given k,
  PyStr.mem k (result_keys stats given)
  = PyStr.mem "firmTotal" stats
      && (String.eqb k "firmTotal" || given && String.eqb k "firm")
    || PyStr.mem "byClassification" stats
         && String.eqb k "recallsByClassification"
    || PyStr.mem "total" stats && String.eqb k "totalRecalls"
    || PyStr.mem "topFirms" stats && String.eqb k "topFirms"
    || PyStr.mem "bottomFirms" stats && String.eqb k "bottomFirms"
    || PyStr.mem "byYear" stats && String.eqb k "recallsByYear"
    || PyStr.mem "mostYear" stats && String.eqb k "mostYear"
    || PyStr.mem "leastYear" stats && String.eqb k "leastYear".
Proof.
  intros stats given k.
  unfold result_keys, firm_total_keys, classification_keys, firms_keys,
    years_keys.
  rewrite !mem_app, !mem_when, mem_cons, mem_when, !mem_one.
  rewrite !orb_assoc; reflexivity.
Qed.

(** C8, as the code has it: whenever the handler returns, its result has
    the key of a metric exactly when the metric was requested
    ([totalRecalls] for [total], [recallsByClassification] for
    [byClassification], [recallsByYear] for [byYear], the metric's own
    name otherwise), the key [firm] exactly when [firmTotal] was
    requested with a firm that is not empty after trimming, no other key,
    and no null value. *)
Theorem stats_result_keys :
  forall (w : World) (args : dict) (log : list event)
         (result : dict) (log' : list event),
    get_recall_stats_handler args w log = (Ok result, log') ->
    exists stats,
      stats_requested_of args = Ok stats
      /\ has_key "firmTotal" result = PyStr.mem "firmTotal" stats
      /\ has_key "firm" result
         = PyStr.mem "firmTotal" stats && firm_given args
      /\ has_key "totalRecalls" result = PyStr.mem "total" stats
      /\ has_key "recallsByClassification" result
         = PyStr.mem "byClassification" stats
      /\ has_key "topFirms" result = PyStr.mem "topFirms" stats
      /\ has_key "bottomFirms" result = PyStr.mem "bottomFirms" stats
      /\ has_key "recallsByYear" result = PyStr.mem "byYear" stats
      /\ has_key "mostYear" result = PyStr.mem "mostYear" stats
      /\ has_key "leastYear" result = PyStr.mem "leastYear" stats
      /\ (forall k v, In (k, v) result ->
            v <> JNull /\ exists s, k = KStr s /\ In s all_result_keys).
Proof.
  intros w args log result log' H.
  destruct (get_recall_stats_handler_sets _ _ _ _ _ H) as [stats [Hstats Hsets]].
  exists stats; split; [exact Hstats|].
  assert (Hkey : forall k,
             has_key k result
             = PyStr.mem k (result_keys stats (firm_given args))).
  { intro k; rewrite (sets_has_key _ _ _ k Hsets); apply orb_false_r. }
  assert (Hwf : well_formed result).
  { apply (sets_well_formed _ _ _ Hsets); intros k v []. }
  repeat split;
    try (rewrite Hkey, mem_result_keys;
         repeat match goal with
                | |- context [String.eqb ?a ?b] =>
                    let v := eval vm_compute in (String.eqb a b) in
                    change (String.eqb a b) with v
                end;
         rewrite ?andb_false_r, ?orb_false_r, ?andb_true_r, ?orb_false_l;
         reflexivity).
  - exact (proj1 (Hwf k v H0)).
  - destruct (Hwf k v H0) as [_ [s Hs]]; subst k.
    exists s; split; [reflexivity|].
    apply (result_keys_known stats (firm_given args)).
    apply mem_In; rewrite <- Hkey; exact (in_has_key _ _ _ H0).
Qed.

Lemma stats_result_keys_witness :
  exists stats,
    stats_requested_of firm_and_total = Ok stats
    /\ has_key "firmTotal" firm_and_total_result = PyStr.mem "firmTotal" stats
    /\ has_key "firm" firm_and_total_result
       = PyStr.mem "firmTotal" stats && firm_given firm_and_total
    /\ has_key "totalRecalls" firm_and_total_result = PyStr.mem "total" stats
    /\ has_key "recallsByClassification" firm_and_total_result
       = PyStr.mem "byClassification" stats
    /\ has_key "topFirms" firm_and_total_result = PyStr.mem "topFirms" stats
    /\ has_key "bottomFirms" firm_and_total_result
       = PyStr.mem "bottomFirms" stats
    /\ has_key "recallsByYear" firm_and_total_result
       = PyStr.mem "byYear" stats
    /\ has_key "mostYear" firm_and_total_result = PyStr.mem "mostYear" stats
    /\ has_key "leastYear" firm_and_total_result
       = PyStr.mem "leastYear" stats
    /\ (forall k v, In (k, v) firm_and_total_result ->
          v <> JNull /\ exists s, k = KStr s /\ In s all_result_keys).
Proof.
  apply (stats_result_keys (one_total_world 4) firm_and_total []
           firm_and_total_result
           [ HttpGet (firm_total_params "Acme" EmptyString);
             HttpGet [kv "count" (JStr "classification.exact")] ]).
  reflexivity.
Defined.

(** ** Failures of single years *)



Lemma lookup_none_keys : forall (V : Type) k (d : list (key * V)),
  lookup k d = None <-> ~ In k (keys d).
Proof.
  intros V k d; induction d as [|[k0 v0] d IH]; simpl.
  - split; [intros _ [] | reflexivity].
  - destruct (key_eqb k0 k) eqn:E.
    + apply key_eqb_eq in E; subst k0.
      split; [discriminate | intro H; exfalso; apply H; left; reflexivity].
    + rewrite IH; split.
      * intros H [H'|H']; [|exact (H H')].
        subst k0; rewrite key_eqb_refl in E; discriminate.
      * intros H H'; apply H; right; exact H'.
Qed.





Lemma lookup_ints : forall k (d : list (key * Z)),
  lookup k (ints d) = option_map JInt (lookup k d).
Proof.
  intros k d; induction d as [|[k0 v0] d IH]; simpl; [reflexivity|].
  destruct (key_eqb k0 k); [reflexivity | exact IH].
Qed.



(** A request for per-year metrics only is answered by the per-year
    block alone, so the handler never raises on it. *)
Lemma years_only_request : forall w args stats classification_filter log,
  stats_requested_of args = Ok stats ->
  strip_str (py_or (dict_get "classification" args) (JStr EmptyString))
  = Ok classification_filter ->
  PyStr.mem "firmTotal" stats = false ->
  PyStr.mem "byClassification" stats = false ->
  PyStr.mem "total" stats = false ->
  PyStr.mem "topFirms" stats = false ->
  PyStr.mem "bottomFirms" stats = false ->
  get_recall_stats_handler args w log = years_block w args stats [] log.
Proof.
  intros w args stats cf log Hstats Hcf Hft Hclass Htotal Htop Hbottom.
  unfold get_recall_stats_handler, bind, lift; rewrite Hstats, Hcf.
  unfold firm_total_block, classification_block, firms_block.
  rewrite Hft, Hclass, Htotal, Htop, Hbottom.
  cbn [orb ret fst snd].
  destruct (years_block w args stats [] log) as [[r|e] l]; reflexivity.
Qed.

(** With every call failing, a request for the years 2020 to 2022 is
    answered with three zeros. *)
Lemma all_years_failing :
  fst (get_recall_stats_handler three_years failing_world [])
  = Ok [ kv "recallsByYear"
           (JDict [ kv "2020" (JInt 0); kv "2021" (JInt 0);
                    kv "2022" (JInt 0) ]) ].
Proof. vm_compute; reflexivity. Qed.

(** ** The firms with the fewest recalls *)









Lemma firm_limits_range : forall args limit bottom_limit,
  firm_limits args = Ok (limit, bottom_limit) ->
  (1 <= limit <= 10)%Z /\ (1 <= bottom_limit <= 10)%Z.
Proof.
  intros args limit bl H; unfold firm_limits, obind in H.
  destruct (int (py_or (dict_get_default "topFirmsLimit" (JInt 5) args)
                       (JInt 5))) as [z|]; [|discriminate H].
  destruct (int _) as [z'|] in H; [|discriminate H].
  inversion H; subst; unfold clamp; lia.
Qed.




(** ** The round budget *)

Lemma bind_assoc_at : forall (A B C : Type) (m : M A) (f : A -> M B)
    (g : B -> M C) log,
  bind (bind m f) g log = bind m (fun a => bind (f a) g) log.
Proof.
  intros A B C m f g log; unfold bind.
  destruct (m log) as [[a|e] l]; reflexivity.
Qed.

Lemma bind_ext_at : forall (A B : Type) (m : M A) (f g : A -> M B) log,
  (forall a log1, m log = (Ok a, log1) -> f a log1 = g a log1) ->
  bind m f log = bind m g log.
Proof.
  intros A B m f g log H; unfold bind.
  destruct (m log) as [[a|e] l]; [apply H; reflexivity | reflexivity].
Qed.

(** A round that opens with function calls is a dispatch round. *)
Lemma conversation_round_dispatch : forall rounds w question st,
  function_calls (fst st) <> [] ->
  conversation_rounds (S rounds) w question st
  = (st' <- dispatch_round w question st ;;
     conversation_rounds rounds w question st')%eff.
Proof.
  intros rounds w question st H; cbn [conversation_rounds].
  destruct (function_calls (fst st)); [congruence | reflexivity].
Qed.

(** While every round opens with function calls, the loop with [n]
    rounds left after [k] rounds is [n] more dispatch rounds and the
    return after the loop. *)
Lemma rounds_all_dispatch : forall w question log n k,
  (forall j st log1,
      k <= j < k + n ->
      after_rounds j w question log = (Ok st, log1) ->
      function_calls (fst st) <> []) ->
  bind (after_rounds k w question) (conversation_rounds n w question) log
  = bind (after_rounds (k + n) w question) return_apology log.
Proof.
  intros w question log n; induction n as [|n IH]; intros k Hcalls.
  - rewrite Nat.add_0_r; reflexivity.
  - replace (k + S n) with (S k + n) by lia.
    rewrite <- IH by (intros j st log1 Hj; apply Hcalls; lia).
    cbn [after_rounds]; rewrite bind_assoc_at.
    apply bind_ext_at; intros st log1 Ek.
    rewrite conversation_round_dispatch; [reflexivity|].
    apply (Hcalls k st log1); [lia | exact Ek].
Qed.

(** The last call of a dispatch round decides the payload that is kept,
    and its tool message is the last event of the round. *)
Lemma dispatch_round_last : forall w question fcs st log st' log',
  fcs <> [] ->
  foldM (dispatch_call w question) fcs st log = (Ok st', log') ->
  exists init fc log_a payload log_b,
    fcs = init ++ [fc]
    /\ call_tool w (fst (correct_intent question fc))
                 (snd (correct_intent question fc)) log_a
       = (Ok payload, log_b)
    /\ snd st' = Some payload
    /\ log' = log_b ++ [SendMessage
                          (ToolResponse (fst (correct_intent question fc))
                                        payload)].
Proof.
  intros w question fcs; induction fcs as [|fc fcs IH];
    intros st log st' log' Hne H; [congruence|].
  cbn [foldM] in H; unfold bind at 1 in H.
  destruct (dispatch_call w question st fc log) as [[st1|e] log1] eqn:Ecall;
    [|discriminate H].
  destruct fcs as [|fc' fcs'].
  - inversion H; subst st1 log1; clear H.
    unfold dispatch_call, bind, send_message, ret in Ecall.
    destruct (call_tool w _ _ log) as [[payload|e] log_b] eqn:Etool;
      [|discriminate Ecall].
    destruct (gemini w log_b _) as [r|]; [|discriminate Ecall].
    inversion Ecall; subst.
    exists [], fc, log, payload, log_b; repeat split; assumption.
  - destruct (IH st1 log1 st' log' ltac:(discriminate) H)
      as [init [fc0 [log_a [payload [log_b [Hfcs Hrest]]]]]].
    exists (fc :: init), fc0, log_a, payload, log_b; split; [|exact Hrest].
    rewrite Hfcs; reflexivity.
Qed.

Lemma run_as_rounds : forall w question log,
  gemini_api_key w <> EmptyString ->
  run_conversation_with_gemini w question log
  = bind (after_rounds 0 w question)
         (conversation_rounds max_rounds w question) log.
Proof.
  intros w question log Hkey; unfold run_conversation_with_gemini.
  apply String.eqb_neq in Hkey; rewrite Hkey.
  cbn [after_rounds]; rewrite bind_assoc_at; reflexivity.
Qed.

(** C3: with the credential set, when each of the five rounds that the
    loop reaches opens with at least one function call, the run is the
    question sent, five dispatch rounds one after the other, and the
    return after the loop, with no sixth round.  So when no exception
    escapes, the answer is the apology and the data is the payload of the
    last function call of the fifth round, whose tool message is the last
    event of the run. *)
Theorem round_budget_exhausted :
  forall (w : World) (question : string) (log : list event),
    gemini_api_key w <> EmptyString ->
    (forall k st log1,
        k < 5 ->
        after_rounds k w question log = (Ok st, log1) ->
        function_calls (fst st) <> []) ->
    run_conversation_with_gemini w question log
    = bind (after_rounds 5 w question) return_apology log
    /\ forall out log',
         run_conversation_with_gemini w question log = (Ok out, log') ->
         answer out = "Sorry, I could not complete the request."
         /\ exists st4 log4 init fc log_a payload log_b,
              after_rounds 4 w question log = (Ok st4, log4)
              /\ function_calls (fst st4) = init ++ [fc]
              /\ call_tool w (fst (correct_intent question fc))
                           (snd (correct_intent question fc)) log_a
                 = (Ok payload, log_b)
              /\ data out = Some payload
              /\ log' = log_b
                          ++ [SendMessage
                                (ToolResponse
                                   (fst (correct_intent question fc))
                                   payload)].
Proof.
  intros w question log Hkey Hcalls.
  assert (Hrun : run_conversation_with_gemini w question log
                 = bind (after_rounds 5 w question) return_apology log).
  { rewrite (run_as_rounds _ _ _ Hkey).
    apply (rounds_all_dispatch w question log 5 0).
    intros j st log1 Hj; apply Hcalls; lia. }
  split; [exact Hrun|].
  intros out log' Hout; rewrite Hrun in Hout.
  cbn [after_rounds] in Hout.
  change (bind (bind (after_rounds 4 w question) (dispatch_round w question))
               return_apology log = (Ok out, log')) in Hout.
  unfold bind at 1 2 in Hout.
  destruct (after_rounds 4 w question log) as [[st4|e] log4] eqn:E4;
    [|discriminate Hout].
  destruct (dispatch_round w question st4 log4) as [[st5|e] log5] eqn:E5;
    [|discriminate Hout].
  unfold return_apology, ret in Hout; inversion Hout; subst out log'; clear Hout.
  split; [reflexivity|].
  destruct (dispatch_round_last w question (function_calls (fst st4))
              st4 log4 st5 log5 (Hcalls 4 st4 log4 ltac:(lia) E4) E5)
    as [init [fc [log_a [payload [log_b [Hfcs [Htool [Hlast Hlog]]]]]]]].
  exists st4, log4, init, fc, log_a, payload, log_b.
  repeat split; assumption.
Qed.

Lemma round_budget_exhausted_witness :
  run_conversation_with_gemini insisting_world "hello" []
  = bind (after_rounds 5 insisting_world "hello") return_apology []
  /\ forall out log',
       run_conversation_with_gemini insisting_world "hello" []
       = (Ok out, log') ->
       answer out = "Sorry, I could not complete the request."
       /\ exists st4 log4 init fc log_a payload log_b,
            after_rounds 4 insisting_world "hello" [] = (Ok st4, log4)
            /\ function_calls (fst st4) = init ++ [fc]
            /\ call_tool insisting_world (fst (correct_intent "hello" fc))
                         (snd (correct_intent "hello" fc)) log_a
               = (Ok payload, log_b)
            /\ data out = Some payload
            /\ log' = log_b
                        ++ [SendMessage
                              (ToolResponse (fst (correct_intent "hello" fc))
                                            payload)].
Proof.
  apply (round_budget_exhausted insisting_world "hello" []).
  - vm_compute; discriminate.
  - intros k st log1 Hk H.
    destruct k as [|[|[|[|[|k]]]]]; [| | | | | lia];
      vm_compute in H; inversion H; subst; vm_compute; discriminate.
Defined.

(** The run of that model: the apology, with the payload of the fifth
    call, after the question and five tool messages. *)
Lemma insisting_run :
  run_conversation_with_gemini insisting_world "hello" []
  = (Ok {| answer := apology;
           data := Some [kv "error" (JStr "Unknown tool: noop")] |},
     SendMessage (UserText "hello")
       :: repeat (SendMessage
                    (ToolResponse "noop"
                       [kv "error" (JStr "Unknown tool: noop")])) 5).
Proof. vm_compute; reflexivity. Qed.

(* ================================================================== *)
(** * Further properties of the code *)
(* ================================================================== *)

(** ** The record normalizer and the year counts *)




Lemma fold_sum_shift : forall (d : list (key * Z)) a,
  fold_left (fun acc kv => (acc + snd kv)%Z) d a
  = (a + fold_left (fun acc kv => (acc + snd kv)%Z) d 0%Z)%Z.
Proof.
  induction d as [|[k v] d IH]; intro a; simpl; [lia|].
  rewrite IH, (IH v); lia.
Qed.

Lemma sum_values_cons : forall k v d,
  sum_values ((k, v) :: d) = (v + sum_values d)%Z.
Proof.
  intros k v d; unfold sum_values; simpl; rewrite fold_sum_shift; reflexivity.
Qed.

(** An assignment changes the sum by the new value less the old one. *)
Lemma sum_values_dict_set : forall k v d,
  sum_values (dict_set k v d)
  = (sum_values d + v
     - match lookup k d with Some n => n | None => 0 end)%Z.
Proof.
  intros k v d; induction d as [|[k0 v0] d IH].
  - simpl; rewrite sum_values_cons; unfold sum_values; simpl; lia.
  - cbn [dict_set lookup]; destruct (key_eqb k0 k).
    + rewrite !sum_values_cons; lia.
    + rewrite !sum_values_cons, IH; lia.
Qed.

Lemma in_keys_dict_set : forall (V : Type) k (v : V) d k',
  In k' (keys (dict_set k v d)) -> k' = k \/ In k' (keys d).
Proof.
  intros V k v d k' H; unfold keys in H; apply in_map_iff in H.
  destruct H as [[k1 v1] [Hk Hin]]; simpl in Hk; subst k1.
  destruct (in_dict_set _ _ _ _ _ Hin) as [E|Hin'].
  - left; congruence.
  - right; apply (in_map fst _ _ Hin').
Qed.

Lemma length_substring : forall n s,
  n <= String.length s -> String.length (substring 0 n s) = n.
Proof.
  induction n as [|n IH]; intros [|c s] H; simpl in *; try lia; try reflexivity.
  rewrite IH; lia.
Qed.

(** A year that is kept as a key is a string of four characters. *)
Lemma year_key_four_chars : forall date year k,
  extract_year_from_yyyymmdd date = Ok year ->
  truthy year = true ->
  to_key year = Ok k ->
  four_chars k.
Proof.
  intros date year k Hy Ht Hk; unfold extract_year_from_yyyymmdd in Hy.
  destruct (truthy date); cbn [negb] in Hy;
    [|inversion Hy; subst; discriminate Ht].
  destruct date as [| | |s|l|d|l]; try discriminate Hy.
  - destruct (Nat.ltb (String.length s) 4) eqn:E;
      inversion Hy; subst; [discriminate Ht|].
    inversion Hk; subst; exists (substring 0 4 s); split; [reflexivity|].
    apply Nat.ltb_ge in E; apply length_substring; exact E.
  - destruct (Nat.ltb (List.length l) 4);
      inversion Hy; subst; [discriminate Ht | discriminate Hk].
  - destruct (Nat.ltb (List.length d) 4);
      inversion Hy; subst; discriminate Ht.
  - destruct (Nat.ltb (List.length l) 4);
      inversion Hy; subst; discriminate Ht.
Qed.

Lemma count_year_step : forall counts r counts',
  count_year counts r = Ok counts' ->
  sum_values counts'
  = (sum_values counts + if has_year r then 1 else 0)%Z
  /\ forall k, In k (keys counts') -> In k (keys counts) \/ four_chars k.
Proof.
  intros counts r counts' H; unfold count_year, has_year, obind in *.
  destruct (get r "recall_initiation_date" (JStr EmptyString)) as [date|];
    [|discriminate H].
  destruct (extract_year_from_yyyymmdd date) as [year|] eqn:Ey;
    [|discriminate H].
  destruct (truthy year) eqn:Et; cbn [negb] in H.
  - destruct (to_key year) as [k|] eqn:Ek; [|discriminate H].
    inversion H; subst; split.
    + rewrite sum_values_dict_set; destruct (lookup k counts); lia.
    + intros k' Hin; destruct (in_keys_dict_set _ _ _ _ _ Hin) as [E|Hin'].
      * right; subst k'; exact (year_key_four_chars _ _ _ Ey Et Ek).
      * left; exact Hin'.
  - inversion H; subst; split; [lia | auto].
Qed.

Lemma group_year_counts_from : forall records acc counts,
  ofold count_year records acc = Ok counts ->
  sum_values counts
  = (sum_values acc + Z.of_nat (List.length (filter has_year records)))%Z
  /\ forall k, In k (keys counts) -> In k (keys acc) \/ four_chars k.
Proof.
  induction records as [|r records IH]; intros acc counts H.
  - inversion H; subst; simpl; split; [lia | auto].
  - cbn [ofold] in H; unfold obind in H.
    destruct (count_year acc r) as [acc'|] eqn:Estep; [|discriminate H].
    destruct (count_year_step _ _ _ Estep) as [Hsum Hkeys].
    destruct (IH _ _ H) as [Hsum' Hkeys'].
    split.
    + rewrite Hsum', Hsum; cbn [filter]; destruct (has_year r).
      * cbn [List.length]; lia.
      * lia.
    + intros k Hin; destruct (Hkeys' k Hin) as [Hacc|Hfour]; auto.
Qed.

(** X2: whenever [group_year_counts] returns, the counts add up to the
    number of records whose date gives a year (records without a date or
    with a date shorter than four characters are skipped, not counted),
    and every key is a string of four characters. *)
Theorem group_year_counts_sum :
  forall (records : list json) (counts : list (key * Z)),
    group_year_counts records = Ok counts ->
    sum_values counts = Z.of_nat (List.length (filter has_year records))
    /\ forall k, In k (keys counts) -> four_chars k.
Proof.
  intros records counts H; unfold group_year_counts in H.
  destruct (group_year_counts_from _ _ _ H) as [Hsum Hkeys]; split.
  - rewrite Hsum; unfold sum_values; simpl; lia.
  - intros k Hin; destruct (Hkeys k Hin) as [[]|Hfour]; exact Hfour.
Qed.

Lemma group_year_counts_sum_witness :
  sum_values [(KStr "2024", 2%Z)]
  = Z.of_nat (List.length (filter has_year dated_records))
  /\ forall k, In k (keys [(KStr "2024", 2%Z)]) -> four_chars k.
Proof.
  apply (group_year_counts_sum dated_records [(KStr "2024", 2%Z)]).
  reflexivity.
Defined.

(** ** The client *)




(** X4: [get_recent_enforcements] always issues exactly one GET: the
    limit clamped to 1..100, no skip, newest first, no search.  When the
    request fails it raises; when the response is a dictionary it returns
    the value stored under [results] if that value is truthy and the
    empty list otherwise (missing or falsy results), so never null; a
    response that is no dictionary raises AttributeError.  For a service
    with two records and [limit = 500] it returns these two records
    after a GET with [limit = 100]. *)
Theorem get_recent_enforcements_request :
  (forall (w : World) (limit : Z) (log : list event),
      exists o,
        get_recent_enforcements w limit log
        = (o, log ++ [HttpGet (recent_params limit)])
        /\ (1 <= clamp 1 100 limit <= 100)%Z
        /\ o = match http w log (recent_params limit) with
               | None => Raise UpstreamError
               | Some (JDict d) =>
                   Ok (match lookup (KStr "results") d with
                       | Some results =>
                           if truthy results then results else JList []
                       | None => JList []
                       end)
               | Some _ => Raise AttributeError
               end)
  /\ get_recent_enforcements two_recalls_world 500 []
     = (Ok (JList [ JDict [kv "recall_number" (JStr "D-1")];
                    JDict [kv "recall_number" (JStr "D-2")] ]),
        [HttpGet [ kv "limit" (JInt 100); kv "skip" (JInt 0);
                   kv "sort" (JStr "recall_initiation_date:desc") ]]).
Proof.
  split; [|vm_compute; reflexivity].
  intros w limit log.
  unfold get_recent_enforcements, search_enforcements, _http_get, bind, lift,
    ret.
  cbn [_compose_search truthy app obind dict_set kv key_eqb String.eqb
       negb Ascii.eqb Bool.eqb].
  replace (Z.max 1 (Z.min (Z.max 1 (Z.min limit 100)) 100))
    with (clamp 1 100 limit) by (unfold clamp; lia).
  replace (Z.max 0 0) with 0%Z by reflexivity.
  change [ (KStr "limit", JInt (clamp 1 100 limit));
           (KStr "skip", JInt 0);
           (KStr "sort", JStr "recall_initiation_date:desc") ]
    with (recent_params limit).
  destruct (http w log (recent_params limit)) as [data|];
    [|eexists; split; [reflexivity|]; split; [unfold clamp; lia|reflexivity]].
  destruct data as [| | | | |d|];
    try (eexists; split; [reflexivity|]; split;
         [unfold clamp; lia | reflexivity]).
  cbn [get]; unfold dict_get_default, py_or.
  destruct (lookup (KStr "results") d) as [results|];
    eexists; (split; [reflexivity|]; split; [unfold clamp; lia | reflexivity]).
Qed.

(** ** The search handler *)

Lemma bind_lift_ok : forall (A B : Type) (a : A) (k : A -> M B) log,
  bind (lift (Ok a)) k log = k a log.
Proof. reflexivity. Qed.

Lemma bind_lift_raise : forall (A B : Type) e (k : A -> M B) log,
  bind (lift (Raise e)) k log = (Raise e, log).
Proof. reflexivity. Qed.

Lemma search_enforcements_run :
  forall w query classification limit skip sort search log,
    _compose_search w query classification = Ok search ->
    search_enforcements w query classification limit skip sort log
    = (answer_of w log (search_params search limit skip sort),
       log ++ [HttpGet (search_params search limit skip sort)]).
Proof.
  intros w query classification limit skip sort search log H.
  unfold search_enforcements, bind, lift; rewrite H.
  unfold _http_get, answer_of, search_params.
  destruct (http w log _); reflexivity.
Qed.

Lemma search_params_limit_skip : forall search limit skip sort,
  lookup (KStr "limit") (search_params search limit skip sort)
  = Some (JInt (Z.max 1 (Z.min limit 100)))
  /\ lookup (KStr "skip") (search_params search limit skip sort)
     = Some (JInt (Z.max 0 skip)).
Proof.
  intros search limit skip sort; unfold search_params.
  destruct (truthy search), (truthy sort);
    rewrite ?lookup_dict_set; split; reflexivity.
Qed.

Lemma handler_limit_range : forall args, (1 <= handler_limit args <= 50)%Z.
Proof.
  intro args; unfold handler_limit.
  destruct (int (dict_get_default "limit" (JInt 10) args)) as [z|].
  - destruct (z <? 1)%Z eqn:E1.
    + simpl; lia.
    + destruct (z >? 50)%Z eqn:E2; [lia|].
      apply Z.ltb_ge in E1; lia.
  - simpl; lia.
Qed.

(** The search handler, run up to its payload. *)
Lemma search_recalls_handler_run : forall args w log,
  (exists e, search_recalls_handler args w log = (Raise e, log))
  \/ exists search skip,
       let params :=
         search_params search (handler_limit args) skip
                       (dict_get "sort" args) in
       search_recalls_handler args w log
       = (data <~ answer_of w log params ;;
          items <~ results_of data ;;
          normalized <~ omap normalize_recall items ;;
          meta <~ get data "meta" (JDict []) ;;
          Ok [ kv "recalls"
                 (JList (map JDict
                           (projected (dict_get "fields" args) normalized)));
               kv "meta" meta ],
          log ++ [HttpGet params])%eff.
Proof.
  intros args w log.
  unfold search_recalls_handler.
  destruct (strip_str (py_or (dict_get "firm" args) (JStr EmptyString)))
    as [firm|e]; [|left; eexists; apply bind_lift_raise].
  rewrite bind_lift_ok.
  destruct (int (py_or (dict_get_default "skip" (JInt 0) args) (JInt 0)))
    as [skip|e]; [|left; eexists; apply bind_lift_raise].
  rewrite bind_lift_ok.
  fold (handler_limit args).
  match goal with
  | |- context [search_enforcements w ?q ?c _ _ _] =>
      destruct (_compose_search w q c) as [search|e] eqn:Ec
  end.
  - right; exists search, skip; cbv zeta.
    unfold bind at 1; rewrite (search_enforcements_run _ _ _ _ _ _ _ _ Ec).
    destruct (answer_of w log _) as [data|e]; [|reflexivity].
    unfold bind, lift, ret, results_of, obind, projected.
    destruct (get data "results" (JList [])) as [results|e]; [|reflexivity].
    destruct (iter (py_or results (JList []))) as [items|e]; [|reflexivity].
    destruct (omap normalize_recall items) as [normalized|e]; [|reflexivity].
    destruct (get data "meta" (JDict [])) as [meta|e]; reflexivity.
  - left; exists e.
    unfold bind at 1, search_enforcements, bind at 1, lift at 1.
    rewrite Ec; reflexivity.
Qed.

(** X5: the search handler makes at most one request: it raises before
    any request, or issues exactly one GET, whose [limit] is between 1
    and 50 and whose [skip] is not negative, whatever the arguments
    are. *)
Theorem search_recalls_handler_request :
  forall (args : dict) (w : World) (log : list event),
    (exists e, search_recalls_handler args w log = (Raise e, log))
    \/ exists o params l s,
         search_recalls_handler args w log = (o, log ++ [HttpGet params])
         /\ lookup (KStr "limit") params = Some (JInt l)
         /\ (1 <= l <= 50)%Z
         /\ lookup (KStr "skip") params = Some (JInt s)
         /\ (0 <= s)%Z.
Proof.
  intros args w log.
  destruct (search_recalls_handler_run args w log)
    as [Hraise | [search [skip Hrun]]]; [left; exact Hraise|].
  right; cbv zeta in Hrun.
  destruct (search_params_limit_skip search (handler_limit args) skip
              (dict_get "sort" args)) as [Hl Hs].
  pose proof (handler_limit_range args) as Hr.
  eexists; eexists; exists (Z.max 1 (Z.min (handler_limit args) 100)),
    (Z.max 0 skip).
  split; [exact Hrun|].
  repeat split; try assumption; lia.
Qed.

Lemma omap_length : forall (A B : Type) (f : A -> outcome B) l l',
  omap f l = Ok l' -> List.length l' = List.length l.
Proof.
  intros A B f l; induction l as [|x l IH]; intros l' H.
  - inversion H; reflexivity.
  - cbn [omap] in H; unfold obind in H.
    destruct (f x) as [y|]; [|discriminate H].
    destruct (omap f l) as [ys|]; [|discriminate H].
    inversion H; subst; simpl; rewrite (IH ys eq_refl); reflexivity.
Qed.

Lemma omap_in : forall (A B : Type) (f : A -> outcome B) l l' y,
  omap f l = Ok l' -> In y l' -> exists x, In x l /\ f x = Ok y.
Proof.
  intros A B f l; induction l as [|x l IH]; intros l' y H Hin.
  - inversion H; subst; contradiction.
  - cbn [omap] in H; unfold obind in H.
    destruct (f x) as [y0|] eqn:Ex; [|discriminate H].
    destruct (omap f l) as [ys|]; [|discriminate H].
    inversion H; subst; destruct Hin as [E|Hin].
    + subst y0; exists x; split; [left; reflexivity | exact Ex].
    + destruct (IH ys y eq_refl Hin) as [x0 [Hx0 Hf]].
      exists x0; split; [right; exact Hx0 | exact Hf].
Qed.

Lemma normalize_recall_keys : forall x d,
  normalize_recall x = Ok d -> keys d = map KStr normalized_keys.
Proof.
  intros x d H; destruct x; try discriminate H.
  unfold normalize_recall, field in H; cbn [get obind] in H.
  inversion H; reflexivity.
Qed.

Lemma keys_project : forall fields item,
  keys (project fields item)
  = filter (fun k => key_in k fields) (keys item).
Proof.
  intros fields item; unfold project, keys.
  induction item as [|[k v] item IH]; [reflexivity|].
  cbn [filter map fst]; destruct (key_in k fields); cbn [map fst];
    rewrite IH; reflexivity.
Qed.

(** The payload of the search handler, when it returns one. *)
Lemma search_recalls_handler_payload : forall args w log payload log',
  search_recalls_handler args w log = (Ok payload, log') ->
  exists params data items normalized meta,
    log' = log ++ [HttpGet params]
    /\ http w log params = Some data
    /\ results_of data = Ok items
    /\ omap normalize_recall items = Ok normalized
    /\ get data "meta" (JDict []) = Ok meta
    /\ payload
       = [ kv "recalls"
             (JList (map JDict
                       (projected (dict_get "fields" args) normalized)));
           kv "meta" meta ].
Proof.
  intros args w log payload log' H.
  destruct (search_recalls_handler_run args w log)
    as [[e He] | [search [skip Hrun]]];
    [rewrite He in H; discriminate H|].
  cbv zeta in Hrun; rewrite Hrun in H; clear Hrun.
  unfold answer_of, obind in H.
  match type of H with
  | context [http w log ?p] =>
      exists p; destruct (http w log p) as [data|] eqn:Ehttp
  end; [|discriminate H].
  destruct (results_of data) as [items|] eqn:Eitems; [|discriminate H].
  destruct (omap normalize_recall items) as [normalized|] eqn:Enorm;
    [|discriminate H].
  destruct (get data "meta" (JDict [])) as [meta|] eqn:Emeta;
    [|discriminate H].
  inversion H; subst.
  exists data, items, normalized, meta; repeat split; assumption.
Qed.

(** X6: whenever the search handler returns, its payload has exactly the
    keys [recalls] and [meta]; [recalls] has one entry for each record of
    the response of its one GET, in order (none is dropped or added), and
    [meta] is the metadata of that response, or the empty dictionary. *)
Theorem search_recalls_handler_count :
  forall (args : dict) (w : World) (log : list event)
         (payload : dict) (log' : list event),
    search_recalls_handler args w log = (Ok payload, log') ->
    exists params data items recalls meta,
      log' = log ++ [HttpGet params]
      /\ http w log params = Some data
      /\ results_of data = Ok items
      /\ get data "meta" (JDict []) = Ok meta
      /\ payload = [kv "recalls" (JList recalls); kv "meta" meta]
      /\ List.length recalls = List.length items.
Proof.
  intros args w log payload log' H.
  destruct (search_recalls_handler_payload _ _ _ _ _ H)
    as [params [data [items [normalized [meta
         [Hlog [Hhttp [Hitems [Hnorm [Hmeta Hpayload]]]]]]]]]].
  exists params, data, items,
    (map JDict (projected (dict_get "fields" args) normalized)), meta.
  repeat split; try assumption.
  rewrite length_map, <- (omap_length _ _ _ _ _ Hnorm).
  unfold projected; destruct (dict_get "fields" args) as [| | | |[|f fs]| |];
    try reflexivity.
  apply length_map.
Qed.

Lemma search_recalls_handler_count_witness :
  exists params data items recalls meta,
    [HttpGet default_search_params] = [] ++ [HttpGet params]
    /\ http two_recalls_world [] params = Some data
    /\ results_of data = Ok items
    /\ get data "meta" (JDict []) = Ok meta
    /\ projected_payload = [kv "recalls" (JList recalls); kv "meta" meta]
    /\ List.length recalls = List.length items.
Proof.
  apply (search_recalls_handler_count projected_search two_recalls_world []).
  reflexivity.
Defined.

(** X7: whenever the search handler returns, every recall of its payload
    is a dictionary.  With [fields] a list that is not empty, the keys of
    each recall are exactly the normalized keys that occur in [fields],
    in the normalized order (entries of [fields] that are no such key
    are ignored); with any other [fields] (absent, empty, not a list)
    each recall has all nine keys. *)
Theorem search_recalls_handler_projection :
  forall (args : dict) (w : World) (log : list event)
         (payload : dict) (log' : list event),
    search_recalls_handler args w log = (Ok payload, log') ->
    exists recalls,
      lookup (KStr "recalls") payload = Some (JList recalls)
      /\ forall r,
           In r recalls ->
           exists d,
             r = JDict d
             /\ (forall f fs,
                   dict_get "fields" args = JList (f :: fs) ->
                   keys d = filter (fun k => key_in k (f :: fs))
                                   (map KStr normalized_keys))
             /\ ((forall f fs, dict_get "fields" args <> JList (f :: fs)) ->
                 keys d = map KStr normalized_keys).
Proof.
  intros args w log payload log' H.
  destruct (search_recalls_handler_payload _ _ _ _ _ H)
    as [params [data [items [normalized [meta
         [Hlog [Hhttp [Hitems [Hnorm [Hmeta Hpayload]]]]]]]]]].
  subst payload; eexists; split; [reflexivity|].
  intros r Hr; apply in_map_iff in Hr; destruct Hr as [d [Hd Hin]].
  exists d; split; [symmetry; exact Hd|].
  unfold projected in Hin; split.
  - intros f fs Hfields; rewrite Hfields in Hin.
    apply in_map_iff in Hin; destruct Hin as [item [Hitem Hin]].
    destruct (omap_in _ _ _ _ _ _ Hnorm Hin) as [x [_ Hx]].
    subst d; rewrite keys_project, (normalize_recall_keys _ _ Hx).
    reflexivity.
  - intro Hnone.
    assert (Hin' : In d normalized).
    { destruct (dict_get "fields" args) as [| | | |[|f fs]| |]; try exact Hin.
      exfalso; exact (Hnone f fs eq_refl). }
    destruct (omap_in _ _ _ _ _ _ Hnorm Hin') as [x [_ Hx]].
    exact (normalize_recall_keys _ _ Hx).
Qed.

Lemma search_recalls_handler_projection_witness :
  exists recalls,
    lookup (KStr "recalls") projected_payload = Some (JList recalls)
    /\ forall r,
         In r recalls ->
         exists d,
           r = JDict d
           /\ (forall f fs,
                 dict_get "fields" projected_search = JList (f :: fs) ->
                 keys d = filter (fun k => key_in k (f :: fs))
                                 (map KStr normalized_keys))
           /\ ((forall f fs,
                   dict_get "fields" projected_search <> JList (f :: fs)) ->
               keys d = map KStr normalized_keys).
Proof.
  apply (search_recalls_handler_projection projected_search
           two_recalls_world [] projected_payload
           [HttpGet default_search_params]).
  reflexivity.
Defined.

(** ** The statistics handler: which requests it makes *)

Lemma requests_none : forall metrics stats m,
  requests_any metrics stats = false ->
  In m metrics ->
  PyStr.mem m stats = false.
Proof.
  intros metrics stats m H Hin; unfold requests_any in H.
  destruct (PyStr.mem m stats) eqn:E; [|reflexivity].
  assert (Ht : existsb (fun m0 => PyStr.mem m0 stats) metrics = true).
  { apply existsb_exists; exists m; split; assumption. }
  rewrite Ht in H; discriminate H.
Qed.

Lemma count_buckets_run : forall w field search log,
  count_buckets w field search log
  = (data <~ answer_of w log (facet_params field search) ;;
     results <~ get data "results" (JList []) ;;
     Ok (py_or results (JList [])),
     log ++ [HttpGet (facet_params field search)])%eff.
Proof.
  intros w field search log.
  unfold count_buckets, _http_get, bind, lift, ret, answer_of, obind,
    facet_params.
  cbv zeta; destruct (truthy search);
    match goal with
    | |- context [http w log ?p] => destruct (http w log p) as [data|]
    end; try reflexivity;
    destruct (get data "results" (JList [])); reflexivity.
Qed.

Lemma years_block_idle : forall w args stats result log,
  PyStr.mem "byYear" stats = false ->
  PyStr.mem "mostYear" stats = false ->
  PyStr.mem "leastYear" stats = false ->
  years_block w args stats result log = (Ok result, log).
Proof.
  intros w args stats result log H1 H2 H3.
  unfold years_block; rewrite H1, H2, H3; reflexivity.
Qed.

(** The statistics handler trims the classification before anything
    else is done: a classification that is truthy and no string (a
    number, a list) makes it raise AttributeError without any remote
    call, whatever metrics are requested. *)
Lemma classification_not_text_raises :
  forall (w : World) (args : dict) (stats : list string) (e : exn)
         (log : list event),
    stats_requested_of args = Ok stats ->
    strip_str (py_or (dict_get "classification" args) (JStr EmptyString))
    = Raise e ->
    e = AttributeError
    /\ get_recall_stats_handler args w log = (Raise AttributeError, log).
Proof.
  intros w args stats e log Hstats Hcf.
  assert (He : e = AttributeError).
  { unfold strip_str in Hcf.
    destruct (py_or _ _); try discriminate Hcf; inversion Hcf; reflexivity. }
  subst e; split; [reflexivity|].
  unfold get_recall_stats_handler.
  rewrite Hstats, bind_lift_ok, Hcf; reflexivity.
Qed.

Lemma classification_number_raises :
  get_recall_stats_handler
    [kv "stats" (JList [JStr "total"]); kv "classification" (JInt 5)]
    two_recalls_world []
  = (Raise AttributeError, []).
Proof. reflexivity. Qed.

(** X8: a request whose [stats] can be read (falsy or iterable) and name
    none of the eight metrics (no [stats], an empty list, unknown names
    only), and whose [classification] is absent, falsy or a string, is
    answered with the empty mapping and without any remote call. *)
Theorem no_metric_no_call :
  forall (w : World) (args : dict) (stats : list string)
         (classification_filter : string) (log : list event),
    stats_requested_of args = Ok stats ->
    strip_str (py_or (dict_get "classification" args) (JStr EmptyString))
    = Ok classification_filter ->
    requests_any all_metrics stats = false ->
    get_recall_stats_handler args w log = (Ok [], log).
Proof.
  intros w args stats cf log Hstats Hcf Hnone.
  assert (Hm : forall m, In m all_metrics -> PyStr.mem m stats = false)
    by (intros m Hin; exact (requests_none _ _ _ Hnone Hin)).
  rewrite (years_only_request w args stats cf log Hstats Hcf);
    try (apply Hm; unfold all_metrics; simpl; tauto).
  apply years_block_idle; apply Hm; unfold all_metrics; simpl; tauto.
Qed.

Lemma no_metric_no_call_witness :
  get_recall_stats_handler [kv "stats" (JList [JStr "totals"; JInt 3])]
                           failing_world []
  = (Ok [], []).
Proof.
  apply (no_metric_no_call failing_world
           [kv "stats" (JList [JStr "totals"; JInt 3])] ["totals"]
           EmptyString []); reflexivity.
Defined.

(** X9: a request for [total] and/or [byClassification] and no other
    metric, whose [classification] is absent, falsy or a string, makes
    exactly one remote call, the facet count on [classification.exact],
    and that call carries no [search]: the classification argument does
    not filter these two metrics. *)
Theorem total_only_one_facet_call :
  forall (w : World) (args : dict) (stats : list string)
         (classification_filter : string) (log : list event),
    stats_requested_of args = Ok stats ->
    strip_str (py_or (dict_get "classification" args) (JStr EmptyString))
    = Ok classification_filter ->
    PyStr.mem "total" stats || PyStr.mem "byClassification" stats = true ->
    requests_any [ "firmTotal"; "topFirms"; "bottomFirms"; "byYear";
                   "mostYear"; "leastYear" ] stats = false ->
    exists o,
      get_recall_stats_handler args w log
      = (o, log ++ [HttpGet classification_facet]).
Proof.
  intros w args stats cf log Hstats Hcf Hsome Hnone.
  assert (Hm : forall m,
             In m [ "firmTotal"; "topFirms"; "bottomFirms"; "byYear";
                    "mostYear"; "leastYear" ] ->
             PyStr.mem m stats = false)
    by (intros m Hin; exact (requests_none _ _ _ Hnone Hin)).
  unfold get_recall_stats_handler; rewrite Hstats, Hcf, !bind_lift_ok.
  unfold firm_total_block; rewrite (Hm "firmTotal") by (simpl; tauto).
  unfold bind at 1, ret at 1; cbn [fst snd].
  unfold classification_block.
  rewrite orb_comm in Hsome; rewrite Hsome.
  unfold firms_block.
  rewrite (Hm "topFirms"), (Hm "bottomFirms") by (simpl; tauto);
    cbn [orb].
  rewrite bind_assoc_at; unfold bind at 1; rewrite count_buckets_run.
  change (facet_params "classification" JNull) with classification_facet.
  match goal with
  | |- context [match ?x with Ok _ => _ | Raise _ => _ end] =>
      destruct x as [buckets|]
  end; [|eexists; reflexivity].
  unfold bind, lift, ret.
  destruct (iter buckets) as [bs|]; [|eexists; reflexivity].
  destruct (ofold _ bs []) as [rbc|]; [|eexists; reflexivity].
  rewrite years_block_idle by (apply Hm; simpl; tauto).
  eexists; reflexivity.
Qed.

Lemma total_only_one_facet_call_witness :
  exists o,
    get_recall_stats_handler
      [kv "stats" (JList [JStr "total"]); kv "classification" (JStr "Class I")]
      buckets_world []
    = (o, [] ++ [HttpGet classification_facet]).
Proof.
  apply (total_only_one_facet_call buckets_world
           [ kv "stats" (JList [JStr "total"]);
             kv "classification" (JStr "Class I") ]
           ["total"] "Class I" []); reflexivity.
Defined.

(** X10: a request for the firm total alone whose firm is absent, empty
    or blank, and whose [classification] is absent, falsy or a string, is
    answered with [firmTotal = 0] and nothing else, without any remote
    call. *)
Theorem firm_total_without_firm :
  forall (w : World) (args : dict) (stats : list string)
         (classification_filter : string) (log : list event),
    stats_requested_of args = Ok stats ->
    strip_str (py_or (dict_get "classification" args) (JStr EmptyString))
    = Ok classification_filter ->
    only_firm_total stats = true ->
    strip_str (py_or (dict_get "firm" args) (JStr EmptyString))
    = Ok EmptyString ->
    get_recall_stats_handler args w log
    = (Ok [kv "firmTotal" (JInt 0)], log).
Proof.
  intros w args stats cf log Hstats Hcf Honly Hfirm.
  unfold get_recall_stats_handler; rewrite Hstats, Hcf, !bind_lift_ok.
  unfold firm_total_block.
  rewrite (only_firm_total_mem _ Honly), Hfirm, bind_assoc_at, bind_lift_ok.
  cbn [String.eqb negb]; unfold bind at 1, ret at 1; cbn [fst snd].
  unfold classification_block, firms_block.
  rewrite !(only_firm_total_other stats _ Honly) by reflexivity.
  cbn [orb]; unfold bind, ret.
  apply years_block_idle; apply (only_firm_total_other stats _ Honly);
    reflexivity.
Qed.

Lemma firm_total_without_firm_witness :
  get_recall_stats_handler [kv "stats" (JList [JStr "firmTotal"])]
                           failing_world []
  = (Ok [kv "firmTotal" (JInt 0)], []).
Proof.
  apply (firm_total_without_firm failing_world
           [kv "stats" (JList [JStr "firmTotal"])] ["firmTotal"]
           EmptyString []); reflexivity.
Defined.

(** ** The statistics handler: how many requests it makes *)

Lemma gam_ret : forall (A : Type) n (a : A), gets_at_most n (ret a).
Proof.
  intros A n a log; exists []; simpl; rewrite app_nil_r.
  repeat split; [lia | constructor].
Qed.

Lemma gam_raise : forall (A : Type) n e, gets_at_most n (@raise A e).
Proof.
  intros A n e log; exists []; simpl; rewrite app_nil_r.
  repeat split; [lia | constructor].
Qed.

Lemma gam_lift : forall (A : Type) n (o : outcome A), gets_at_most n (lift o).
Proof.
  intros A n o log; exists []; simpl; rewrite app_nil_r.
  repeat split; [lia | constructor].
Qed.

Lemma gam_weaken : forall (A : Type) n n' (m : M A),
  n <= n' -> gets_at_most n m -> gets_at_most n' m.
Proof.
  intros A n n' m Hle H log; destruct (H log) as [ext [Hsnd [Hlen Hget]]].
  exists ext; repeat split; [exact Hsnd | lia | exact Hget].
Qed.

Lemma gam_bind : forall (A B : Type) n k N (m : M A) (f : A -> M B),
  n + k <= N ->
  gets_at_most n m ->
  (forall a, gets_at_most k (f a)) ->
  gets_at_most N (bind m f).
Proof.
  intros A B n k N m f Hle Hm Hf log; unfold bind.
  destruct (Hm log) as [ext [Hsnd [Hlen Hget]]].
  destruct (m log) as [[a|e] log1]; cbn [snd] in Hsnd; subst log1.
  - destruct (Hf a (log ++ ext)) as [ext' [Hsnd' [Hlen' Hget']]].
    exists (ext ++ ext'); rewrite Hsnd', app_assoc; repeat split.
    + rewrite length_app; lia.
    + apply Forall_app; split; assumption.
  - exists ext; repeat split; [lia | exact Hget].
Qed.

Lemma gam_lift_bind : forall (A B : Type) N (o : outcome A) (f : A -> M B),
  (forall a, gets_at_most N (f a)) ->
  gets_at_most N (bind (lift o) f).
Proof.
  intros A B N o f Hf.
  apply (gam_bind _ _ 0 N N); [lia | apply gam_lift | exact Hf].
Qed.

Lemma gam_http_get : forall w params n, gets_at_most (S n) (_http_get w params).
Proof.
  intros w params n log; exists [HttpGet params]; unfold _http_get.
  destruct (http w log params); cbn [snd];
    (repeat split; [simpl; lia | repeat constructor]).
Qed.

Lemma gam_search_enforcements :
  forall w query classification limit skip sort n,
    gets_at_most (S n)
      (search_enforcements w query classification limit skip sort).
Proof.
  intros; unfold search_enforcements; cbv zeta.
  apply gam_lift_bind; intro; apply gam_http_get.
Qed.

Lemma gam_count_buckets : forall w field search n,
  gets_at_most (S n) (count_buckets w field search).
Proof.
  intros; unfold count_buckets; cbv zeta.
  apply (gam_bind _ _ 1 0); [lia | apply gam_http_get | intro].
  repeat first
      [ apply gam_ret | apply gam_raise | apply gam_lift
      | apply gam_lift_bind; intro
      | match goal with
        | |- gets_at_most _ (if ?b then _ else _) => destruct b
        | |- gets_at_most _ (match ?x with _ => _ end) => destruct x
        end ].
Qed.

Lemma gam_search_recalls_handler : forall args w n,
  gets_at_most (S n) (search_recalls_handler args w).
Proof.
  intros; unfold search_recalls_handler; cbv zeta.
  apply gam_lift_bind; intro.
  apply gam_lift_bind; intro.
  apply (gam_bind _ _ 1 0);
    [lia | apply gam_search_enforcements | intro].
  repeat first
      [ apply gam_ret | apply gam_raise | apply gam_lift
      | apply gam_lift_bind; intro
      | match goal with
        | |- gets_at_most _ (if ?b then _ else _) => destruct b
        | |- gets_at_most _ (match ?x with _ => _ end) => destruct x
        end ].
Qed.

Lemma gam_firm_total_block :
  forall w args stats classification_filter result n,
    gets_at_most (S n)
      (firm_total_block w args stats classification_filter result).
Proof.
  intros; unfold firm_total_block.
  destruct (PyStr.mem "firmTotal" stats); [|apply gam_ret].
  apply gam_lift_bind; intro firm.
  destruct (negb (String.eqb firm EmptyString)); [|apply gam_ret].
  cbv zeta.
  apply (gam_bind _ _ 1 0);
    [lia | apply gam_search_enforcements | intro].
  repeat first
      [ apply gam_ret | apply gam_raise | apply gam_lift
      | apply gam_lift_bind; intro
      | match goal with
        | |- gets_at_most _ (if ?b then _ else _) => destruct b
        | |- gets_at_most _ (match ?x with _ => _ end) => destruct x
        end ].
Qed.

Lemma gam_classification_block : forall w stats result n,
  gets_at_most (S n) (classification_block w stats result).
Proof.
  intros; unfold classification_block; cbv zeta.
  destruct (PyStr.mem "byClassification" stats || PyStr.mem "total" stats);
    [|apply gam_ret].
  apply (gam_bind _ _ 1 0); [lia | apply gam_count_buckets | intro].
  repeat first
      [ apply gam_ret | apply gam_raise | apply gam_lift
      | apply gam_lift_bind; intro
      | match goal with
        | |- gets_at_most _ (if ?b then _ else _) => destruct b
        | |- gets_at_most _ (match ?x with _ => _ end) => destruct x
        end ].
Qed.

Lemma gam_firms_block :
  forall w args stats classification_filter result n,
    gets_at_most (S n)
      (firms_block w args stats classification_filter result).
Proof.
  intros; unfold firms_block; cbv zeta.
  destruct (PyStr.mem "topFirms" stats || PyStr.mem "bottomFirms" stats);
    [|apply gam_ret].
  apply gam_lift_bind; intro limits.
  apply (gam_bind _ _ 1 0); [lia | apply gam_count_buckets | intro].
  apply (gam_bind _ _ 0 0); [lia | repeat first
      [ apply gam_ret | apply gam_raise | apply gam_lift
      | apply gam_lift_bind; intro
      | match goal with
        | |- gets_at_most _ (if ?b then _ else _) => destruct b
        | |- gets_at_most _ (match ?x with _ => _ end) => destruct x
        end ] | intro; repeat first
      [ apply gam_ret | apply gam_raise | apply gam_lift
      | apply gam_lift_bind; intro
      | match goal with
        | |- gets_at_most _ (if ?b then _ else _) => destruct b
        | |- gets_at_most _ (match ?x with _ => _ end) => destruct x
        end ]].
Qed.

Lemma gam_years_block : forall w args stats result,
  gets_at_most (List.length (years_of w args))
               (years_block w args stats result).
Proof.
  intros w args stats result; unfold years_block; cbv zeta.
  destruct (PyStr.mem "byYear" stats || PyStr.mem "mostYear" stats
            || PyStr.mem "leastYear" stats); [|apply gam_ret].
  fold (years_of w args).
  apply (gam_bind _ _ (List.length (years_of w args)) 0);
    [lia | | intro; repeat first
      [ apply gam_ret | apply gam_raise | apply gam_lift
      | apply gam_lift_bind; intro
      | match goal with
        | |- gets_at_most _ (if ?b then _ else _) => destruct b
        | |- gets_at_most _ (match ?x with _ => _ end) => destruct x
        end ]].
  intro log; rewrite year_loop_run; cbn [snd]; unfold log_before.
  rewrite firstn_all.
  exists (map (fun y => HttpGet (year_params y)) (years_of w args)).
  repeat split; [rewrite length_map; lia|].
  apply Forall_forall; intros e He; apply in_map_iff in He.
  destruct He as [y [Hy _]]; subst e; exact I.
Qed.

(** X11: the statistics handler only appends GETs to the log, whether it
    returns or raises, and at most three of them (one search for the firm
    total, one facet count on the classification, one on the firm) plus
    one search for each year of the resolved range. *)
Theorem get_recall_stats_handler_requests :
  forall (args : dict) (w : World) (log : list event),
    exists ext,
      snd (get_recall_stats_handler args w log) = log ++ ext
      /\ List.length ext <= 3 + List.length (years_of w args)
      /\ Forall is_get ext.
Proof.
  intros args w.
  change (gets_at_most (3 + List.length (years_of w args))
                       (get_recall_stats_handler args w)).
  unfold get_recall_stats_handler; cbv zeta.
  apply gam_lift_bind; intro stats.
  apply gam_lift_bind; intro cf.
  apply (gam_bind _ _ 1 (2 + List.length (years_of w args)));
    [lia | apply gam_firm_total_block | intro ft].
  destruct (snd ft); [apply gam_ret|].
  apply (gam_bind _ _ 1 (1 + List.length (years_of w args)));
    [lia | apply gam_classification_block | intro r1].
  apply (gam_bind _ _ 1 (List.length (years_of w args)));
    [lia | apply gam_firms_block | intro r2].
  apply gam_years_block.
Qed.

(** ** The per-year metrics *)












(** ** The classification and the firm metrics *)

Lemma bucket_label : forall b e k,
  bucket_entry b = Ok e -> to_key (fst e) = Ok k -> labelled k.
Proof.
  intros b e k He Hk; unfold bucket_entry, obind in He.
  destruct (get b "term" (JStr EmptyString)) as [term|]; [|discriminate He].
  destruct (get b "count" (JInt 0)) as [count|]; [|discriminate He].
  destruct (int (py_or count (JInt 0))) as [n|]; [|discriminate He].
  inversion He; subst e; cbn [fst] in Hk; unfold py_or in Hk.
  destruct (truthy term) eqn:Et.
  - destruct term as [| [|] |z|s|l|d|l]; try discriminate Hk;
      try discriminate Et; inversion Hk; subst k; split;
      try discriminate.
    + intro E; inversion E; subst z; discriminate Et.
    + intro E; inversion E; subst s; discriminate Et.
  - inversion Hk; split; discriminate.
Qed.

Lemma classification_mapping_labelled : forall bs acc rbc,
  ofold (fun acc b =>
           match bucket_entry b with
           | Ok e =>
               match to_key (fst e) with
               | Ok k => Ok (dict_set k (snd e) acc)
               | Raise x => Raise x
               end
           | Raise x => Raise x
           end) bs acc = Ok rbc ->
  (forall k, In k (keys acc) -> labelled k) ->
  forall k, In k (keys rbc) -> labelled k.
Proof.
  induction bs as [|b bs IH]; intros acc rbc H Hacc.
  - inversion H; subst; exact Hacc.
  - cbn [ofold] in H; unfold obind in H.
    destruct (bucket_entry b) as [e|] eqn:Ee; [|discriminate H].
    destruct (to_key (fst e)) as [k0|] eqn:Ek; [|discriminate H].
    apply (IH _ _ H); intros k Hin.
    destruct (in_keys_dict_set _ _ _ _ _ Hin) as [E|Hin'].
    + subst k; exact (bucket_label _ _ _ Ee Ek).
    + exact (Hacc k Hin').
Qed.

(** X15: when [total] and [byClassification] are both requested and the
    classification block returns, the total it stores is the sum of the
    values of the mapping it stores, the mapping is the one built from
    the buckets of the facet call, and none of its keys is the empty
    string (a bucket without a term is filed under "Unknown") or zero. *)
Theorem total_is_sum_of_classification :
  forall (w : World) (stats : list string) (result result' : dict)
         (log log' : list event),
    PyStr.mem "total" stats = true ->
    PyStr.mem "byClassification" stats = true ->
    classification_block w stats result log = (Ok result', log') ->
    exists classification_buckets bs recalls_by_classification,
      fst (count_buckets w "classification" JNull log)
      = Ok classification_buckets
      /\ iter classification_buckets = Ok bs
      /\ classification_mapping bs = Ok recalls_by_classification
      /\ lookup (KStr "recallsByClassification") result'
         = Some (JDict (ints recalls_by_classification))
      /\ lookup (KStr "totalRecalls") result'
         = Some (JInt (sum_values recalls_by_classification))
      /\ forall k, In k (keys recalls_by_classification) -> labelled k.
Proof.
  intros w stats result result' log log' Htotal Hclass H.
  unfold classification_block in H; rewrite Htotal, Hclass in H.
  cbn [orb] in H; unfold bind at 1 in H.
  destruct (count_buckets w "classification" JNull log)
    as [[buckets|] log1] eqn:Ecount; [|discriminate H].
  unfold bind, lift, ret in H.
  destruct (iter buckets) as [bs|] eqn:Eiter; [|discriminate H].
  match type of H with
  | context [ofold ?f bs []] => destruct (ofold f bs []) as [rbc|] eqn:Efold
  end; [|discriminate H].
  inversion H; subst result' log'; clear H.
  assert (Hmap : classification_mapping bs = Ok rbc).
  { unfold classification_mapping; rewrite <- Efold.
    clear; generalize (@nil (key * Z)).
    induction bs as [|b bs IH]; intro acc; [reflexivity|].
    cbn [ofold]; unfold obind.
    destruct (bucket_entry b) as [e|]; [|reflexivity].
    destruct (to_key (fst e)) as [k|]; [|reflexivity].
    apply IH. }
  exists buckets, bs, rbc; cbn [fst].
  split; [reflexivity|]; split; [exact Eiter|]; split; [exact Hmap|].
  split; [|split].
  - rewrite !lookup_dict_set; reflexivity.
  - rewrite lookup_dict_set, key_eqb_refl; reflexivity.
  - apply (classification_mapping_labelled bs [] rbc Hmap).
    intros k [].
Qed.

Lemma total_is_sum_of_classification_witness :
  exists classification_buckets bs recalls_by_classification,
    fst (count_buckets unlabelled_world "classification" JNull [])
    = Ok classification_buckets
    /\ iter classification_buckets = Ok bs
    /\ classification_mapping bs = Ok recalls_by_classification
    /\ lookup (KStr "recallsByClassification")
         [ kv "recallsByClassification"
             (JDict [kv "Class II" (JInt 7); kv "Unknown" (JInt 2)]);
           kv "totalRecalls" (JInt 9) ]
       = Some (JDict (ints recalls_by_classification))
    /\ lookup (KStr "totalRecalls")
         [ kv "recallsByClassification"
             (JDict [kv "Class II" (JInt 7); kv "Unknown" (JInt 2)]);
           kv "totalRecalls" (JInt 9) ]
       = Some (JInt (sum_values recalls_by_classification))
    /\ forall k, In k (keys recalls_by_classification) -> labelled k.
Proof.
  apply (total_is_sum_of_classification unlabelled_world
           both_classification_metrics []
           [ kv "recallsByClassification"
               (JDict [kv "Class II" (JInt 7); kv "Unknown" (JInt 2)]);
             kv "totalRecalls" (JInt 9) ]
           [] [HttpGet classification_facet]); reflexivity.
Defined.

Lemma slice_to_length : forall xs n bs,
  slice_to xs n = Ok bs -> List.length bs <= Z.to_nat n.
Proof.
  intros xs n bs H; destruct xs; try discriminate H;
    inversion H; apply firstn_le_length.
Qed.

(** X16: when [topFirms] is requested and the block of the firm rankings
    returns, the list stored under [topFirms] holds the first
    [topFirmsLimit] buckets of the firm facet call in the order of the
    response (the limit clamped to 1..10), so at most ten entries, each
    with the term (or "Unknown") as [firm] and the count as [count]. *)
Theorem top_firms_first_buckets :
  forall (w : World) (args : dict) (stats : list string)
         (classification_filter : string) (result result' : dict)
         (log log' : list event),
    PyStr.mem "topFirms" stats = true ->
    firms_block w args stats classification_filter result log
    = (Ok result', log') ->
    exists firm_buckets limit bottom_limit bs top_firms,
      fst (count_buckets w "recalling_firm"
             (if negb (String.eqb classification_filter EmptyString)
              then JStr (clause "classification" classification_filter)
              else JNull) log)
      = Ok firm_buckets
      /\ firm_limits args = Ok (limit, bottom_limit)
      /\ (1 <= limit <= 10)%Z
      /\ slice_to firm_buckets limit = Ok bs
      /\ omap bucket_entry bs = Ok top_firms
      /\ lookup (KStr "topFirms") result'
         = Some (JList (map firm_json top_firms))
      /\ List.length top_firms <= 10.
Proof.
  intros w args stats cf result result' log log' Htop H.
  unfold firms_block in H; rewrite Htop in H; cbn [orb] in H.
  unfold bind at 1, lift at 1 in H.
  destruct (firm_limits args) as [[limit bl]|] eqn:Elimits; [|discriminate H].
  cbn [fst snd] in H; unfold bind at 1 in H.
  destruct (count_buckets w "recalling_firm" _ log) as [[fb|] log1] eqn:Ecount;
    [|discriminate H].
  unfold bind at 1 in H.
  unfold bind at 1, lift at 1 in H.
  destruct (slice_to fb limit) as [bs|] eqn:Eslice; [|discriminate H].
  unfold bind at 1, lift at 1 in H.
  destruct (omap bucket_entry bs) as [top|] eqn:Etop; [|discriminate H].
  unfold ret at 1 in H.
  destruct (firm_limits_range _ _ _ Elimits) as [Hlimit _].
  exists fb, limit, bl, bs, top; cbn [fst].
  split; [reflexivity|]; split; [reflexivity|]; split; [exact Hlimit|].
  split; [exact Eslice|]; split; [exact Etop|]; split.
  - destruct (PyStr.mem "bottomFirms" stats).
    + unfold bind, lift, ret in H.
      destruct (iter fb) as [all_buckets|]; [|discriminate H].
      destruct (omap bucket_entry all_buckets); [|discriminate H].
      inversion H; subst result'.
      rewrite !lookup_dict_set; reflexivity.
    + inversion H; subst result'.
      rewrite lookup_dict_set, key_eqb_refl; reflexivity.
  - rewrite (omap_length _ _ _ _ _ Etop).
    pose proof (slice_to_length _ _ _ Eslice) as Hlen; lia.
Qed.

Lemma top_firms_first_buckets_witness :
  exists firm_buckets limit bottom_limit bs top_firms,
    fst (count_buckets buckets_world "recalling_firm" JNull [])
    = Ok firm_buckets
    /\ firm_limits [kv "topFirmsLimit" (JInt 2)] = Ok (limit, bottom_limit)
    /\ (1 <= limit <= 10)%Z
    /\ slice_to firm_buckets limit = Ok bs
    /\ omap bucket_entry bs = Ok top_firms
    /\ lookup (KStr "topFirms")
         [ kv "topFirms"
             (JList [ JDict [kv "firm" (JStr "A"); kv "count" (JInt 5)];
                      JDict [kv "firm" (JStr "B"); kv "count" (JInt 0)] ]) ]
       = Some (JList (map firm_json top_firms))
    /\ List.length top_firms <= 10.
Proof.
  apply (top_firms_first_buckets buckets_world
           [kv "topFirmsLimit" (JInt 2)] ["topFirms"] EmptyString []
           [ kv "topFirms"
               (JList [ JDict [kv "firm" (JStr "A"); kv "count" (JInt 5)];
                        JDict [kv "firm" (JStr "B"); kv "count" (JInt 0)] ]) ]
           [] [HttpGet [kv "count" (JStr "recalling_firm.exact")]]);
    reflexivity.
Defined.

(** ** The conversation *)

(** X17: without the word "classification" in the lower-cased question no
    classification is detected, whatever else it says; with it, a hint in
    roman numerals for class II or class III is detected as "Class I",
    because the text "class i" is found in it first. *)
Theorem class_hint_detection :
  forall uq : string,
    (PyStr.contains "classification" uq = false ->
     class_label_of uq = None)
    /\ (PyStr.contains "classification" uq = true ->
        PyStr.contains "class ii" uq = true
        \/ PyStr.contains "class iii" uq = true ->
        class_label_of uq = Some "Class I").
Proof.
  intro uq; split.
  - intro H; unfold class_label_of; rewrite H; reflexivity.
  - exact (class_label_roman_shadowed uq).
Qed.

Lemma class_hint_detection_witness :
  class_label_of "classification of class ii recalls" = Some "Class I".
Proof.
  apply (proj2 (class_hint_detection "classification of class ii recalls")).
  - reflexivity.
  - left; reflexivity.
Defined.

Lemma rounds_prefix_dispatch : forall w question log n m k,
  (forall j st log1,
      k <= j < k + n ->
      after_rounds j w question log = (Ok st, log1) ->
      function_calls (fst st) <> []) ->
  bind (after_rounds k w question)
       (conversation_rounds (n + m) w question) log
  = bind (after_rounds (k + n) w question)
         (conversation_rounds m w question) log.
Proof.
  intros w question log n m; induction n as [|n IH]; intros k Hcalls.
  - rewrite Nat.add_0_r; reflexivity.
  - replace (k + S n) with (S k + n) by lia.
    rewrite <- IH by (intros j st log1 Hj; apply Hcalls; lia).
    cbn [after_rounds]; rewrite bind_assoc_at.
    apply bind_ext_at; intros st log1 Ek.
    cbn [Nat.add]; rewrite conversation_round_dispatch; [reflexivity|].
    apply (Hcalls k st log1); [lia | exact Ek].
Qed.

(** X18: with the credential set, the loop ends at the first round that
    opens without function calls, provided it is one of the first five:
    when the rounds before round [k+1] all opened with function calls and
    the response that opens round [k+1] has none, the run is those [k]
    dispatch rounds followed by the path without function calls (the
    fallbacks, or the text of the model with the last tool payload); no
    further message is sent to the model. *)
Theorem conversation_ends_at_first_text_turn :
  forall (w : World) (question : string) (log : list event) (k : nat)
         (st : response * option dict) (log_k : list event),
    gemini_api_key w <> EmptyString ->
    k < 5 ->
    (forall j st' log',
        j < k ->
        after_rounds j w question log = (Ok st', log') ->
        function_calls (fst st') <> []) ->
    after_rounds k w question log = (Ok st, log_k) ->
    function_calls (fst st) = [] ->
    run_conversation_with_gemini w question log
    = no_function_call w question (fst st) (snd st) log_k.
Proof.
  intros w question log k st log_k Hkey Hk Hcalls Hst Hnone.
  rewrite (run_as_rounds _ _ _ Hkey).
  replace max_rounds with (k + S (4 - k)) by (unfold max_rounds; lia).
  rewrite (rounds_prefix_dispatch w question log k (S (4 - k)) 0)
    by (intros j st' log' Hj; apply Hcalls; lia).
  cbn [Nat.add]; unfold bind; rewrite Hst.
  cbn [conversation_rounds]; rewrite Hnone; reflexivity.
Qed.

Lemma conversation_ends_at_first_text_turn_witness :
  run_conversation_with_gemini one_call_world "hello" []
  = no_function_call one_call_world "hello"
      {| text := Ok "Done."; function_calls := [] |}
      (Some [kv "error" (JStr "Unknown tool: noop")])
      [ SendMessage (UserText "hello");
        SendMessage (ToolResponse "noop"
                       [kv "error" (JStr "Unknown tool: noop")]) ].
Proof.
  apply (conversation_ends_at_first_text_turn one_call_world "hello" [] 1
           ({| text := Ok "Done."; function_calls := [] |},
            Some [kv "error" (JStr "Unknown tool: noop")])).
  - vm_compute; discriminate.
  - lia.
  - intros j st' log' Hj H.
    destruct j as [|j]; [|lia].
    vm_compute in H; inversion H; subst; vm_compute; discriminate.
  - reflexivity.
  - reflexivity.
Defined.

Lemma gam_call_tool : forall w name args,
  gets_at_most (3 + List.length (years_of w args)) (call_tool w name args).
Proof.
  intros w name args; unfold call_tool.
  apply gam_lift_bind; intros _.
  destruct (String.eqb name "search_recalls");
    [apply gam_search_recalls_handler|].
  destruct (String.eqb name "get_recall_stats"); [|apply gam_ret].
  intro log; exact (get_recall_stats_handler_requests args w log).
Qed.

(** The logging statement of [call_tool]: a sequence of the library
    among the arguments cannot be serialised, and the call raises
    TypeError before any handler runs. *)
Lemma dumps_ok_repeated : forall (d : dict) k l,
  In (k, JRepeated l) d -> Logger.dumps_ok (JDict d) = false.
Proof.
  intros d k l Hin; cbn [Logger.dumps_ok].
  apply andb_false_iff; right.
  destruct (forallb _ d) eqn:E; [|reflexivity].
  rewrite forallb_forall in E; specialize (E _ Hin); discriminate E.
Qed.

Lemma call_tool_repeated_argument : forall w name args k l log,
  In (k, JRepeated l) args ->
  call_tool w name args log = (Raise TypeError, log).
Proof.
  intros w name args k l log Hin; unfold call_tool, Logger.kv_message.
  change (Logger.dumps_ok
            (JDict [kv "name" (JStr name); kv "args" (JDict args)]))
    with (true && (true && (Logger.dumps_ok (JDict args) && true))).
  rewrite (dumps_ok_repeated _ _ _ Hin); reflexivity.
Qed.

(** A run in which the model proposes such a call and no rewrite of the
    intent correction applies: the question is sent and nothing else
    happens. *)
Lemma total_asking_run :
  run_conversation_with_gemini total_asking_world "Count them all" []
  = (Raise TypeError, [SendMessage (UserText "Count them all")]).
Proof. reflexivity. Qed.

(** The two other logging statements cannot fail: they serialise a
    string, and a name with a list of keys. *)
Lemma kv_message_question : forall question,
  Logger.kv_message "question" [kv "text" (JStr question)] = Ok tt.
Proof. reflexivity. Qed.

Lemma kv_message_keys : forall name (payload : dict),
  Logger.kv_message "tool_result"
    [kv "name" (JStr name); kv "keys" (JList (map key_json (keys payload)))]
  = Ok tt.
Proof.
  intros name payload; unfold Logger.kv_message.
  change (Logger.dumps_ok
            (JDict [ kv "name" (JStr name);
                     kv "keys" (JList (map key_json (keys payload))) ]))
    with (true && (true
                   && (forallb Logger.dumps_ok (map key_json (keys payload))
                       && true))).
  assert (H : forallb Logger.dumps_ok (map key_json (keys payload)) = true).
  { apply forallb_forall; intros x Hx.
    apply in_map_iff in Hx; destruct Hx as [[s|z] [Hx _]];
      subst x; reflexivity. }
  rewrite H; reflexivity.
Qed.

(** X19: one function call of a turn is dispatched under its corrected
    name: the tool only issues GETs; when it raises, nothing is sent to
    the model and the exception escapes; when it returns a payload, that
    payload is sent to the model exactly once, after the GETs, as the
    tool message of the corrected name, and it becomes the last tool
    payload unless sending raises. *)
Theorem dispatch_call_protocol :
  forall (w : World) (question : string) (st : response * option dict)
         (fc : string * dict) (log : list event),
    exists gets,
      Forall is_get gets
      /\ snd (call_tool w (fst (correct_intent question fc))
                        (snd (correct_intent question fc)) log)
         = log ++ gets
      /\ ((exists e,
             fst (call_tool w (fst (correct_intent question fc))
                            (snd (correct_intent question fc)) log)
             = Raise e
             /\ dispatch_call w question st fc log = (Raise e, log ++ gets))
          \/ exists payload o,
               fst (call_tool w (fst (correct_intent question fc))
                              (snd (correct_intent question fc)) log)
               = Ok payload
               /\ dispatch_call w question st fc log
                  = (o, (log ++ gets)
                          ++ [SendMessage
                                (ToolResponse
                                   (fst (correct_intent question fc))
                                   payload)])
               /\ (o = Raise UpstreamError
                   \/ exists response, o = Ok (response, Some payload))).
Proof.
  intros w question st fc log.
  destruct (gam_call_tool w (fst (correct_intent question fc))
              (snd (correct_intent question fc)) log)
    as [gets [Hsnd [_ Hget]]].
  exists gets; split; [exact Hget|]; split; [exact Hsnd|].
  unfold dispatch_call, bind.
  destruct (call_tool w _ _ log) as [[payload|e] log1]; cbn [fst snd] in *;
    subst log1.
  - right; exists payload.
    unfold send_message, ret.
    destruct (gemini w (log ++ gets) _) as [r|].
    + eexists; split; [reflexivity|]; split; [reflexivity|].
      right; eexists; reflexivity.
    + eexists; split; [reflexivity|]; split; [reflexivity|].
      left; reflexivity.
  - left; exists e; split; reflexivity.
Qed.

(** The integers that [int] reads from a text: FS is no whitespace for
    it, superscript digits are no decimals, and what it returns is the
    value of at most 4300 decimal digits. *)
Lemma int_of_str_examples :
  PyStr.int_of_str " 42 " = Some 42%Z
  /\ PyStr.int_of_str "-1_000" = Some (-1000)%Z
  /\ PyStr.int_of_str (String (ascii_of_nat 28) "42") = None
  /\ PyStr.int_of_str (String (ascii_of_nat 178) EmptyString) = None
  /\ PyStr.int_of_str "4 2" = None.
Proof. repeat split; reflexivity. Qed.

Lemma int_of_str_digits : forall s z,
  PyStr.int_of_str s = Some z ->
  exists ds,
    PyStr.all_chars PyStr.is_decimal_char ds = true
    /\ String.length ds <= 4300
    /\ Z.abs z = Z.abs (PyStr.digits_value 0 ds).
Proof.
  intros s z H; unfold PyStr.int_of_str in H.
  destruct (match PyStr.rstrip_int (PyStr.lstrip_int s) with
            | String "-"%char r => (true, r)
            | String "+"%char r => (false, r)
            | _ => (false, PyStr.rstrip_int (PyStr.lstrip_int s))
            end) as [neg rest].
  destruct (PyStr.drop_underscores false rest) as [ds|]; [|discriminate H].
  destruct (PyStr.all_chars PyStr.is_decimal_char ds) eqn:Ed;
    [|discriminate H].
  destruct (Nat.leb (String.length ds) PyStr.max_str_digits) eqn:El;
    [|discriminate H].
  apply Nat.leb_le in El.
  exists ds; split; [exact Ed|]; split; [exact El|].
  cbn [andb] in H; destruct neg; inversion H; subst z;
    [apply Z.abs_opp | reflexivity].
Qed.

(** The number after "last": the default when no number follows. *)
Lemma number_after_examples :
  number_after "last" "the last 7 recalls" = 7%Z
  /\ number_after "last" "the last recalls" = 10%Z
  /\ number_after "last"
       ("the last " ++ String (ascii_of_nat 178) " recalls") = 10%Z.
Proof. repeat split; reflexivity. Qed.

Lemma last_n_rule_fires :
  forall w question response last_tool_payload final_text,
    final_text_of response = Ok final_text ->
    PyStr.contains "last" (PyStr.lower question) = true ->
    PyStr.contains "recall" (PyStr.lower question) = true ->
    no_function_call w question response last_tool_payload
    = last_n_fallback w (PyStr.lower question).
Proof.
  intros w question response last final_text Htext Hlast Hrecall.
  unfold no_function_call; rewrite Htext; cbv zeta.
  rewrite Hlast, Hrecall; reflexivity.
Qed.

Lemma handler_limit_last_n : forall n,
  handler_limit (last_n_args n) = clamp 1 50 n.
Proof.
  intro n; unfold handler_limit.
  change (int (dict_get_default "limit" (JInt 10) (last_n_args n)))
    with (@Ok Z n).
  cbv zeta; unfold clamp.
  destruct (Z.ltb_spec n 1).
  - destruct (Z.gtb_spec 1 50); lia.
  - destruct (Z.gtb_spec n 50); lia.
Qed.

Lemma last_n_search_params : forall n,
  search_params JNull (handler_limit (last_n_args n)) 0
                (dict_get "sort" (last_n_args n))
  = last_n_params n.
Proof.
  intro n; rewrite handler_limit_last_n.
  unfold search_params, last_n_params.
  change (dict_get "sort" (last_n_args n)) with newest_first.
  change (truthy JNull) with false; change (truthy newest_first) with true.
  cbv iota zeta.
  change (dict_set (KStr "sort") newest_first
            [ kv "limit" (JInt (Z.max 1 (Z.min (clamp 1 50 n) 100)));
              kv "skip" (JInt (Z.max 0 0)) ])
    with [ kv "limit" (JInt (Z.max 1 (Z.min (clamp 1 50 n) 100)));
           kv "skip" (JInt (Z.max 0 0)); kv "sort" newest_first ].
  replace (Z.max 1 (Z.min (clamp 1 50 n) 100)) with (clamp 1 50 n)
    by (unfold clamp; lia).
  reflexivity.
Qed.

Lemma search_recalls_handler_last_n : forall w n log,
  exists o,
    search_recalls_handler (last_n_args n) w log
    = (o, log ++ [HttpGet (last_n_params n)])
    /\ match o with
       | Ok payload =>
           exists recalls,
             lookup (KStr "recalls") payload = Some (JList recalls)
             /\ count_recalls payload
                = Ok (Z.of_nat (List.length recalls))
       | Raise _ => True
       end.
Proof.
  intros w n log.
  unfold search_recalls_handler.
  change (strip_str (py_or (dict_get "firm" (last_n_args n))
                           (JStr EmptyString)))
    with (@Ok string EmptyString).
  rewrite bind_lift_ok.
  change (int (py_or (dict_get_default "skip" (JInt 0) (last_n_args n))
                     (JInt 0)))
    with (@Ok Z 0%Z).
  rewrite bind_lift_ok.
  fold (handler_limit (last_n_args n)).
  unfold bind at 1.
  rewrite (search_enforcements_run _ _ _ _ _ _ JNull) by reflexivity.
  rewrite last_n_search_params.
  unfold answer_of, bind, lift, ret.
  destruct (http w log (last_n_params n)) as [data|];
    [|eexists; split; [reflexivity | exact I]].
  destruct (get data "results" (JList [])) as [results|e];
    [|eexists; split; [reflexivity | exact I]].
  destruct (iter (py_or results (JList []))) as [items|e];
    [|eexists; split; [reflexivity | exact I]].
  destruct (omap normalize_recall items) as [normalized|e];
    [|eexists; split; [reflexivity | exact I]].
  destruct (get data "meta" (JDict [])) as [meta|e];
    [|eexists; split; [reflexivity | exact I]].
  eexists; split; [reflexivity|].
  exists (map JDict normalized); split; [reflexivity|].
  unfold count_recalls, dict_get_default; simpl.
  destruct normalized; reflexivity.
Qed.

(** X20: for every question whose lower-cased text contains "last" and
    "recall", a turn without function calls whose text can be read is
    answered by the first fallback, whatever that text is: with N the number read after
    "last" (10 when none is read), the search handler is called with
    [limit = N] and issues one GET whose limit is N clamped to 1..50,
    newest first; the answer is "Last N recalls (newest first). Found
    <count>." with N as read, not as clamped, and <count> the number of
    recalls of the payload; when the handler raises, so does the loop. *)
Theorem last_n_recalls_fallback :
  forall (w : World) (question : string) (response : response)
         (last_tool_payload : option dict) (log : list event) (rounds : nat)
         (final_text : string),
    function_calls response = [] ->
    final_text_of response = Ok final_text ->
    PyStr.contains "last" (PyStr.lower question) = true ->
    PyStr.contains "recall" (PyStr.lower question) = true ->
    exists o,
      search_recalls_handler
        (last_n_args (number_after "last" (PyStr.lower question))) w log
      = (o, log ++ [HttpGet (last_n_params
                               (number_after "last" (PyStr.lower question)))])
      /\ match o with
         | Ok payload =>
             exists recalls,
               lookup (KStr "recalls") payload = Some (JList recalls)
               /\ conversation_rounds (S rounds) w question
                    (response, last_tool_payload) log
                  = (Ok {| answer :=
                             ("Last "
                                ++ PyStr.str_of_Z
                                     (number_after "last"
                                        (PyStr.lower question))
                                ++ " recalls (newest first). Found "
                                ++ PyStr.str_of_Z
                                     (Z.of_nat (List.length recalls))
                                ++ ".")%string;
                           data := Some payload |},
                     log ++ [HttpGet
                               (last_n_params
                                  (number_after "last"
                                     (PyStr.lower question)))])
         | Raise e =>
             conversation_rounds (S rounds) w question
               (response, last_tool_payload) log
             = (Raise e,
                log ++ [HttpGet
                          (last_n_params
                             (number_after "last" (PyStr.lower question)))])
         end.
Proof.
  intros w question response last log rounds final_text
         Hnone Htext Hlast Hrecall.
  destruct (search_recalls_handler_last_n w
              (number_after "last" (PyStr.lower question)) log)
    as [o [Hcall Hshape]].
  exists o; split; [exact Hcall|].
  cbn [conversation_rounds fst snd]; rewrite Hnone.
  rewrite (last_n_rule_fires _ _ _ _ _ Htext Hlast Hrecall).
  unfold last_n_fallback; fold (last_n_args
                                  (number_after "last" (PyStr.lower question))).
  unfold bind; rewrite Hcall.
  destruct o as [payload|e]; [|reflexivity].
  destruct Hshape as [recalls [Hrecalls Hcount]].
  exists recalls; split; [exact Hrecalls|].
  unfold lift; rewrite Hcount; reflexivity.
Qed.

Lemma last_n_recalls_fallback_witness :
  exists o,
    search_recalls_handler
      (last_n_args (number_after "last" (PyStr.lower "The last 200 recalls")))
      two_recalls_world []
    = (o, [] ++ [HttpGet
                   (last_n_params
                      (number_after "last"
                         (PyStr.lower "The last 200 recalls")))])
    /\ match o with
       | Ok payload =>
           exists recalls,
             lookup (KStr "recalls") payload = Some (JList recalls)
             /\ conversation_rounds 5 two_recalls_world
                  "The last 200 recalls"
                  ({| text := Ok "Here you are."; function_calls := [] |}, None)
                  []
                = (Ok {| answer :=
                           ("Last "
                              ++ PyStr.str_of_Z
                                   (number_after "last"
                                      (PyStr.lower "The last 200 recalls"))
                              ++ " recalls (newest first). Found "
                              ++ PyStr.str_of_Z
                                   (Z.of_nat (List.length recalls))
                              ++ ".")%string;
                         data := Some payload |},
                   [] ++ [HttpGet
                            (last_n_params
                               (number_after "last"
                                  (PyStr.lower "The last 200 recalls")))])
       | Raise e =>
           conversation_rounds 5 two_recalls_world "The last 200 recalls"
             ({| text := Ok "Here you are."; function_calls := [] |}, None) []
           = (Raise e,
              [] ++ [HttpGet
                       (last_n_params
                          (number_after "last"
                             (PyStr.lower "The last 200 recalls")))])
       end.
Proof.
  apply (last_n_recalls_fallback two_recalls_world "The last 200 recalls"
           {| text := Ok "Here you are."; function_calls := [] |} None [] 4
           "Here you are."); reflexivity.
Defined.

(** The run for that question: 200 in the answer, 50 in the request. *)
Lemma last_two_hundred_run :
  exists payload,
    run_conversation_with_gemini two_recalls_world "The last 200 recalls" []
    = (Ok {| answer := "Last 200 recalls (newest first). Found 2.";
             data := Some payload |},
       [ SendMessage (UserText "The last 200 recalls");
         HttpGet [ kv "limit" (JInt 50); kv "skip" (JInt 0);
                   kv "sort" newest_first ] ]).
Proof. eexists; vm_compute; reflexivity. Qed.

(** ** The route *)

(** X21: the route raises an [HTTPException] with status 400 exactly when
    the question is absent or blank, and then nothing is sent anywhere.
    With a question, whatever is raised inside its [try] statement is
    caught and raised again with status 500: a missing credential too
    (before anything is sent), although the exception raised for it
    carries the status 400; and so is every exception of the
    conversation.  A JSON response is returned exactly when there is a
    question and the conversation, run on the trimmed question, returns
    its content. *)
Theorem ask_status :
  forall (w : World) (body_question : option string) (log : list event),
    (status_of (fst (ask w body_question log)) = Some 400%Z
     <-> question_of body_question = EmptyString)
    /\ (question_of body_question = EmptyString ->
        snd (ask w body_question log) = log)
    /\ (question_of body_question <> EmptyString ->
        gemini_api_key w = EmptyString ->
        ask w body_question log
        = (Raised
             (HTTPException 500
                (StrOf (HTTPException 400 (Text "GEMINI_API_KEY not set")))),
           log))
    /\ (forall e log',
          question_of body_question <> EmptyString ->
          gemini_api_key w <> EmptyString ->
          run_conversation_with_gemini w (question_of body_question) log
          = (Raise e, log') ->
          ask w body_question log
          = (Raised (HTTPException 500 (StrOf (Escaped e))), log'))
    /\ (forall content log',
          ask w body_question log = (Returned (JSONResponse content), log')
          <-> question_of body_question <> EmptyString
              /\ run_conversation_with_gemini w
                   (question_of body_question) log
                 = (Ok content, log')).
Proof.
  intros w body log.
  unfold ask; fold (question_of body).
  destruct (String.eqb (question_of body) EmptyString) eqn:Eq.
  - apply String.eqb_eq in Eq.
    split; [split; [intros _; exact Eq | reflexivity]|].
    split; [reflexivity|].
    split; [intro H; contradiction (H Eq)|].
    split; [intros e log' H; contradiction (H Eq)|].
    intros content log'; split; [discriminate|].
    intros [H _]; contradiction (H Eq).
  - apply String.eqb_neq in Eq.
    unfold try_except_as, ask_body, run.
    destruct (String.eqb (gemini_api_key w) EmptyString) eqn:Ek.
    + apply String.eqb_eq in Ek.
      split; [split; [discriminate | intro H; contradiction (Eq H)]|].
      split; [intro H; contradiction (Eq H)|].
      split; [reflexivity|].
      split; [intros e log' _ H; contradiction (H Ek)|].
      intros content log'; split; [discriminate|].
      intros [_ H]; unfold run_conversation_with_gemini in H.
      rewrite Ek in H; discriminate H.
    + apply String.eqb_neq in Ek.
      destruct (run_conversation_with_gemini w (question_of body) log)
        as [[content|e] log1].
      * split; [split; [discriminate | intro H; contradiction (Eq H)]|].
        split; [intro H; contradiction (Eq H)|].
        split; [intros _ H; contradiction (Ek H)|].
        split; [intros e log' _ _ H; discriminate H|].
        intros content' log'; split.
        -- intro H; inversion H; subst; split; [exact Eq | reflexivity].
        -- intros [_ H]; inversion H; reflexivity.
      * split; [split; [discriminate | intro H; contradiction (Eq H)]|].
        split; [intro H; contradiction (Eq H)|].
        split; [intros _ H; contradiction (Ek H)|].
        split; [intros e' log' _ _ H; inversion H; reflexivity|].
        intros content' log'; split; [discriminate|].
        intros [_ H]; discriminate H.
Qed.

(** With a question and without the credential: status 500, the detail
    being the text of the exception that carries the status 400. *)
Lemma ask_status_witness :
  ask keyless_world (Some " last 5 recalls ") []
  = (Raised
       (HTTPException 500
          (StrOf (HTTPException 400 (Text "GEMINI_API_KEY not set")))),
     []).
Proof.
  apply (ask_status keyless_world (Some " last 5 recalls ") []);
    [discriminate | reflexivity].
Defined.

(** The three answers of the route on closed inputs: no question, a
    conversation that returns, a conversation that raises. *)
Lemma ask_examples :
  ask two_recalls_world (Some "  ") []
  = (Raised (HTTPException 400 (Text "Missing 'question'")), [])
  /\ (exists payload,
         ask two_recalls_world (Some " last 5 recalls ") []
         = (Returned
              (JSONResponse
                 {| answer := "Last 5 recalls (newest first). Found 2.";
                    data := Some payload |}),
            [ SendMessage (UserText "last 5 recalls");
              HttpGet last_five_params ]))
  /\ ask failing_world (Some "last 5 recalls") []
     = (Raised (HTTPException 500 (StrOf (Escaped UpstreamError))),
        [SendMessage (UserText "last 5 recalls")]).
Proof.
  split; [reflexivity|]; split; [eexists|]; vm_compute; reflexivity.
Qed.
(** ** The firm-total fallback *)

Lemma gam_try_except : forall (A : Type) n k N (m h : M A),
  n + k <= N ->
  gets_at_most n m -> gets_at_most k h -> gets_at_most N (try_except m h).
Proof.
  intros A n k N m h Hle Hm Hh log; unfold try_except.
  destruct (Hm log) as [ext [Hsnd [Hlen Hget]]].
  destruct (m log) as [[a|e] log']; cbn [snd] in Hsnd; subst log'.
  - exists ext; cbn [snd]; repeat split; [lia | exact Hget].
  - destruct (Hh (log ++ ext)) as [ext' [Hsnd' [Hlen' Hget']]].
    exists (ext ++ ext'); rewrite Hsnd', app_assoc.
    repeat split; [rewrite length_app; lia | apply Forall_app; split; assumption].
Qed.

Lemma gam_firm_total_fallback : forall w user_q,
  gets_at_most 2 (firm_total_fallback w user_q).
Proof.
  intros w user_q; unfold firm_total_fallback; cbv zeta.
  destruct (negb (String.eqb (extract_firm user_q) EmptyString));
    [|apply gam_ret].
  apply (gam_bind _ _ 1 1); [lia | apply gam_search_enforcements | intro].
  apply gam_lift_bind; intro.
  apply (gam_bind _ _ 1 0); [lia | apply gam_search_recalls_handler | intro].
  apply gam_ret.
Qed.

(** What the firm-total fallback returns when it finds something. *)
Lemma firm_total_fallback_found : forall w user_q log found log',
  firm_total_fallback w user_q log = (Ok (Some found), log') ->
  extract_firm user_q <> EmptyString
  /\ data found <> None
  /\ exists total,
       answer found
       = ("Total recalls for firm " ++ extract_firm user_q ++ ": "
            ++ PyStr.str_of_Z total)%string.
Proof.
  intros w user_q log found log'; unfold firm_total_fallback; cbv zeta.
  destruct (String.eqb (extract_firm user_q) EmptyString) eqn:Efirm;
    cbn [negb]; [intro H; inversion H|].
  apply String.eqb_neq in Efirm.
  unfold bind at 1.
  destruct (search_enforcements w _ _ _ _ _ log) as [[d|e] log1];
    [|intro H; inversion H].
  unfold bind at 1, lift at 1.
  destruct (read_total d) as [total|e]; [|intro H; inversion H].
  unfold bind at 1.
  destruct (search_recalls_handler _ w log1) as [[sample|e] log2];
    [|intro H; inversion H].
  unfold ret; intro H; inversion H; subst; cbn [answer data].
  split; [exact Efirm|]; split; [discriminate|].
  exists total; reflexivity.
Qed.

(** X22: a turn without function calls whose text can be read, on a
    question that triggers none of the earlier fallbacks, never fails:
    every exception of the firm-total fallback is swallowed.  It sends
    nothing to the model and makes at most two GETs, and the reply is
    either the text of the turn with the last tool payload, or the total
    of the firm named in the question (not empty), with data. *)
Theorem firm_total_fallback_never_raises :
  forall (w : World) (question : string) (response : response)
         (last_tool_payload : option dict) (log : list event) (rounds : nat)
         (final_text : string),
    function_calls response = [] ->
    final_text_of response = Ok final_text ->
    earlier_fallback (PyStr.lower question) = false ->
    exists r ext,
      conversation_rounds (S rounds) w question
        (response, last_tool_payload) log
      = (Ok r, log ++ ext)
      /\ List.length ext <= 2
      /\ Forall is_get ext
      /\ (r = {| answer := final_text; data := last_tool_payload |}
          \/ (extract_firm (PyStr.lower question) <> EmptyString
              /\ data r <> None
              /\ exists total,
                   answer r
                   = ("Total recalls for firm "
                        ++ extract_firm (PyStr.lower question) ++ ": "
                        ++ PyStr.str_of_Z total)%string)).
Proof.
  intros w question response ltp log rounds final_text Hfc Htext Hearlier.
  cbn [conversation_rounds fst snd]; rewrite Hfc.
  unfold no_function_call; rewrite Htext, bind_lift_ok; cbv beta zeta.
  unfold earlier_fallback in Hearlier; cbv beta zeta in Hearlier.
  apply orb_false_elim in Hearlier; destruct Hearlier as [Hearlier Hmost].
  apply orb_false_elim in Hearlier; destruct Hearlier as [Hrange Hlist].
  assert (Hlast : forall a b c, (a || b) && c = false -> a && c = false)
    by (intros [] [] []; simpl; congruence).
  rewrite (Hlast _ _ _ Hrange), Hlist, Hmost, Hrange.
  destruct (PyStr.contains "how many" (PyStr.lower question)
            && PyStr.contains "firm" (PyStr.lower question)).
  - destruct (gam_try_except _ 2 0 2 (firm_total_fallback w (PyStr.lower question))
                (ret None) (le_n _) (gam_firm_total_fallback _ _)
                (gam_ret _ _ _) log) as [ext [Hsnd [Hlen Hget]]].
    unfold bind; unfold try_except in *.
    destruct (firm_total_fallback w (PyStr.lower question) log)
      as [[[found|]|e] log'] eqn:Efallback; cbn [snd ret] in Hsnd; subst log'.
    + exists found, ext; repeat split; try assumption.
      right; exact (firm_total_fallback_found _ _ _ _ _ Efallback).
    + eexists; exists ext; repeat split; try assumption.
      left; reflexivity.
    + eexists; exists ext; repeat split; try assumption.
      left; reflexivity.
  - eexists; exists []; rewrite app_nil_r; repeat split;
      [simpl; lia | constructor | left; reflexivity].
Qed.

Lemma firm_total_fallback_never_raises_witness :
  exists r ext,
    conversation_rounds 5 failing_world "How many recalls has firm Acme?"
      ({| text := Ok "I do not know."; function_calls := [] |}, None) []
    = (Ok r, [] ++ ext)
    /\ List.length ext <= 2
    /\ Forall is_get ext
    /\ (r = {| answer := "I do not know."; data := None |}
        \/ (extract_firm (PyStr.lower "How many recalls has firm Acme?")
            <> EmptyString
            /\ data r <> None
            /\ exists total,
                 answer r
                 = ("Total recalls for firm "
                      ++ extract_firm
                           (PyStr.lower "How many recalls has firm Acme?")
                      ++ ": " ++ PyStr.str_of_Z total)%string)).
Proof.
  apply (firm_total_fallback_never_raises failing_world
           "How many recalls has firm Acme?"
           {| text := Ok "I do not know."; function_calls := [] |} None [] 4
           "I do not know."); reflexivity.
Defined.

(** With the service down the reply is the text of the model, after the
    one request that failed. *)
Lemma how_many_with_service_down :
  exists params,
    conversation_rounds 5 failing_world "How many recalls has firm Acme?"
      ({| text := Ok "I do not know."; function_calls := [] |}, None) []
    = (Ok {| answer := "I do not know."; data := None |}, [HttpGet params]).
Proof. eexists; vm_compute; reflexivity. Qed.

(** With a service that reports a total of 7: the total, then a sample of
    at most ten records. *)
Lemma how_many_has_firm_acme :
  exists payload,
    conversation_rounds 5 (one_total_world 7) "How many recalls has firm Acme"
      ({| text := Ok "I do not know."; function_calls := [] |}, None) []
    = (Ok {| answer := "Total recalls for firm acme: 7";
             data := Some payload |},
       [ HttpGet [ kv "limit" (JInt 1); kv "skip" (JInt 0);
                   kv "search" (JStr ("recalling_firm:" ++ quoted "acme")) ];
         HttpGet [ kv "limit" (JInt 7); kv "skip" (JInt 0);
                   kv "search" (JStr ("recalling_firm:" ++ quoted "acme"));
                   kv "sort" (JStr "recall_initiation_date:desc") ] ]).
Proof. eexists; vm_compute; reflexivity. Qed.

(** ** The firm-listing fallback *)

(** The count that the fallbacks read from a payload of the search
    handler is the number of its recalls. *)
Lemma search_recalls_handler_counted : forall args w log payload log',
  search_recalls_handler args w log = (Ok payload, log') ->
  exists recalls,
    lookup (KStr "recalls") payload = Some (JList recalls)
    /\ count_recalls payload = Ok (Z.of_nat (List.length recalls)).
Proof.
  intros args w log payload log' H.
  destruct (search_recalls_handler_payload _ _ _ _ _ H)
    as [params [d [items [normalized [meta [_ [_ [_ [_ [_ Hp]]]]]]]]]].
  subst payload.
  exists (map JDict (projected (dict_get "fields" args) normalized)).
  split; [reflexivity|].
  unfold count_recalls.
  change (dict_get_default "recalls" (JList [])
            [ kv "recalls"
                (JList (map JDict
                          (projected (dict_get "fields" args) normalized)));
              kv "meta" meta ])
    with (JList (map JDict (projected (dict_get "fields" args) normalized))).
  destruct (map JDict (projected (dict_get "fields" args) normalized));
    reflexivity.
Qed.

Lemma strip_or_empty : forall s,
  strip_str (py_or (JStr s) (JStr EmptyString)) = Ok (PyStr.strip s).
Proof.
  intro s; unfold py_or, truthy.
  destruct (String.eqb s EmptyString) eqn:E; cbn [negb]; [|reflexivity].
  apply String.eqb_eq in E; subst s; reflexivity.
Qed.

Lemma search_recalls_handler_firm_list : forall w firm_name log,
  exists o,
    search_recalls_handler (firm_list_args firm_name) w log
    = (o, log ++ [HttpGet (firm_list_params (PyStr.strip firm_name))]).
Proof.
  intros w firm_name log.
  unfold search_recalls_handler.
  change (dict_get "firm" (firm_list_args firm_name)) with (JStr firm_name).
  rewrite strip_or_empty, bind_lift_ok.
  change (int (py_or (dict_get_default "skip" (JInt 0)
                        (firm_list_args firm_name)) (JInt 0)))
    with (@Ok Z 0%Z).
  rewrite bind_lift_ok.
  change (dict_get "query" (firm_list_args firm_name)) with JNull.
  change (dict_get "classification" (firm_list_args firm_name)) with JNull.
  change (dict_get "sort" (firm_list_args firm_name)) with newest_first.
  change (int (dict_get_default "limit" (JInt 10) (firm_list_args firm_name)))
    with (@Ok Z 50%Z).
  change (truthy JNull) with false.
  cbv beta iota zeta.
  change (50 <? 1)%Z with false; change (50 >? 50)%Z with false.
  cbv beta iota zeta.
  unfold bind at 1, firm_list_params.
  destruct (String.eqb (PyStr.strip firm_name) EmptyString); cbn [negb].
  - rewrite (search_enforcements_run _ _ _ _ _ _ JNull) by reflexivity.
    change (search_params JNull 50 0 newest_first)
      with [ kv "limit" (JInt 50); kv "skip" (JInt 0);
             kv "sort" newest_first ].
    unfold answer_of, bind, lift, ret.
    destruct (http w log _) as [d|]; [|eexists; reflexivity].
    destruct (get d "results" (JList [])) as [results|e];
      [|eexists; reflexivity].
    destruct (iter (py_or results (JList []))) as [items|e];
      [|eexists; reflexivity].
    destruct (omap normalize_recall items) as [normalized|e];
      [|eexists; reflexivity].
    destruct (get d "meta" (JDict [])) as [meta|e]; eexists; reflexivity.
  - rewrite (search_enforcements_run _ _ _ _ _ _
               (JStr (clause "recalling_firm" (PyStr.strip firm_name))))
      by reflexivity.
    change (search_params
              (JStr (clause "recalling_firm" (PyStr.strip firm_name)))
              50 0 newest_first)
      with [ kv "limit" (JInt 50); kv "skip" (JInt 0);
             kv "search"
                (JStr ("recalling_firm:" ++ quoted (PyStr.strip firm_name)));
             kv "sort" newest_first ].
    unfold answer_of, bind, lift, ret.
    destruct (http w log _) as [d|]; [|eexists; reflexivity].
    destruct (get d "results" (JList [])) as [results|e];
      [|eexists; reflexivity].
    destruct (iter (py_or results (JList []))) as [items|e];
      [|eexists; reflexivity].
    destruct (omap normalize_recall items) as [normalized|e];
      [|eexists; reflexivity].
    destruct (get d "meta" (JDict [])) as [meta|e]; eexists; reflexivity.
Qed.

(** X23: for every question that triggers the firm-listing fallback (and
    not the one for the last N recalls), a turn without function calls
    whose text can be read makes exactly one GET: limit 50, newest first,
    with the search [recalling_firm:] followed by the trimmed firm read
    from the question, between double quotes; when no firm can be read
    the GET carries no search at all and every recall is listed.  The
    answer is "Showing <count> recalls for firm <firm> (newest first)."
    with the number of recalls of the payload, whatever the text of the
    turn is. *)
Theorem firm_list_fallback_request :
  forall (w : World) (question : string) (response : response)
         (last_tool_payload : option dict) (log : list event) (rounds : nat)
         (final_text : string),
    function_calls response = [] ->
    final_text_of response = Ok final_text ->
    PyStr.contains "last" (PyStr.lower question)
    && PyStr.contains "recall" (PyStr.lower question) = false ->
    asks_firm_list (PyStr.lower question) = true ->
    exists o,
      conversation_rounds (S rounds) w question
        (response, last_tool_payload) log
      = (o, log ++ [HttpGet
                      (firm_list_params
                         (PyStr.strip
                            (extract_firm (PyStr.lower question))))])
      /\ match o with
         | Ok r =>
             exists payload recalls,
               data r = Some payload
               /\ lookup (KStr "recalls") payload = Some (JList recalls)
               /\ answer r
                  = ("Showing "
                       ++ PyStr.str_of_Z (Z.of_nat (List.length recalls))
                       ++ " recalls for firm "
                       ++ extract_firm (PyStr.lower question)
                       ++ " (newest first).")%string
         | Raise _ => True
         end.
Proof.
  intros w question response ltp log rounds final_text
         Hfc Htext Hlast Hlist.
  cbn [conversation_rounds fst snd]; rewrite Hfc.
  unfold no_function_call; rewrite Htext, bind_lift_ok; cbv beta zeta.
  unfold asks_firm_list in Hlist; cbv beta zeta in Hlist.
  rewrite Hlast, Hlist.
  unfold firm_list_fallback; cbv zeta.
  fold (firm_list_args (extract_firm (PyStr.lower question))).
  destruct (search_recalls_handler_firm_list w
              (extract_firm (PyStr.lower question)) log) as [o Hcall].
  unfold bind at 1; rewrite Hcall.
  destruct o as [payload|e]; [|eexists; split; [reflexivity | exact I]].
  destruct (search_recalls_handler_counted _ _ _ _ _ Hcall)
    as [recalls [Hrecalls Hcount]].
  unfold bind, lift, ret; rewrite Hcount.
  eexists; split; [reflexivity|].
  exists payload, recalls; repeat split; assumption.
Qed.

Lemma firm_list_fallback_request_witness :
  exists o,
    conversation_rounds 5 two_recalls_world "List recalls of the firm Acme"
      ({| text := Ok "Which firm?"; function_calls := [] |}, None) []
    = (o, [] ++ [HttpGet
                   (firm_list_params
                      (PyStr.strip
                         (extract_firm
                            (PyStr.lower "List recalls of the firm Acme"))))])
    /\ match o with
       | Ok r =>
           exists payload recalls,
             data r = Some payload
             /\ lookup (KStr "recalls") payload = Some (JList recalls)
             /\ answer r
                = ("Showing "
                     ++ PyStr.str_of_Z (Z.of_nat (List.length recalls))
                     ++ " recalls for firm "
                     ++ extract_firm
                          (PyStr.lower "List recalls of the firm Acme")
                     ++ " (newest first).")%string
       | Raise _ => True
       end.
Proof.
  apply (firm_list_fallback_request two_recalls_world
           "List recalls of the firm Acme"
           {| text := Ok "Which firm?"; function_calls := [] |} None [] 4
           "Which firm?"); reflexivity.
Defined.

(** The two cases on closed questions: a firm, whose name goes into the
    search between double quotes, and no firm, where every recall is
    listed. *)
Lemma list_of_the_firm_acme :
  exists payload,
    conversation_rounds 5 two_recalls_world "List recalls of the firm Acme"
      ({| text := Ok "Which firm?"; function_calls := [] |}, None) []
    = (Ok {| answer := "Showing 2 recalls for firm acme (newest first).";
             data := Some payload |},
       [ HttpGet [ kv "limit" (JInt 50); kv "skip" (JInt 0);
                   kv "search"
                      (JStr ("recalling_firm:"
                               ++ String (ascii_of_nat 34)
                                    ("acme"
                                       ++ String (ascii_of_nat 34)
                                            EmptyString)));
                   kv "sort" (JStr "recall_initiation_date:desc") ] ]).
Proof. eexists; vm_compute; reflexivity. Qed.

Lemma list_by_firm_without_a_firm :
  exists payload,
    conversation_rounds 5 two_recalls_world "List the recalls by firm"
      ({| text := Ok "Which firm?"; function_calls := [] |}, None) []
    = (Ok {| answer := "Showing 2 recalls for firm  (newest first).";
             data := Some payload |},
       [ HttpGet [ kv "limit" (JInt 50); kv "skip" (JInt 0);
                   kv "sort" newest_first ] ]).
Proof. eexists; vm_compute; reflexivity. Qed.

(** ** The firm rankings alone *)

(** A request for the firm rankings and nothing else runs the block of
    the firm rankings on the empty result. *)
Lemma firms_only_run : forall w args stats cf log,
  stats_requested_of args = Ok stats ->
  strip_str (py_or (dict_get "classification" args) (JStr EmptyString))
  = Ok cf ->
  requests_any [ "firmTotal"; "total"; "byClassification"; "byYear";
                 "mostYear"; "leastYear" ] stats = false ->
  get_recall_stats_handler args w log = firms_block w args stats cf [] log.
Proof.
  intros w args stats cf log Hstats Hcf Hnone.
  assert (Hm : forall m,
             In m [ "firmTotal"; "total"; "byClassification"; "byYear";
                    "mostYear"; "leastYear" ] ->
             PyStr.mem m stats = false)
    by (intros m Hin; exact (requests_none _ _ _ Hnone Hin)).
  unfold get_recall_stats_handler; rewrite Hstats, Hcf, !bind_lift_ok.
  unfold firm_total_block; rewrite (Hm "firmTotal") by (simpl; tauto).
  unfold bind at 1, ret at 1; cbn [fst snd].
  unfold classification_block.
  rewrite (Hm "total"), (Hm "byClassification") by (simpl; tauto);
    cbn [orb].
  unfold bind at 1, ret at 1.
  unfold bind.
  destruct (firms_block w args stats cf [] log) as [[result|e] log1];
    [|reflexivity].
  apply years_block_idle; apply Hm; simpl; tauto.
Qed.

(** The parameters of the firm facet call, as the client builds them. *)
Lemma firm_facet_params : forall cf,
  facet_params "recalling_firm"
    (if negb (String.eqb cf EmptyString)
     then JStr (clause "classification" cf)
     else JNull)
  = firm_facet cf.
Proof.
  intro cf; unfold firm_facet.
  destruct (String.eqb cf EmptyString); reflexivity.
Qed.

(** The block of the firm rankings, run. *)
Lemma firms_block_run : forall w args stats cf result limits log,
  PyStr.mem "topFirms" stats || PyStr.mem "bottomFirms" stats = true ->
  firm_limits args = Ok limits ->
  exists o,
    firms_block w args stats cf result log
    = (o, log ++ [HttpGet (firm_facet cf)])
    /\ (PyStr.mem "bottomFirms" stats = false ->
        o = (data <~ answer_of w log (firm_facet cf) ;;
             results <~ get data "results" (JList []) ;;
             bs <~ slice_to (py_or results (JList [])) (fst limits) ;;
             top_firms <~ omap bucket_entry bs ;;
             Ok (dict_set (KStr "topFirms")
                          (JList (map firm_json top_firms)) result))%eff).
Proof.
  intros w args stats cf result limits log Hsome Hlimits.
  unfold firms_block; cbv zeta; rewrite Hsome, Hlimits, bind_lift_ok.
  unfold bind at 1; rewrite count_buckets_run, firm_facet_params.
  unfold obind.
  destruct (answer_of w log (firm_facet cf)) as [d|e];
    [|eexists; split; [reflexivity | intros _; reflexivity]].
  destruct (get d "results" (JList [])) as [results|e];
    [|eexists; split; [reflexivity | intros _; reflexivity]].
  destruct (PyStr.mem "bottomFirms" stats) eqn:Eb.
  - rewrite orb_true_r in Hsome.
    unfold bind, lift, ret.
    destruct (PyStr.mem "topFirms" stats).
    + destruct (slice_to _ (fst limits)) as [bs|e];
        [|eexists; split; [reflexivity | discriminate]].
      destruct (omap bucket_entry bs) as [top|e];
        [|eexists; split; [reflexivity | discriminate]].
      destruct (iter _) as [all_buckets|e];
        [|eexists; split; [reflexivity | discriminate]].
      destruct (omap bucket_entry all_buckets) as [entries|e];
        eexists; (split; [reflexivity | discriminate]).
    + destruct (iter _) as [all_buckets|e];
        [|eexists; split; [reflexivity | discriminate]].
      destruct (omap bucket_entry all_buckets) as [entries|e];
        eexists; (split; [reflexivity | discriminate]).
  - rewrite orb_false_r in Hsome; rewrite Hsome.
    unfold bind, lift, ret.
    destruct (slice_to _ (fst limits)) as [bs|e];
      [|eexists; split; [reflexivity | intros _; reflexivity]].
    destruct (omap bucket_entry bs) as [top|e];
      eexists; (split; [reflexivity | intros _; reflexivity]).
Qed.

(** X24: a request for [topFirms] and/or [bottomFirms] and no other
    metric, whose limits are readable and whose [classification] is
    absent, falsy or a string, makes exactly one remote call: the facet
    count on [recalling_firm.exact], with the search [classification:]
    followed by the trimmed classification between double quotes when
    that is not empty, and without search otherwise. *)
Theorem firm_rankings_one_facet_call :
  forall (w : World) (args : dict) (stats : list string)
         (classification_filter : string) (limits : Z * Z)
         (log : list event),
    stats_requested_of args = Ok stats ->
    strip_str (py_or (dict_get "classification" args) (JStr EmptyString))
    = Ok classification_filter ->
    firm_limits args = Ok limits ->
    PyStr.mem "topFirms" stats || PyStr.mem "bottomFirms" stats = true ->
    requests_any [ "firmTotal"; "total"; "byClassification"; "byYear";
                   "mostYear"; "leastYear" ] stats = false ->
    exists o,
      get_recall_stats_handler args w log
      = (o, log ++ [HttpGet (firm_facet classification_filter)])
      /\ lookup (KStr "count") (firm_facet classification_filter)
         = Some (JStr "recalling_firm.exact")
      /\ lookup (KStr "search") (firm_facet classification_filter)
         = if String.eqb classification_filter EmptyString then None
           else Some (JStr ("classification:"
                              ++ quoted classification_filter)).
Proof.
  intros w args stats cf limits log Hstats Hcf Hlimits Hsome Hnone.
  rewrite (firms_only_run _ _ _ _ _ Hstats Hcf Hnone).
  destruct (firms_block_run w args stats cf [] limits log Hsome Hlimits)
    as [o [Hrun _]].
  exists o; split; [exact Hrun|].
  unfold firm_facet.
  destruct (String.eqb cf EmptyString); split; reflexivity.
Qed.

Lemma firm_rankings_one_facet_call_witness :
  exists o,
    get_recall_stats_handler
      [ kv "stats" (JList [JStr "bottomFirms"]);
        kv "classification" (JStr " Class II ") ]
      buckets_world []
    = (o, [] ++ [HttpGet (firm_facet "Class II")])
    /\ lookup (KStr "count") (firm_facet "Class II")
       = Some (JStr "recalling_firm.exact")
    /\ lookup (KStr "search") (firm_facet "Class II")
       = if String.eqb "Class II" EmptyString then None
         else Some (JStr ("classification:" ++ quoted "Class II")).
Proof.
  apply (firm_rankings_one_facet_call buckets_world
           [ kv "stats" (JList [JStr "bottomFirms"]);
             kv "classification" (JStr " Class II ") ]
           ["bottomFirms"] "Class II" (5, 5)%Z []); reflexivity.
Defined.

(** The call of that request, written out. *)
Lemma bottom_firms_of_class_two :
  snd (get_recall_stats_handler
         [ kv "stats" (JList [JStr "bottomFirms"]);
           kv "classification" (JStr " Class II ") ]
         buckets_world [])
  = [ HttpGet [ kv "count" (JStr "recalling_firm.exact");
                kv "search"
                   (JStr ("classification:"
                            ++ String (ascii_of_nat 34)
                                 ("Class II"
                                    ++ String (ascii_of_nat 34)
                                         EmptyString))) ] ].
Proof. vm_compute; reflexivity. Qed.

(** ** The fallback for the firms with the most recalls *)

Lemma top_lines_firm_json : forall w entries i,
  exists lines,
    top_lines w i (map firm_json entries) = Ok lines
    /\ List.length lines = List.length entries.
Proof.
  intros w entries; induction entries as [|e entries IH]; intro i.
  - exists []; split; reflexivity.
  - destruct (IH (i + 1)%Z) as [rest [Hrest Hlen]].
    cbn [map top_lines].
    change (get (firm_json e) "firm" (JStr "Unknown")) with (Ok (fst e)).
    change (get (firm_json e) "count" (JInt 0)) with (Ok (JInt (snd e))).
    cbn [obind]; rewrite Hrest.
    eexists; split; [reflexivity|].
    cbn [List.length]; rewrite Hlen; reflexivity.
Qed.

(** X25: for every question that asks for the firms with the most recalls
    (and triggers neither the fallback for the last N recalls nor the
    firm listing), a turn without function calls whose text can be read
    makes exactly one GET,
    the unfiltered facet count on [recalling_firm.exact], and sends
    nothing to the model.  The data is the [topFirms] list of at most ten
    entries; the answer is "No firm recall data available." when that
    list is empty, and "Top firms by recall count:" followed by one line
    for each entry otherwise. *)
Theorem top_firms_fallback_request :
  forall (w : World) (question : string) (response : response)
         (last_tool_payload : option dict) (log : list event) (rounds : nat)
         (final_text : string),
    function_calls response = [] ->
    final_text_of response = Ok final_text ->
    PyStr.contains "last" (PyStr.lower question)
    && PyStr.contains "recall" (PyStr.lower question) = false ->
    asks_firm_list (PyStr.lower question) = false ->
    asks_top_firms (PyStr.lower question) = true ->
    exists o,
      conversation_rounds (S rounds) w question
        (response, last_tool_payload) log
      = (o, log ++ [HttpGet [kv "count" (JStr "recalling_firm.exact")]])
      /\ match o with
         | Ok r =>
             exists top_firms,
               data r = Some [kv "topFirms" (JList (map firm_json top_firms))]
               /\ List.length top_firms <= 10
               /\ (top_firms = [] ->
                   answer r = "No firm recall data available.")
               /\ (top_firms <> [] ->
                   exists lines,
                     List.length lines = List.length top_firms
                     /\ answer r
                        = ("Top firms by recall count:" ++ nl
                             ++ PyStr.join nl lines)%string)
         | Raise _ => True
         end.
Proof.
  intros w question response ltp log rounds final_text
         Hfc Htext Hlast Hlist Htop.
  cbn [conversation_rounds fst snd]; rewrite Hfc.
  unfold no_function_call; rewrite Htext, bind_lift_ok; cbv beta zeta.
  unfold asks_firm_list in Hlist; cbv beta zeta in Hlist.
  unfold asks_top_firms in Htop.
  rewrite Hlast, Hlist, Htop.
  unfold top_firms_fallback; fold top_firms_args.
  unfold bind at 1.
  rewrite (firms_only_run w top_firms_args ["topFirms"] EmptyString log
             eq_refl eq_refl eq_refl).
  destruct (firms_block_run w top_firms_args ["topFirms"] EmptyString []
              (10, 10)%Z log eq_refl eq_refl) as [o [Hrun Ho]].
  change (firm_facet EmptyString)
    with [kv "count" (JStr "recalling_firm.exact")] in *.
  rewrite Hrun; specialize (Ho eq_refl).
  destruct o as [payload|e]; [|eexists; split; [reflexivity | exact I]].
  unfold obind in Ho.
  destruct (answer_of w log _) as [d|]; [|discriminate Ho].
  destruct (get d "results" (JList [])) as [results|]; [|discriminate Ho].
  destruct (slice_to (py_or results (JList [])) (fst (10, 10)%Z))
    as [bs|] eqn:Eslice; [|discriminate Ho].
  destruct (omap bucket_entry bs) as [top|] eqn:Etop; [|discriminate Ho].
  injection Ho as Hpayload; subst payload.
  change (dict_set (KStr "topFirms") (JList (map firm_json top)) [])
    with [kv "topFirms" (JList (map firm_json top))].
  change (dict_get_default "topFirms" (JList [])
            [kv "topFirms" (JList (map firm_json top))])
    with (JList (map firm_json top)).
  assert (Hlen : List.length top <= 10).
  { rewrite (omap_length _ _ _ _ _ Etop).
    pose proof (slice_to_length _ _ _ Eslice) as H; cbn [fst] in H.
    change (Z.to_nat 10) with 10 in H; exact H. }
  destruct top as [|t top].
  - eexists; split; [reflexivity|].
    exists []; repeat split; [lia | intro H; contradiction H; reflexivity].
  - destruct (top_lines_firm_json w (t :: top) 0) as [lines [Hlines Hll]].
    cbn [map] in Hlines |- *.
    change (dict_get_default "topFirms" (JList [])
              [(KStr "topFirms", JList (firm_json t :: map firm_json top))])
      with (JList (firm_json t :: map firm_json top)).
    unfold py_or; cbn [truthy].
    unfold bind, lift, ret; cbn [iter]; rewrite Hlines.
    eexists; split; [reflexivity|].
    exists (t :: top); repeat split; [exact Hlen | discriminate |].
    intros _; exists lines; split; [exact Hll | reflexivity].
Qed.

Lemma top_firms_fallback_request_witness :
  exists o,
    conversation_rounds 5 buckets_world "Who has the most?"
      ({| text := Ok "Let me think."; function_calls := [] |}, None) []
    = (o, [] ++ [HttpGet [kv "count" (JStr "recalling_firm.exact")]])
    /\ match o with
       | Ok r =>
           exists top_firms,
             data r = Some [kv "topFirms" (JList (map firm_json top_firms))]
             /\ List.length top_firms <= 10
             /\ (top_firms = [] ->
                 answer r = "No firm recall data available.")
             /\ (top_firms <> [] ->
                 exists lines,
                   List.length lines = List.length top_firms
                   /\ answer r
                      = ("Top firms by recall count:" ++ nl
                           ++ PyStr.join nl lines)%string)
       | Raise _ => True
       end.
Proof.
  apply (top_firms_fallback_request buckets_world "Who has the most?"
           {| text := Ok "Let me think."; function_calls := [] |} None [] 4
           "Let me think."); reflexivity.
Defined.

(** ** The time-range fallback *)

Lemma search_recalls_handler_query : forall w q log,
  q <> EmptyString ->
  exists o,
    search_recalls_handler
      [ kv "query" (JStr q); kv "limit" (JInt 50); kv "sort" newest_first ]
      w log
    = (o, log ++ [HttpGet [ kv "limit" (JInt 50); kv "skip" (JInt 0);
                            kv "search" (JStr q); kv "sort" newest_first ]]).
Proof.
  intros w q log Hq; apply String.eqb_neq in Hq.
  unfold search_recalls_handler.
  set (args := [ kv "query" (JStr q); kv "limit" (JInt 50);
                 kv "sort" newest_first ]).
  change (strip_str (py_or (dict_get "firm" args) (JStr EmptyString)))
    with (@Ok string EmptyString).
  rewrite bind_lift_ok.
  change (int (py_or (dict_get_default "skip" (JInt 0) args) (JInt 0)))
    with (@Ok Z 0%Z).
  rewrite bind_lift_ok.
  change (dict_get "query" args) with (JStr q).
  change (dict_get "classification" args) with JNull.
  change (dict_get "sort" args) with newest_first.
  change (int (dict_get_default "limit" (JInt 10) args)) with (@Ok Z 50%Z).
  change (negb (String.eqb EmptyString EmptyString)) with false.
  cbv beta iota zeta.
  change (50 <? 1)%Z with false; change (50 >? 50)%Z with false.
  cbv beta iota zeta.
  unfold bind at 1.
  assert (Hsearch : _compose_search w (JStr q) JNull = Ok (JStr q)).
  { unfold _compose_search; cbv zeta.
    change (truthy JNull) with false; cbv iota.
    change (truthy (JStr q)) with (negb (String.eqb q EmptyString)).
    rewrite Hq; reflexivity. }
  rewrite (search_enforcements_run _ _ _ _ _ _ _ _ Hsearch).
  unfold search_params; cbv zeta.
  change (truthy (JStr q)) with (negb (String.eqb q EmptyString)).
  rewrite Hq; cbn [negb].
  change (truthy newest_first) with true; cbv iota.
  change (dict_set (KStr "sort") newest_first
            (dict_set (KStr "search") (JStr q)
               [ kv "limit" (JInt (Z.max 1 (Z.min 50 100)));
                 kv "skip" (JInt (Z.max 0 0)) ]))
    with [ kv "limit" (JInt 50); kv "skip" (JInt 0);
           kv "search" (JStr q); kv "sort" newest_first ].
  unfold answer_of, bind, lift, ret.
  destruct (http w log _) as [d|]; [|eexists; reflexivity].
  destruct (get d "results" (JList [])) as [results|e];
    [|eexists; reflexivity].
  destruct (iter (py_or results (JList []))) as [items|e];
    [|eexists; reflexivity].
  destruct (omap normalize_recall items) as [normalized|e];
    [|eexists; reflexivity].
  destruct (get d "meta" (JDict [])) as [meta|e]; eexists; reflexivity.
Qed.

(** X26: the time-range fallback is only reached by a question without
    "last" (the fallback for the last N recalls takes those), so the
    range is always read after "past".  For a question with "past" and
    "recall" that triggers no earlier fallback, and dates that can be
    formatted, a turn without function calls whose text can be read
    makes exactly one GET:
    limit 50, newest first, searching the recalls initiated between
    today minus the days read ([N] days, 7 times [N] for weeks, 30 times
    [N] for months) and today; the answer is "Showing <count> recalls
    from <start> to <end>." *)
Theorem time_range_fallback_request :
  forall (w : World) (question : string) (response : response)
         (last_tool_payload : option dict) (log : list event) (rounds : nat)
         (final_text start_str end_str : string),
    function_calls response = [] ->
    final_text_of response = Ok final_text ->
    PyStr.contains "last" (PyStr.lower question) = false ->
    PyStr.contains "past" (PyStr.lower question) = true ->
    PyStr.contains "recall" (PyStr.lower question) = true ->
    asks_firm_list (PyStr.lower question) = false ->
    asks_top_firms (PyStr.lower question) = false ->
    utc_ymd_days_ago w
      (days_back (fst (count_and_unit "past" (PyStr.lower question)))
                 (snd (count_and_unit "past" (PyStr.lower question))))
    = Some start_str ->
    utc_ymd_days_ago w 0 = Some end_str ->
    exists o,
      conversation_rounds (S rounds) w question
        (response, last_tool_payload) log
      = (o, log ++ [HttpGet (range_params start_str end_str)])
      /\ match o with
         | Ok r =>
             exists payload recalls,
               data r = Some payload
               /\ lookup (KStr "recalls") payload = Some (JList recalls)
               /\ answer r
                  = ("Showing "
                       ++ PyStr.str_of_Z (Z.of_nat (List.length recalls))
                       ++ " recalls from " ++ start_str ++ " to "
                       ++ end_str ++ ".")%string
         | Raise _ => True
         end.
Proof.
  intros w question response ltp log rounds final_text start_str end_str
         Hfc Htext Hlast Hpast Hrecall Hlist Htop Hstart Hend.
  cbn [conversation_rounds fst snd]; rewrite Hfc.
  unfold no_function_call; rewrite Htext, bind_lift_ok; cbv beta zeta.
  unfold asks_firm_list in Hlist; cbv beta zeta in Hlist.
  unfold asks_top_firms in Htop.
  rewrite Hlast, Hpast, Hrecall, Hlist, Htop; cbn [andb orb].
  unfold time_range_fallback; cbv zeta; rewrite Hlast.
  unfold days_back in Hstart; cbv zeta in Hstart.
  rewrite Hstart, Hend.
  fold (date_range start_str end_str).
  destruct (search_recalls_handler_query w (date_range start_str end_str) log)
    as [o Hcall]; [discriminate|].
  fold (range_params start_str end_str) in Hcall.
  unfold bind at 1; rewrite Hcall.
  destruct o as [payload|e]; [|eexists; split; [reflexivity | exact I]].
  destruct (search_recalls_handler_counted _ _ _ _ _ Hcall)
    as [recalls [Hrecalls Hcount]].
  unfold bind, lift, ret; rewrite Hcount.
  eexists; split; [reflexivity|].
  exists payload, recalls; repeat split; assumption.
Qed.

Lemma time_range_fallback_request_witness :
  exists o,
    conversation_rounds 5 two_recalls_world "Recalls of the past 2 weeks"
      ({| text := Ok "Here you are."; function_calls := [] |}, None) []
    = (o, [] ++ [HttpGet (range_params "20240101" "20240101")])
    /\ match o with
       | Ok r =>
           exists payload recalls,
             data r = Some payload
             /\ lookup (KStr "recalls") payload = Some (JList recalls)
             /\ answer r
                = ("Showing "
                     ++ PyStr.str_of_Z (Z.of_nat (List.length recalls))
                     ++ " recalls from " ++ "20240101" ++ " to "
                     ++ "20240101" ++ ".")%string
       | Raise _ => True
       end.
Proof.
  apply (time_range_fallback_request two_recalls_world
           "Recalls of the past 2 weeks"
           {| text := Ok "Here you are."; function_calls := [] |} None [] 4
           "Here you are." "20240101" "20240101"); reflexivity.
Defined.

(** The search of one year of the per-year loop, written out. *)
Lemma year_clause_2020 :
  year_clause 2020 = "recall_initiation_date:[20200101 TO 20201231]".
Proof. reflexivity. Qed.

(** The GET for the past two weeks, with the dates written out. *)
Lemma past_two_weeks_run :
  exists payload,
    conversation_rounds 5 fortnight_world "Recalls of the past 2 weeks"
      ({| text := Ok "Here you are."; function_calls := [] |}, None) []
    = (Ok {| answer := "Showing 2 recalls from 20231218 to 20240101.";
             data := Some payload |},
       [ HttpGet [ kv "limit" (JInt 50); kv "skip" (JInt 0);
                   kv "search"
                      (JStr "recall_initiation_date:[20231218 TO 20240101]");
                   kv "sort" (JStr "recall_initiation_date:desc") ] ]).
Proof. eexists; vm_compute; reflexivity. Qed.

(** Two weeks are fourteen days; "the last 2 weeks" is answered as the
    last two recalls. *)
Lemma past_two_weeks_days :
  days_back (fst (count_and_unit "past" "recalls of the past 2 weeks"))
            (snd (count_and_unit "past" "recalls of the past 2 weeks"))
  = 14%Z.
Proof. reflexivity. Qed.

Lemma last_two_weeks_run :
  exists payload,
    conversation_rounds 5 two_recalls_world "Recalls of the last 2 weeks"
      ({| text := Ok "Here you are."; function_calls := [] |}, None) []
    = (Ok {| answer := "Last 2 recalls (newest first). Found 2.";
             data := Some payload |},
       [HttpGet [ kv "limit" (JInt 2); kv "skip" (JInt 0);
                  kv "sort" newest_first ]]).
Proof. eexists; vm_compute; reflexivity. Qed.
